(** * Daily ledger service (backend/backend.js)

    A shallow embedding of the three HTTP handlers of the calorie tracker
    backend, of the JavaScript coercions their input validation relies on,
    and of the single MongoDB collection they read and write.

    Conventions of the model.
    - Strings are sequences of bytes (the UTF-8 encoding of the text), which
      is what the request body carries and what MongoDB stores and compares.
    - A JavaScript Number is NaN, an infinity or a finite binary64 value,
      held as the rational it denotes.  Addition and the reading of a
      numeric string round the exact result to the nearest binary64 value,
      ties to even, overflowing to an infinity and underflowing to zero;
      Number::toString prints the shortest decimal that reads back as the
      value.  The sign of zero is not represented.  The type also holds
      rationals that are no binary64 value; no operation produces one, and
      what is proved of every number holds of the binary64 values.
    - Request fields range over the JSON scalars and [Undefined] (field
      absent); arrays and nested objects are outside the model.
    - A document is projected on the three paths of [daySchema]; the
      store-assigned [_id] and [__v] are left out. *)

From Stdlib Require Import Bool List String Ascii NArith ZArith QArith Qcanon Lia.
From Stdlib Require Import Permutation Sorted DecimalString.
From Stdlib Require Import DecimalN.
From Stdlib Require Import Qround.
Import ListNotations.

Close Scope Qc_scope.
Close Scope Q_scope.
Local Open Scope string_scope.

(* ================================================================== *)
(** ** The JavaScript values and coercions used by the handlers        *)
(* ================================================================== *)

Module JS.

(** The Number type. *)
Inductive number : Type :=
| NaN
| Infinity (negative : bool)
| Finite (q : Qc).

Definition of_Z (z : Z) : number := Finite (Q2Qc (inject_Z z)).

Definition zero : number := of_Z 0.

Definition is_nan (x : number) : bool :=
  match x with NaN => true | _ => false end.

Definition is_zero (x : number) : bool :=
  match x with Finite q => Qeq_bool q 0 | _ => false end.

(** [x >= 0] *)
Definition nonneg (x : number) : bool :=
  match x with
  | NaN => false
  | Infinity negative => negb negative
  | Finite q => Qle_bool 0 q
  end.

(** *** Rounding to binary64

    A finite binary64 value is [m * 2^e] with [|m| < 2^53] and
    [-1074 <= e <= 971]. *)

(** [n / d] divided by [2^k], as a fraction. *)
Definition shift2 (n d k : Z) : Z * Z :=
  if (0 <=? k)%Z then (n, (d * 2 ^ k)%Z) else ((n * 2 ^ (- k))%Z, d).

(** The integer part of the binary logarithm of [n / d], for [n] and [d]
    positive. *)
Definition log2_ratio (n d : Z) : Z :=
  let l := (Z.log2 n - Z.log2 d)%Z in
  let '(n', d') := shift2 n d l in
  if (n' <? d')%Z then (l - 1)%Z else l.

(** The integer nearest to [n / d], the even one of two equally near. *)
Definition round_half_even (n d : Z) : Z :=
  let q := (n / d)%Z in
  match (2 * (n mod d) ?= d)%Z with
  | Lt => q
  | Gt => (q + 1)%Z
  | Eq => if Z.even q then q else (q + 1)%Z
  end.

(** [m * 2^e] *)
Definition pow2_times (m e : Z) : Q :=
  if (0 <=? e)%Z then inject_Z (m * 2 ^ e) else Qmake m (Z.to_pos (2 ^ (- e))).

(** The binary64 value nearest to [n / d], for [n] and [d] positive;
    [None] when it lies beyond the largest finite value. *)
Definition round_positive (n d : Z) : option Q :=
  let e := Z.max (log2_ratio n d - 52) (-1074) in
  let '(n', d') := shift2 n d e in
  let m := round_half_even n' d' in
  if ((0 <=? e) && (2 ^ 1024 <=? m * 2 ^ e))%Z then None
  else Some (pow2_times m e).

(** The Number nearest to the rational [q]. *)
Definition round64 (q : Q) : number :=
  match Qnum q with
  | Z0 => zero
  | Zpos n =>
      match round_positive (Zpos n) (Zpos (Qden q)) with
      | Some v => Finite (Q2Qc (Qred v))
      | None => Infinity false
      end
  | Zneg n =>
      match round_positive (Zpos n) (Zpos (Qden q)) with
      | Some v => Finite (Q2Qc (Qred (Qopp v)))
      | None => Infinity true
      end
  end.

(** Number addition (the operation [$inc] applies to a stored total). *)
Definition add (x y : number) : number :=
  match x, y with
  | NaN, _ | _, NaN => NaN
  | Infinity s, Infinity t => if Bool.eqb s t then Infinity s else NaN
  | Infinity s, Finite _ | Finite _, Infinity s => Infinity s
  | Finite a, Finite b => round64 (Qplus a b)
  end.

(** The numbers of a list added one after the other, from the first. *)
Definition add_in_order (l : list number) : number :=
  match l with
  | [] => zero
  | x :: rest => fold_left add rest x
  end.

Definition neg (x : number) : number :=
  match x with
  | NaN => NaN
  | Infinity s => Infinity (negb s)
  | Finite q => Finite (- q)%Qc
  end.

(** The values a field destructured from [req.body] can hold. *)
Inductive value : Type :=
| Undefined
| Null
| Bool (b : bool)
| Num (n : number)
| Str (s : string).

(** *** StringToNumber: the StringNumericLiteral grammar *)

Definition byte_at (i : nat) (s : string) : N :=
  match String.get i s with
  | Some c => N_of_ascii c
  | None => 256%N
  end.

(** Width in bytes of the WhiteSpace or LineTerminator code point at the
    head of [s]; [0] when [s] does not start with one. *)
Definition ws_width (s : string) : nat :=
  let b0 := byte_at 0 s in
  let b1 := byte_at 1 s in
  let b2 := byte_at 2 s in
  let ascii_ws := ((b0 =? 9) || (b0 =? 10) || (b0 =? 11) || (b0 =? 12)
                   || (b0 =? 13) || (b0 =? 32))%N in
  let general_punctuation :=
    ((b0 =? 226) && (b1 =? 128)
     && (((128 <=? b2) && (b2 <=? 138)) || (b2 =? 168) || (b2 =? 169)
         || (b2 =? 175)))%N in
  if ascii_ws then 1
  else if ((b0 =? 194) && (b1 =? 160))%N then 2
  else if ((b0 =? 225) && (b1 =? 154) && (b2 =? 128))%N then 3
  else if general_punctuation then 3
  else if ((b0 =? 226) && (b1 =? 129) && (b2 =? 159))%N then 3
  else if ((b0 =? 227) && (b1 =? 128) && (b2 =? 128))%N then 3
  else if ((b0 =? 239) && (b1 =? 187) && (b2 =? 191))%N then 3
  else 0.

(** Drops leading white space; [pending] counts the bytes still to drop of
    a multi-byte white space code point. *)
Fixpoint skip_ws_from (pending : nat) (s : string) : string :=
  match s with
  | EmptyString => EmptyString
  | String _ r =>
      match pending with
      | S k => skip_ws_from k r
      | O => match ws_width s with
             | O => s
             | S k => skip_ws_from k r
             end
      end
  end.

Definition skip_ws (s : string) : string := skip_ws_from 0 s.

Definition is_empty (s : string) : bool :=
  match s with EmptyString => true | String _ _ => false end.

(** Value of [c] as a digit of the given radix. *)
Definition radix_digit (radix : N) (c : ascii) : option N :=
  let n := N_of_ascii c in
  let v := (if (48 <=? n) && (n <=? 57) then Some (n - 48)
            else if (97 <=? n) && (n <=? 102) then Some (n - 87)
            else if (65 <=? n) && (n <=? 70) then Some (n - 55)
            else None)%N in
  match v with
  | Some d => if (d <? radix)%N then Some d else None
  | None => None
  end.

(** Reads the longest run of digits: accumulated value, number of digits
    read, and the rest of the string. *)
Fixpoint read_digits (radix acc : N) (count : nat) (s : string)
  : N * nat * string :=
  match s with
  | String c r =>
      match radix_digit radix c with
      | Some d => read_digits radix (acc * radix + d)%N (S count) r
      | None => (acc, count, s)
      end
  | EmptyString => (acc, count, s)
  end.

(** [m * 10^e] *)
Definition scale10 (m : N) (e : Z) : Qc :=
  if (0 <=? e)%Z then Q2Qc (inject_Z (Z.of_N m * 10 ^ e))
  else Q2Qc (Qmake (Z.of_N m) (Z.to_pos (10 ^ (- e)))).

(** ExponentPart, when present. *)
Definition read_exponent (s : string) : option (Z * string) :=
  match s with
  | String c r =>
      if (c =? "e")%char || (c =? "E")%char then
        let '(negative, r') :=
          match r with
          | String d t =>
              if (d =? "-")%char then (true, t)
              else if (d =? "+")%char then (false, t)
              else (false, r)
          | EmptyString => (false, r)
          end in
        let '(e, n, rest) := read_digits 10 0 0 r' in
        match n with
        | O => None
        | S _ => Some (if negative then (- Z.of_N e)%Z else Z.of_N e, rest)
        end
      else Some (0%Z, s)
  | EmptyString => Some (0%Z, s)
  end.

Fixpoint strip_prefix (p s : string) : option string :=
  match p, s with
  | EmptyString, _ => Some s
  | String a p', String b s' => if (a =? b)%char then strip_prefix p' s' else None
  | String _ _, EmptyString => None
  end.

(** StrUnsignedDecimalLiteral *)
Definition read_unsigned_decimal (s : string) : option (number * string) :=
  match strip_prefix "Infinity" s with
  | Some rest => Some (Infinity false, rest)
  | None =>
      let '(ip, n1, r1) := read_digits 10 0 0 s in
      let '(m, n2, r2) :=
        match r1 with
        | String c r' =>
            if (c =? ".")%char then read_digits 10 ip 0 r' else (ip, O, r1)
        | EmptyString => (ip, O, r1)
        end in
      match (n1 + n2)%nat with
      | O => None
      | S _ =>
          match read_exponent r2 with
          | Some (e, r3) => Some (round64 (scale10 m (e - Z.of_nat n2)), r3)
          | None => None
          end
      end
  end.

(** StrDecimalLiteral: an optional sign and an unsigned literal. *)
Definition read_decimal (s : string) : option (number * string) :=
  match s with
  | String c r =>
      if (c =? "-")%char then
        match read_unsigned_decimal r with
        | Some (v, rest) => Some (neg v, rest)
        | None => None
        end
      else if (c =? "+")%char then read_unsigned_decimal r
      else read_unsigned_decimal s
  | EmptyString => None
  end.

(** Radix announced by a [0b], [0o] or [0x] prefix. *)
Definition radix_prefix (s : string) : option (N * string) :=
  match s with
  | String z (String c r) =>
      if (z =? "0")%char then
        if (c =? "x")%char || (c =? "X")%char then Some (16%N, r)
        else if (c =? "o")%char || (c =? "O")%char then Some (8%N, r)
        else if (c =? "b")%char || (c =? "B")%char then Some (2%N, r)
        else None
      else None
  | _ => None
  end.

(** StrNumericLiteral *)
Definition read_numeric (s : string) : option (number * string) :=
  match radix_prefix s with
  | Some (radix, r) =>
      let '(v, n, rest) := read_digits radix 0 0 r in
      match n with
      | O => None
      | S _ => Some (round64 (inject_Z (Z.of_N v)), rest)
      end
  | None => read_decimal s
  end.

Definition StringToNumber (s : string) : number :=
  let t := skip_ws s in
  if is_empty t then zero
  else match read_numeric t with
       | Some (v, rest) => if is_empty (skip_ws rest) then v else NaN
       | None => NaN
       end.

(** *** ToBoolean, ToNumber, isNaN *)

Definition ToBoolean (v : value) : bool :=
  match v with
  | Undefined | Null => false
  | Bool b => b
  | Num n => negb (is_zero n || is_nan n)
  | Str s => negb (is_empty s)
  end.

Definition ToNumber (v : value) : number :=
  match v with
  | Undefined => NaN
  | Null => zero
  | Bool b => if b then of_Z 1 else zero
  | Num n => n
  | Str s => StringToNumber s
  end.

(** [Number(v)] called as a function. *)
Definition Number (v : value) : number := ToNumber v.

(** The global [isNaN(v)]. *)
Definition isNaN (v : value) : bool := is_nan (ToNumber v).

(** [!v] *)
Definition not (v : value) : bool := negb (ToBoolean v).

(** *** Number::toString, radix 10 *)

Definition digits (n : N) : string := NilZero.string_of_uint (N.to_uint n).

Fixpoint zeros (n : nat) : string :=
  match n with O => "" | S k => String "0" (zeros k) end.

(** Scales [num / den] by powers of ten until it is an integer: the
    integer and the number of decimal places.  When the fraction has no
    finite decimal expansion the expansion is cut after [fuel] places. *)
Fixpoint to_decimal (fuel : nat) (num den : Z) : Z * nat :=
  match fuel with
  | O => ((num / den)%Z, O)
  | S f =>
      if (num mod den =? 0)%Z then ((num / den)%Z, O)
      else let '(m, t) := to_decimal f (10 * num)%Z den in (m, S t)
  end.

(** Removes the trailing zeros of [m]: the remaining digits and how many
    zeros were removed. *)
Fixpoint strip_zeros (fuel : nat) (m : N) : N * nat :=
  match fuel with
  | O => (m, O)
  | S f =>
      if (m mod 10 =? 0)%N && negb (m =? 0)%N
      then let '(s, z) := strip_zeros f (m / 10)%N in (s, S z)
      else (m, O)
  end.

(** The digits [s] of a positive number and the position [n] of its
    decimal point, laid out as Number::toString does. *)
Definition format_decimal (s : string) (n : Z) : string :=
  let k := Z.of_nat (String.length s) in
  if ((k <=? n) && (n <=? 21))%Z then s ++ zeros (Z.to_nat (n - k))
  else if ((0 <? n) && (n <=? 21))%Z then
    substring 0 (Z.to_nat n) s ++ "." ++ substring (Z.to_nat n) (Z.to_nat (k - n)) s
  else if ((-6 <? n) && (n <=? 0))%Z then "0." ++ zeros (Z.to_nat (- n)) ++ s
  else
    let e := (n - 1)%Z in
    let exponent := (if (e <? 0)%Z then "-" else "+") ++ digits (Z.abs_N e) in
    if (k =? 1)%Z then s ++ "e" ++ exponent
    else substring 0 1 s ++ "." ++ substring 1 (Z.to_nat (k - 1)) s
         ++ "e" ++ exponent.

Definition positive_toString (q : Q) : string :=
  let '(m, t) := to_decimal (Pos.size_nat (Qden q)) (Qnum q) (Zpos (Qden q)) in
  let '(s, z) := strip_zeros (N.size_nat (Z.to_N m)) (Z.to_N m) in
  let str := digits s in
  format_decimal str (Z.of_nat (String.length str) + Z.of_nat z - Z.of_nat t).

(** How many times [num / den], below one, is multiplied by ten before it
    reaches one. *)
Fixpoint leading_zeros (fuel : nat) (num den : Z) : nat :=
  match fuel with
  | O => O
  | S f => if (den <=? num)%Z then O else S (leading_zeros f (10 * num)%Z den)
  end.

(** The least [n] with [q < 10^n], for [q] positive. *)
Definition decimal_point (q : Q) : Z :=
  let num := Qnum q in
  let den := Zpos (Qden q) in
  if (den <=? num)%Z then Z.of_nat (String.length (digits (Z.to_N (num / den))))
  else (1 - Z.of_nat (leading_zeros (Pos.size_nat (Qden q)) num den))%Z.

(** [10^e] *)
Definition pow10 (e : Z) : Q :=
  if (0 <=? e)%Z then inject_Z (10 ^ e) else Qmake 1 (Z.to_pos (10 ^ (- e))).

(** [v] reads back as the value [q]. *)
Definition reads_as (q v : Q) : bool :=
  match round64 v with
  | Finite r => Qeq_bool r q
  | _ => false
  end.

(** The decimal of [k] significant digits that reads back as [q], whose
    decimal point is at [n]: of two, the nearer to [q], and the one with
    the even last digit when they are equally near. *)
Definition decimal_of_length (q : Q) (n k : Z) : option Q :=
  let unit := pow10 (n - k) in
  let s := Qfloor (Qdiv q unit) in
  let below := Qmult (inject_Z s) unit in
  let above := Qmult (inject_Z (s + 1)) unit in
  match reads_as q below, reads_as q above with
  | true, true =>
      match Qcompare (Qminus q below) (Qminus above q) with
      | Lt => Some below
      | Gt => Some above
      | Eq => Some (if Z.even s then below else above)
      end
  | true, false => Some below
  | false, true => Some above
  | false, false => None
  end.

(** The decimal with the fewest significant digits, [k] or more, that
    reads back as [q]; [q] itself when [fuel] lengths have been tried. *)
Fixpoint shortest_decimal (fuel : nat) (q : Q) (n k : Z) : Q :=
  match fuel with
  | O => q
  | S f =>
      match decimal_of_length q n k with
      | Some v => v
      | None => shortest_decimal f q n (k + 1)%Z
      end
  end.

Definition number_toString (x : number) : string :=
  match x with
  | NaN => "NaN"
  | Infinity negative => if negative then "-Infinity" else "Infinity"
  | Finite q =>
      if Qeq_bool q 0 then "0"
      else if Qle_bool 0 q
      then positive_toString (shortest_decimal 17 q (decimal_point q) 1)
      else "-" ++ positive_toString
                    (shortest_decimal 17 (Qopp q) (decimal_point (Qopp q)) 1)
  end.

End JS.

(* ================================================================== *)
(** ** The [Day] model and its collection                              *)
(* ================================================================== *)

Module Day.

Import JS.

(** A document of the collection, on the paths of [daySchema]. *)
Record doc : Type := {
  date : string;
  totalCalories : number;
  totalProtein : number
}.

(** The connection opened by [mongoose.connect] and the documents of the
    collection, in insertion order. *)
Record database : Type := {
  connected : bool;
  days : list doc
}.

Definition empty : database := {| connected := true; days := [] |}.

Inductive error : Type :=
| NotConnected
| CastError.

(** A settled promise. *)
Inductive settled (A : Type) : Type :=
| Fulfilled (a : A)
| Rejected (e : error).

Arguments Fulfilled {A} a.
Arguments Rejected {A} e.

(** The update documents the handlers send:
    [{ $inc: { totalCalories: c, totalProtein: p } }] and
    [{ totalCalories: c, totalProtein: p }] (a [$set]). *)
Inductive update : Type :=
| Inc (c p : number)
| SetTotals (c p : number).

(** Cast of a filter value to the [String] type of the [date] path. *)
Definition castString (v : value) : option string :=
  match v with
  | Str s => Some s
  | Num n => Some (number_toString n)
  | Bool b => Some (if b then "true" else "false")
  | Undefined | Null => None
  end.

Definition apply_update (u : update) (d : doc) : doc :=
  match u with
  | Inc c p =>
      {| date := date d;
         totalCalories := add (totalCalories d) c;
         totalProtein := add (totalProtein d) p |}
  | SetTotals c p =>
      {| date := date d; totalCalories := c; totalProtein := p |}
  end.

(** The document an upsert inserts: the equality field of the filter and
    the paths of the update ([$inc] on a missing path sets it; defaults
    are applied to the other paths only, and there are none). *)
Definition upserted (key : string) (u : update) : doc :=
  match u with
  | Inc c p | SetTotals c p =>
      {| date := key; totalCalories := c; totalProtein := p |}
  end.

(** Updates the first document whose [date] is [key]; [None] when no
    document matches. *)
Fixpoint update_first (key : string) (u : update) (l : list doc)
  : option (doc * list doc) :=
  match l with
  | [] => None
  | d :: rest =>
      if (date d =? key)%string then
        let d' := apply_update u d in Some (d', d' :: rest)
      else
        match update_first key u rest with
        | Some (d', rest') => Some (d', d :: rest')
        | None => None
        end
  end.

(** [Day.findOneAndUpdate({ date: filter }, u, { new: true, upsert: true,
    setDefaultsOnInsert: true })], one atomic operation of the store. *)
Definition findOneAndUpdate (filter : value) (u : update) (db : database)
  : settled doc * database :=
  if negb (connected db) then (Rejected NotConnected, db)
  else
    match castString filter with
    | None => (Rejected CastError, db)
    | Some key =>
        match update_first key u (days db) with
        | Some (d, l) => (Fulfilled d, {| connected := true; days := l |})
        | None =>
            let d := upserted key u in
            (Fulfilled d, {| connected := true; days := days db ++ [d] |})
        end
    end.

(** Insertion in a list sorted by [date], descending. *)
Fixpoint insert_desc (d : doc) (l : list doc) : list doc :=
  match l with
  | [] => [d]
  | x :: rest =>
      if String.leb (date x) (date d) then d :: l
      else x :: insert_desc d rest
  end.

Fixpoint sort_desc (l : list doc) : list doc :=
  match l with
  | [] => []
  | d :: rest => insert_desc d (sort_desc rest)
  end.

(** [Day.find().sort({ date: -1 })] *)
Definition find_sort (db : database) : settled (list doc) * database :=
  if negb (connected db) then (Rejected NotConnected, db)
  else (Fulfilled (sort_desc (days db)), db).

(** The store operations a handler awaits, indexed by what they resolve to. *)
Inductive command : Type -> Type :=
| FindSort : command (list doc)
| FindOneAndUpdate (filter : value) (u : update) : command doc.

Definition exec {A : Type} (c : command A) (db : database)
  : settled A * database :=
  match c in command T return settled T * database with
  | FindSort => find_sort db
  | FindOneAndUpdate filter u => findOneAndUpdate filter u db
  end.

(** Observations on the collection: the documents with a given [date]. *)
Definition has_date (key : string) (d : doc) : bool := (date d =? key)%string.

Definition count (key : string) (l : list doc) : nat :=
  List.length (filter (has_date key) l).

Definition lookup (key : string) (l : list doc) : option doc :=
  find (has_date key) l.

Definition nonneg_totals (d : doc) : bool :=
  nonneg (totalCalories d) && nonneg (totalProtein d).

(** An update that writes or adds non-negative amounts only. *)
Definition nonneg_update (u : update) : bool :=
  match u with
  | Inc c p | SetTotals c p => nonneg c && nonneg p
  end.

(** [a] comes before [b] in descending order of [date]. *)
Definition date_ge (a b : doc) : Prop := String.leb (date b) (date a) = true.

End Day.

(* ================================================================== *)
(** ** The Express application                                         *)
(* ================================================================== *)

Module App.

Import JS.

(** [req.body], on the three properties the handlers destructure. *)
Record body : Type := {
  calories : value;
  protein : value;
  date : value
}.

(** What [new Date()] reads in local time, on the three getters the
    helper calls. *)
Record Date : Type := {
  getFullYear : N;
  getMonth : N;
  getDate : N
}.

(** [s.padStart(n, '0')] *)
Definition padStart (n : nat) (s : string) : string :=
  zeros (n - String.length s) ++ s.

(** [getTodayLocalDate], as a function of the clock reading [now]:
    today's date in YYYY-MM-DD format. *)
Definition getTodayLocalDate (now : Date) : string :=
  let year := getFullYear now in
  let month := padStart 2 (digits (getMonth now + 1)) in
  let day := padStart 2 (digits (getDate now)) in
  digits year ++ "-" ++ month ++ "-" ++ day.

Inductive payload : Type :=
| Message (message : string)
| Document (d : Day.doc)
| Documents (l : list Day.doc).

(** [res.status(status).json(json)] *)
Record response : Type := {
  status : nat;
  json : payload
}.

(** An [async] handler: it responds, or awaits a store operation and
    resumes with the settled promise. *)
Inductive handler : Type :=
| Respond (r : response)
| Await {A : Type} (c : Day.command A) (resume : Day.settled A -> handler).

(** [app.get('/api/days', ...)] *)
Definition get_api_days : handler :=
  Await Day.FindSort (fun r =>
    match r with
    | Day.Fulfilled days => Respond {| status := 200; json := Documents days |}
    | Day.Rejected _ =>
        Respond {| status := 500;
                   json := Message "Server Error: Could not fetch data." |}
    end).

(** The validation of [app.post('/api/meals', ...)]: [true] when the
    request is rejected. *)
Definition meal_invalid (req : body) : bool :=
  not (calories req) || not (protein req) || not (date req)
  || isNaN (calories req) || isNaN (protein req) || isNaN (date req).

(** [app.post('/api/meals', ...)] *)
Definition post_api_meals (req : body) : handler :=
  if meal_invalid req then
    Respond {| status := 400;
               json := Message "Invalid input. Please provide numeric values for calories and protein." |}
  else
    let today := date req in
    Await (Day.FindOneAndUpdate today
             (Day.Inc (Number (calories req)) (Number (protein req))))
      (fun r =>
         match r with
         | Day.Fulfilled dayEntry =>
             Respond {| status := 200; json := Document dayEntry |}
         | Day.Rejected _ =>
             Respond {| status := 500;
                        json := Message "Server Error: Could not save data." |}
         end).

(** The validation of [app.put('/api/days/reset', ...)]. *)
Definition reset_invalid (req : body) : bool :=
  not (date req) || isNaN (date req).

(** [app.put('/api/days/reset', ...)] *)
Definition put_api_days_reset (req : body) : handler :=
  if reset_invalid req then
    Respond {| status := 400;
               json := Message "Invalid input. Please provide a valid date." |}
  else
    let today := date req in
    Await (Day.FindOneAndUpdate today (Day.SetTotals zero zero))
      (fun r =>
         match r with
         | Day.Fulfilled dayEntry =>
             Respond {| status := 200; json := Document dayEntry |}
         | Day.Rejected _ =>
             Respond {| status := 500;
                        json := Message "Server Error: Could not reset data." |}
         end).

(** A handler run alone, from the request to its response. *)
Fixpoint run (h : handler) (db : Day.database) : response * Day.database :=
  match h with
  | Respond r => (r, db)
  | Await c resume =>
      let '(r, db') := Day.exec c db in run (resume r) db'
  end.

(** The requests the application serves. *)
Inductive request : Type :=
| GetDays
| PostMeal (req : body)
| PutReset (req : body).

Definition route (q : request) : handler :=
  match q with
  | GetDays => get_api_days
  | PostMeal req => post_api_meals req
  | PutReset req => put_api_days_reset req
  end.

(** Requests served one after the other. *)
Fixpoint serve (qs : list request) (db : Day.database) : Day.database :=
  match qs with
  | [] => db
  | q :: rest => serve rest (snd (run (route q) db))
  end.

(** Validation outcome of a request: [true] when its handler rejects it. *)
Definition invalid (q : request) : bool :=
  match q with
  | GetDays => false
  | PostMeal req => meal_invalid req
  | PutReset req => reset_invalid req
  end.

(** A request that, if it is an accepted meal, adds non-negative amounts. *)
Definition adds_nonneg (q : request) : bool :=
  match q with
  | PostMeal req =>
      meal_invalid req
      || (nonneg (Number (calories req)) && nonneg (Number (protein req)))
  | GetDays | PutReset _ => true
  end.

(** The update a handler hands to the store when it starts, if any. *)
Definition issued (h : handler) : option Day.update :=
  match h with
  | Await c _ =>
      match c with
      | Day.FindOneAndUpdate _ u => Some u
      | Day.FindSort => None
      end
  | Respond _ => None
  end.

End App.

(* ================================================================== *)
(** ** Requests in flight at the same time                             *)
(* ================================================================== *)

(** Node runs one handler at a time and switches only at an [await]; the
    store performs the operations it was handed one at a time, each as a
    whole, in an order of its own.  A pool holds the handlers in flight,
    each suspended at its [await] or finished; a schedule lists, in the
    order the store serves them, the positions of the handlers whose
    pending operation is performed next. *)
Module Loop.

Import App.

(** Performs the pending operation of the [i]-th handler and resumes it;
    [None] when there is no such handler or it has finished. *)
Fixpoint resume_nth (i : nat) (pool : list handler) (db : Day.database)
  : option (Day.database * list handler) :=
  match pool, i with
  | [], _ => None
  | Respond _ :: _, O => None
  | Await c resume :: rest, O =>
      let '(r, db') := Day.exec c db in Some (db', resume r :: rest)
  | h :: rest, S j =>
      match resume_nth j rest db with
      | Some (db', rest') => Some (db', h :: rest')
      | None => None
      end
  end.

Fixpoint interleave (schedule : list nat) (pool : list handler)
  (db : Day.database) : option (Day.database * list handler) :=
  match schedule with
  | [] => Some (db, pool)
  | i :: rest =>
      match resume_nth i pool db with
      | Some (db', pool') => interleave rest pool' db'
      | None => None
      end
  end.

Definition responded (h : handler) : bool :=
  match h with Respond _ => true | Await _ _ => false end.

(** Every handler of the pool has sent its response. *)
Definition quiescent (pool : list handler) : bool := forallb responded pool.

(** The requests in the order in which a schedule has their store
    operations performed. *)
Definition served_order (reqs : list body) (schedule : list nat) : list body :=
  flat_map (fun i => match nth_error reqs i with
                     | Some req => [req]
                     | None => []
                     end) schedule.

(** A handler of an accepted meal for the date [d], suspended at its store
    operation, or any handler that has responded. *)
Definition meal_for (d : string) (h : handler) : Prop :=
  responded h = true
  \/ exists req : body,
       meal_invalid req = false
       /\ Day.castString (date req) = Some d
       /\ h = post_api_meals req.

End Loop.

(* ================================================================== *)
(** ** The ledger a date's document keeps                              *)
(* ================================================================== *)

Module Ledger.

Import JS App.

(** The [date] a request addresses, as the [date] path casts it. *)
Definition key_of (q : request) : option string :=
  match q with
  | GetDays => None
  | PostMeal req | PutReset req => Day.castString (date req)
  end.

(** The two totals the store holds for a date, when it has a document. *)
Definition totals_of (d : string) (db : Day.database) : option (number * number) :=
  match Day.lookup d (Day.days db) with
  | Some x => Some (Day.totalCalories x, Day.totalProtein x)
  | None => None
  end.

(** What a request does to the totals of the date [d]: an accepted meal
    for [d] adds its amounts (and sets them when there were none), an
    accepted reset for [d] sets both to zero, anything else leaves them. *)
Definition tally_step (d : string) (t : option (number * number)) (q : request)
  : option (number * number) :=
  match q with
  | GetDays => t
  | PostMeal req =>
      if meal_invalid req then t
      else
        match Day.castString (date req) with
        | Some key =>
            if (key =? d)%string then
              match t with
              | Some (C, P) =>
                  Some (add C (Number (calories req)), add P (Number (protein req)))
              | None => Some (Number (calories req), Number (protein req))
              end
            else t
        | None => t
        end
  | PutReset req =>
      if reset_invalid req then t
      else
        match Day.castString (date req) with
        | Some key => if (key =? d)%string then Some (zero, zero) else t
        | None => t
        end
  end.

Definition tally (d : string) (qs : list request) (t : option (number * number))
  : option (number * number) :=
  fold_left (tally_step d) qs t.

(** The sum of whole-number amounts, and the sum of their absolute
    values. *)
Definition total (l : list Z) : Z := fold_right Z.add 0%Z l.

Definition magnitude (l : list Z) : Z :=
  fold_right (fun z acc => (Z.abs z + acc)%Z) 0%Z l.

(** [Number.isFinite(x)] *)
Definition is_finite (x : number) : bool :=
  match x with Finite _ => true | NaN | Infinity _ => false end.

(** Neither total of the document is NaN. *)
Definition nan_free (d : Day.doc) : bool :=
  negb (is_nan (Day.totalCalories d)) && negb (is_nan (Day.totalProtein d)).

Definition finite_update (u : Day.update) : bool :=
  match u with
  | Day.Inc c p | Day.SetTotals c p => is_finite c && is_finite p
  end.

(** A request that, if it is an accepted meal, adds finite amounts. *)
Definition adds_finite (q : request) : bool :=
  match q with
  | PostMeal req =>
      meal_invalid req
      || (is_finite (Number (calories req)) && is_finite (Number (protein req)))
  | GetDays | PutReset _ => true
  end.

Definition is_digit (c : ascii) : bool :=
  match radix_digit 10 c with Some _ => true | None => false end.

Fixpoint all_digits (s : string) : bool :=
  match s with
  | EmptyString => true
  | String c r => is_digit c && all_digits r
  end.

(** What is left of a string after its leading decimal digits. *)
Fixpoint after_digits (s : string) : string :=
  match s with
  | EmptyString => EmptyString
  | String c r => if is_digit c then after_digits r else s
  end.

(** A string that starts with decimal digits followed by a hyphen, as a
    date written year first does. *)
Definition dashed (s : string) : bool :=
  match s with String c _ => is_digit c | EmptyString => false end
  && match after_digits s with
     | String c _ => (c =? "-")%char
     | EmptyString => false
     end.

(** A clock reading in a year of four digits. *)
Definition calendar (now : Date) : bool :=
  ((1000 <=? getFullYear now) && (getFullYear now <=? 9999)
   && (getMonth now <=? 11)
   && (1 <=? getDate now) && (getDate now <=? 31))%N.

(** Order of two clock readings by year, then month, then day. *)
Definition chronological (a b : Date) : comparison :=
  match (getFullYear a ?= getFullYear b)%N with
  | Eq =>
      match (getMonth a ?= getMonth b)%N with
      | Eq => (getDate a ?= getDate b)%N
      | c => c
      end
  | c => c
  end.

End Ledger.

(* ================================================================== *)
(** ** Pools of arbitrary requests                                     *)
(* ================================================================== *)

Module Serial.

Import App Loop.

(** A position of a pool: the request whose handler is still to be
    resumed there, or nothing once the handler has responded. *)
Definition tracks (slot : option request) (h : handler) : Prop :=
  match slot with
  | Some q => h = route q
  | None => responded h = true
  end.

(** The requests of the positions still to be resumed. *)
Definition unserved (slots : list (option request)) : list request :=
  flat_map (fun slot => match slot with Some q => [q] | None => [] end) slots.

End Serial.

Import JS.
Local Open Scope list_scope.

(* ================================================================== *)
(** ** Numbers                                                         *)
(* ================================================================== *)

Section NumberFacts.

Lemma shift2_positive (n d k : Z) :
  (0 < n)%Z -> (0 < d)%Z ->
  (0 < fst (shift2 n d k))%Z /\ (0 < snd (shift2 n d k))%Z.
Proof.
  intros Hn Hd. unfold shift2.
  destruct (0 <=? k)%Z eqn:K; cbn [fst snd]; split; try assumption.
  - apply Z.mul_pos_pos; [assumption|].
    apply Z.pow_pos_nonneg; [lia|]. apply Z.leb_le. exact K.
  - apply Z.mul_pos_pos; [assumption|].
    apply Z.pow_pos_nonneg; [lia|]. apply Z.leb_gt in K. lia.
Qed.

Lemma round_half_even_nonneg (n d : Z) :
  (0 <= n)%Z -> (0 < d)%Z -> (0 <= round_half_even n d)%Z.
Proof.
  intros Hn Hd. unfold round_half_even.
  assert (H : (0 <= n / d)%Z) by (apply Z.div_pos; assumption).
  destruct (2 * (n mod d) ?= d)%Z; [destruct (Z.even (n / d))| |]; lia.
Qed.

Lemma round_half_even_unit (n : Z) : round_half_even n 1 = n.
Proof.
  unfold round_half_even. rewrite Z.mod_1_r, Z.div_1_r. reflexivity.
Qed.

Lemma pow2_times_nonneg (m e : Z) : (0 <= m)%Z -> (0 <= pow2_times m e)%Q.
Proof.
  intros Hm. unfold pow2_times.
  destruct (0 <=? e)%Z eqn:E; unfold Qle; cbn [Qnum Qden inject_Z].
  - apply Z.leb_le in E.
    assert (0 <= 2 ^ e)%Z by (apply Z.pow_nonneg; lia). nia.
  - lia.
Qed.

Lemma round_positive_nonneg (n d : Z) (v : Q) :
  (0 < n)%Z -> (0 < d)%Z -> round_positive n d = Some v -> (0 <= v)%Q.
Proof.
  intros Hn Hd. unfold round_positive.
  set (e := Z.max _ _).
  destruct (shift2_positive n d e Hn Hd) as [Hn' Hd'].
  destruct (shift2 n d e) as [n' d']. cbn [fst snd] in Hn', Hd'.
  destruct (_ && _); [discriminate|].
  intros [= <-]. apply pow2_times_nonneg.
  apply round_half_even_nonneg; lia.
Qed.

(** Rounding never gives NaN. *)
Lemma round64_not_nan (q : Q) : is_nan (round64 q) = false.
Proof.
  unfold round64.
  destruct (Qnum q); [reflexivity| |];
    destruct (round_positive _ _); reflexivity.
Qed.

(** Rounding keeps the sign. *)
Lemma round64_nonneg (q : Q) : (0 <= q)%Q -> nonneg (round64 q) = true.
Proof.
  intros Hq. unfold round64.
  destruct q as [num den]. cbn [Qnum Qden].
  destruct num as [|n|n].
  - reflexivity.
  - destruct (round_positive (Z.pos n) (Z.pos den)) as [v|] eqn:R; [|reflexivity].
    cbn [nonneg]. apply Qle_bool_iff.
    change (0 <= Qred (Qred v))%Q. rewrite !Qred_correct.
    apply (round_positive_nonneg _ _ _ (Pos2Z.is_pos n) (Pos2Z.is_pos den) R).
  - exfalso. unfold Qle in Hq. cbn [Qnum Qden] in Hq. lia.
Qed.

(** A positive integer below [2^53] is its own nearest binary64 value. *)
Lemma round_positive_integer (n : Z) :
  (0 < n < 2 ^ 53)%Z ->
  exists v : Q, round_positive n 1 = Some v /\ (v == inject_Z n)%Q.
Proof.
  intros [Hn Hlt]. unfold round_positive, log2_ratio.
  change (Z.log2 1) with 0%Z.
  pose proof (Z.log2_nonneg n) as L0.
  assert (L1 : (Z.log2 n < 53)%Z) by (apply Z.log2_lt_pow2; assumption).
  destruct (Z.log2_spec n Hn) as [Lo _].
  set (l := Z.log2 n) in *.
  assert (S1 : shift2 n 1 (l - 0) = (n, (1 * 2 ^ (l - 0))%Z)).
  { unfold shift2. replace (0 <=? l - 0)%Z with true; [reflexivity|].
    symmetry. apply Z.leb_le. lia. }
  rewrite S1.
  replace (n <? 1 * 2 ^ (l - 0))%Z with false
    by (symmetry; apply Z.ltb_ge; rewrite Z.sub_0_r; lia).
  replace (Z.max (l - 0 - 52) (-1074)) with (l - 52)%Z by lia.
  assert (B : (2 ^ 53 <= 2 ^ 1024)%Z) by (apply Z.pow_le_mono_r; lia).
  unfold shift2. destruct (0 <=? l - 52)%Z eqn:E.
  - apply Z.leb_le in E. assert (El : (l - 52 = 0)%Z) by lia.
    rewrite El. change (1 * 2 ^ 0)%Z with 1%Z.
    rewrite round_half_even_unit. change (2 ^ 0)%Z with 1%Z.
    rewrite Z.mul_1_r. cbn [andb Z.leb Z.compare].
    replace (2 ^ 1024 <=? n)%Z with false by (symmetry; apply Z.leb_gt; lia).
    eexists. split; [reflexivity|].
    unfold pow2_times. cbn [Z.leb Z.compare].
    change (2 ^ 0)%Z with 1%Z. rewrite Z.mul_1_r. reflexivity.
  - apply Z.leb_gt in E.
    rewrite round_half_even_unit. cbn [andb].
    eexists. split; [reflexivity|].
    unfold pow2_times. rewrite (proj2 (Z.leb_gt _ _) E).
    assert (P : (0 < 2 ^ (- (l - 52)))%Z) by (apply Z.pow_pos_nonneg; lia).
    unfold Qeq. cbn [Qnum Qden inject_Z].
    rewrite Z2Pos.id by exact P. lia.
Qed.

(** An integer below [2^53] in absolute value is a binary64 value. *)
Lemma round64_integer (z : Z) :
  (Z.abs z < 2 ^ 53)%Z -> round64 (inject_Z z) = of_Z z.
Proof.
  intros Hz. unfold round64, of_Z. cbn [inject_Z Qnum Qden].
  destruct z as [|n|n].
  - reflexivity.
  - destruct (round_positive_integer (Z.pos n)) as (v & -> & Hv); [lia|].
    f_equal. apply Q2Qc_eq_iff. rewrite Qred_correct. exact Hv.
  - destruct (round_positive_integer (Z.pos n)) as (v & -> & Hv); [lia|].
    f_equal. apply Q2Qc_eq_iff. rewrite Qred_correct, Hv. reflexivity.
Qed.

Lemma this_of_Z (z : Z) : this (Q2Qc (inject_Z z)) = inject_Z z.
Proof.
  cbn [this Q2Qc]. apply Qred_identity.
  cbn [inject_Z Qnum Qden]. apply Z.gcd_1_r.
Qed.

(** Addition is exact as long as the sum of two integers stays below
    [2^53] in absolute value. *)
Lemma add_of_Z (a b : Z) :
  (Z.abs (a + b) < 2 ^ 53)%Z -> add (of_Z a) (of_Z b) = of_Z (a + b).
Proof.
  intros H. unfold of_Z at 1 2. cbn [add]. rewrite !this_of_Z.
  replace (Qplus (inject_Z a) (inject_Z b)) with (inject_Z (a + b)).
  - apply round64_integer. exact H.
  - unfold Qplus, inject_Z. cbn [Qnum Qden]. f_equal. lia.
Qed.

Lemma add_comm (x y : number) : add x y = add y x.
Proof.
  destruct x as [|s|a], y as [|t|b]; simpl; try reflexivity.
  - destruct s, t; reflexivity.
  - f_equal. unfold Qplus. f_equal; [lia|]. apply Pos.mul_comm.
Qed.

Lemma nonneg_add (x y : number) :
  nonneg x = true -> nonneg y = true -> nonneg (add x y) = true.
Proof.
  destruct x as [|s|a], y as [|t|b]; cbn [nonneg add];
    try discriminate; try tauto.
  - destruct s, t; simpl; intros; try discriminate; reflexivity.
  - rewrite !Qle_bool_iff. intros Ha Hb.
    apply round64_nonneg.
    change 0%Q with (0 + 0)%Q.
    apply Qplus_le_compat; assumption.
Qed.

Lemma nonneg_zero : nonneg zero = true.
Proof. reflexivity. Qed.

(** [0.1 + 0.2] is not [0.3], and addition is not associative. *)
Example addition_rounds :
  number_toString (add (round64 (1 # 10)) (round64 (2 # 10)))
  = "0.30000000000000004"
  /\ number_toString (round64 (3 # 10)) = "0.3"
  /\ number_toString
       (add (add (round64 (1 # 10)) (round64 (2 # 10))) (round64 (3 # 10)))
     = "0.6000000000000001"
  /\ number_toString
       (add (round64 (1 # 10)) (add (round64 (2 # 10)) (round64 (3 # 10))))
     = "0.6".
Proof.
  repeat match goal with |- _ /\ _ => split end; vm_compute; reflexivity.
Qed.

(** Beyond [2^53] not every integer is a value; the sum of two finite
    values can be an infinity. *)
Example addition_overflows :
  add (of_Z 9007199254740992) (of_Z 1) = of_Z 9007199254740992
  /\ add (StringToNumber "1e308") (StringToNumber "1e308") = Infinity false.
Proof. split; vm_compute; reflexivity. Qed.

(** Numeric strings are rounded as they are read: to an infinity beyond
    the largest finite value, to zero below the smallest. *)
Example reading_rounds :
  StringToNumber "1e400" = Infinity false
  /\ StringToNumber "-1e400" = Infinity true
  /\ StringToNumber "1e-400" = zero
  /\ StringToNumber "1.7976931348623157e308"
     = of_Z (2 ^ 1024 - 2 ^ 971)
  /\ StringToNumber "5e-324" = round64 (1 # Z.to_pos (2 ^ 1074))
  /\ StringToNumber "9007199254740993" = of_Z 9007199254740992
  /\ StringToNumber "0x20000000000001" = of_Z 9007199254740992.
Proof.
  repeat match goal with |- _ /\ _ => split end; vm_compute; reflexivity.
Qed.

(** Number::toString prints the shortest decimal that reads back. *)
Example printing_is_shortest :
  number_toString (of_Z (2 ^ 60)) = "1152921504606847000"
  /\ number_toString (of_Z 20240115) = "20240115"
  /\ number_toString (StringToNumber "123456789012345678901234")
     = "1.2345678901234569e+23"
  /\ number_toString (StringToNumber "0.000001") = "0.000001"
  /\ number_toString (StringToNumber "0.0000001") = "1e-7"
  /\ number_toString (StringToNumber "-2.50") = "-2.5"
  /\ number_toString (StringToNumber "5e-324") = "5e-324"
  /\ number_toString (StringToNumber "1.7976931348623157e308")
     = "1.7976931348623157e+308".
Proof.
  repeat match goal with |- _ /\ _ => split end; vm_compute; reflexivity.
Qed.

End NumberFacts.


(* ================================================================== *)
(** ** The collection                                                  *)
(* ================================================================== *)

Section CollectionFacts.

Import Day.

Lemma has_date_true (key : string) (d : doc) :
  has_date key d = true <-> date d = key.
Proof. unfold has_date. apply String.eqb_eq. Qed.

Lemma count_app (key : string) (l1 l2 : list doc) :
  count key (l1 ++ l2) = count key l1 + count key l2.
Proof. unfold count. rewrite filter_app, length_app. reflexivity. Qed.

Lemma count_cons (key : string) (d : doc) (l : list doc) :
  count key (d :: l) = (if has_date key d then 1 else 0) + count key l.
Proof. unfold count. simpl. destruct (has_date key d); reflexivity. Qed.

Lemma count_dates (key : string) (l l' : list doc) :
  map date l = map date l' -> count key l = count key l'.
Proof.
  revert l'. induction l as [|d l IH]; intros [|d' l'] H; try discriminate.
  - reflexivity.
  - simpl in H. injection H as Hd Hl.
    rewrite !count_cons. unfold has_date. rewrite Hd, (IH l' Hl). reflexivity.
Qed.

Lemma lookup_none_count (key : string) (l : list doc) :
  lookup key l = None <-> count key l = 0.
Proof.
  unfold lookup. induction l as [|d l IH]; simpl.
  - split; reflexivity.
  - rewrite count_cons. destruct (has_date key d); simpl.
    + split; discriminate.
    + exact IH.
Qed.

Lemma update_first_none (key : string) (u : update) (l : list doc) :
  update_first key u l = None <-> count key l = 0.
Proof.
  induction l as [|d l IH]; simpl.
  - split; reflexivity.
  - rewrite count_cons. unfold has_date.
    destruct (date d =? key)%string; simpl.
    + split; discriminate.
    + destruct (update_first key u l) as [[d' l']|].
      * split; [discriminate|]. intros H. apply IH in H. discriminate.
      * split; [|reflexivity]. intros _. apply IH. reflexivity.
Qed.

Lemma update_first_dates (key : string) (u : update) (l l' : list doc) (d' : doc) :
  update_first key u l = Some (d', l') ->
  map date l' = map date l /\ date d' = key.
Proof.
  revert l' d'. induction l as [|d l IH]; simpl; intros l' d' H.
  - discriminate.
  - destruct (date d =? key)%string eqn:E.
    + injection H as <- <-. apply String.eqb_eq in E.
      destruct u; simpl; auto.
    + destruct (update_first key u l) as [[d0 l0]|]; [|discriminate].
      injection H as <- <-. destruct (IH _ _ eq_refl) as [Hm Hd].
      simpl. rewrite Hm. auto.
Qed.

Lemma update_first_app (key : string) (u : update) (l1 l2 : list doc) (d : doc) :
  count key l1 = 0 -> date d = key ->
  update_first key u (l1 ++ d :: l2)
  = Some (apply_update u d, l1 ++ apply_update u d :: l2).
Proof.
  intros H Hd. induction l1 as [|x l1 IH]; simpl.
  - apply String.eqb_eq in Hd. rewrite Hd. reflexivity.
  - rewrite count_cons in H. unfold has_date in H.
    destruct (date x =? key)%string; [discriminate|].
    rewrite (IH H). reflexivity.
Qed.

Lemma in_split_first (d : doc) (l : list doc) :
  In d l -> count (date d) l <= 1 ->
  exists l1 l2, l = l1 ++ d :: l2 /\ count (date d) l1 = 0.
Proof.
  intros Hin Hc. destruct (in_split _ _ Hin) as (l1 & l2 & ->).
  exists l1, l2. split; [reflexivity|].
  rewrite count_app, count_cons in Hc.
  replace (has_date (date d) d) with true in Hc
    by (symmetry; apply has_date_true; reflexivity).
  lia.
Qed.

(** What [findOneAndUpdate] does to the number of documents per date. *)
Lemma findOneAndUpdate_count (filter : value) (u : update) (db : database)
      (k : string) :
  (forall key, count key (days db) <= 1) ->
  count k (days (snd (findOneAndUpdate filter u db))) <= 1.
Proof.
  intros Huniq. unfold findOneAndUpdate.
  destruct (connected db); simpl; [|apply Huniq].
  destruct (castString filter) as [key|]; simpl; [|apply Huniq].
  destruct (update_first key u (days db)) as [[d' l']|] eqn:E; simpl.
  - apply update_first_dates in E. destruct E as [Hm _].
    rewrite (count_dates k _ _ Hm). apply Huniq.
  - apply update_first_none in E. rewrite count_app, count_cons.
    unfold count at 2. simpl. unfold has_date.
    destruct u; simpl; destruct (key =? k)%string eqn:Ek.
    + apply String.eqb_eq in Ek. subst k. lia.
    + specialize (Huniq k). lia.
    + apply String.eqb_eq in Ek. subst k. lia.
    + specialize (Huniq k). lia.
Qed.

Lemma findOneAndUpdate_connected (filter : value) (u : update) (db : database) :
  connected (snd (findOneAndUpdate filter u db)) = connected db.
Proof.
  unfold findOneAndUpdate. destruct (connected db) eqn:E; simpl; [|exact E].
  destruct (castString filter); simpl; [|exact E].
  destruct (update_first _ u (days db)) as [[d' l']|]; reflexivity.
Qed.

Lemma apply_update_nonneg (u : update) (d : doc) :
  nonneg_update u = true -> nonneg_totals d = true ->
  nonneg_totals (apply_update u d) = true.
Proof.
  unfold nonneg_update, nonneg_totals. destruct u; simpl; [|tauto].
  rewrite !andb_true_iff. intros [Hc Hp] [HC HP].
  split; apply nonneg_add; assumption.
Qed.

Lemma update_first_nonneg (key : string) (u : update) (l l' : list doc) (d' : doc) :
  nonneg_update u = true ->
  Forall (fun d => nonneg_totals d = true) l ->
  update_first key u l = Some (d', l') ->
  Forall (fun d => nonneg_totals d = true) l'.
Proof.
  intros Hu. revert l' d'. induction l as [|d l IH]; simpl; intros l' d' Hl H.
  - discriminate.
  - inversion Hl as [|? ? Hd Hrest]; subst.
    destruct (date d =? key)%string.
    + injection H as <- <-. constructor; [|assumption].
      apply apply_update_nonneg; assumption.
    + destruct (update_first key u l) as [[d0 l0]|]; [|discriminate].
      injection H as <- <-. constructor; [assumption|].
      eapply IH; eauto.
Qed.

Lemma findOneAndUpdate_nonneg (filter : value) (u : update) (db : database) :
  nonneg_update u = true ->
  Forall (fun d => nonneg_totals d = true) (days db) ->
  Forall (fun d => nonneg_totals d = true)
         (days (snd (findOneAndUpdate filter u db))).
Proof.
  intros Hu Hdb. unfold findOneAndUpdate.
  destruct (connected db); simpl; [|assumption].
  destruct (castString filter) as [key|]; simpl; [|assumption].
  destruct (update_first key u (days db)) as [[d' l']|] eqn:E; simpl.
  - eapply update_first_nonneg; eauto.
  - apply Forall_app. split; [assumption|]. constructor; [|constructor].
    unfold nonneg_totals. destruct u; simpl; exact Hu.
Qed.

End CollectionFacts.

(* ================================================================== *)
(** ** The handlers, one request at a time                             *)
(* ================================================================== *)

Section HandlerFacts.

Import Day App.

Lemma run_post_api_meals (req : body) (db : database) :
  run (post_api_meals req) db
  = if meal_invalid req then
      ({| status := 400;
          json := Message "Invalid input. Please provide numeric values for calories and protein." |},
       db)
    else
      let '(r, db') :=
        findOneAndUpdate (date req)
          (Inc (Number (calories req)) (Number (protein req))) db in
      (match r with
       | Fulfilled dayEntry => {| status := 200; json := Document dayEntry |}
       | Rejected _ =>
           {| status := 500; json := Message "Server Error: Could not save data." |}
       end, db').
Proof.
  unfold post_api_meals. destruct (meal_invalid req); simpl; [reflexivity|].
  destruct (findOneAndUpdate _ _ db) as [[d|e] db']; reflexivity.
Qed.

Lemma run_put_api_days_reset (req : body) (db : database) :
  run (put_api_days_reset req) db
  = if reset_invalid req then
      ({| status := 400;
          json := Message "Invalid input. Please provide a valid date." |}, db)
    else
      let '(r, db') := findOneAndUpdate (date req) (SetTotals zero zero) db in
      (match r with
       | Fulfilled dayEntry => {| status := 200; json := Document dayEntry |}
       | Rejected _ =>
           {| status := 500; json := Message "Server Error: Could not reset data." |}
       end, db').
Proof.
  unfold put_api_days_reset. destruct (reset_invalid req); simpl; [reflexivity|].
  destruct (findOneAndUpdate _ _ db) as [[d|e] db']; reflexivity.
Qed.

Lemma run_get_api_days (db : database) :
  run get_api_days db
  = if connected db
    then ({| status := 200; json := Documents (sort_desc (days db)) |}, db)
    else ({| status := 500;
             json := Message "Server Error: Could not fetch data." |}, db).
Proof.
  unfold get_api_days. simpl. unfold find_sort.
  destruct (connected db); reflexivity.
Qed.

(** The store after a request, in terms of the one operation it performs. *)
Lemma snd_run_route (q : request) (db : database) :
  snd (run (route q) db)
  = match q with
    | GetDays => db
    | PostMeal req =>
        if meal_invalid req then db
        else snd (findOneAndUpdate (date req)
                    (Inc (Number (calories req)) (Number (protein req))) db)
    | PutReset req =>
        if reset_invalid req then db
        else snd (findOneAndUpdate (date req) (SetTotals zero zero) db)
    end.
Proof.
  destruct q as [|req|req]; simpl route.
  - rewrite run_get_api_days. destruct (connected db); reflexivity.
  - rewrite run_post_api_meals. destruct (meal_invalid req); [reflexivity|].
    destruct (findOneAndUpdate _ _ db) as [[d|e] db']; reflexivity.
  - rewrite run_put_api_days_reset. destruct (reset_invalid req); [reflexivity|].
    destruct (findOneAndUpdate _ _ db) as [[d|e] db']; reflexivity.
Qed.

(** A value that is truthy is cast to a string by the [date] path. *)
Lemma truthy_casts (v : value) :
  not v = false -> exists key, castString v = Some key.
Proof.
  unfold not. destruct v; simpl; try discriminate; eauto.
Qed.

Lemma meal_valid_parts (req : body) :
  meal_invalid req = false ->
  not (calories req) = false /\ not (protein req) = false
  /\ not (date req) = false /\ isNaN (calories req) = false
  /\ isNaN (protein req) = false /\ isNaN (date req) = false.
Proof.
  unfold meal_invalid. rewrite !orb_false_iff. tauto.
Qed.

End HandlerFacts.

(* ================================================================== *)
(** ** Input validation                                                *)
(* ================================================================== *)

Section Validation.

Import Day App.

Lemma read_digits_uint (d : Decimal.uint) (rest : string) :
  forall (acc : N) (cnt : nat),
  exists acc' : N,
    read_digits 10 acc cnt (NilEmpty.string_of_uint d ++ String "-" rest)%string
    = (acc', cnt + Decimal.nb_digits d, String "-" rest).
Proof.
  induction d as [|d IH|d IH|d IH|d IH|d IH|d IH|d IH|d IH|d IH|d IH];
    intros acc cnt;
    cbn [NilEmpty.string_of_uint append Decimal.nb_digits];
    try (rewrite Nat.add_succ_r;
         change (S (cnt + Decimal.nb_digits d)) with (S cnt + Decimal.nb_digits d);
         cbn [read_digits];
         match goal with
         | |- context [radix_digit 10 ?c] =>
             let v := eval vm_compute in (radix_digit 10 c) in
             change (radix_digit 10 c) with v
         end;
         cbv iota; apply IH).
  exists acc. rewrite Nat.add_0_r. reflexivity.
Qed.

Lemma radix_prefix_uint (d : Decimal.uint) (rest : string) :
  radix_prefix (NilZero.string_of_uint d ++ String "-" rest)%string = None.
Proof.
  destruct d as [|d|d|d|d|d|d|d|d|d|d]; try reflexivity; destruct d; reflexivity.
Qed.

(** A decimal numeral followed by a hyphen does not denote a number. *)
Lemma dashed_numeral_is_NaN (d : Decimal.uint) (rest : string) :
  StringToNumber (NilZero.string_of_uint d ++ String "-" rest)%string = NaN.
Proof.
  assert (Hshape :
            exists d', Decimal.nb_digits d' <> O
              /\ NilZero.string_of_uint d = NilEmpty.string_of_uint d'
              /\ exists c r, NilEmpty.string_of_uint d' = String c r
                   /\ ws_width (String c (r ++ String "-" rest)%string) = O
                   /\ read_decimal (String c (r ++ String "-" rest)%string)
                      = read_unsigned_decimal (String c (r ++ String "-" rest)%string)
                   /\ strip_prefix "Infinity" (String c (r ++ String "-" rest)%string)
                      = None).
  { exists (match d with Decimal.Nil => Decimal.D0 Decimal.Nil | _ => d end).
    destruct d as [|d|d|d|d|d|d|d|d|d|d];
      (split; [cbn; discriminate|]); (split; [reflexivity|]);
      eexists _, _; (split; [reflexivity|]); repeat split. }
  destruct Hshape as (d' & Hn & Hd & c & r & Hs & Hw & Hdec & Hinf).
  pose proof (radix_prefix_uint d rest) as Hp.
  destruct (read_digits_uint d' rest 0%N O) as [v Hv].
  rewrite Hd in *. rewrite Hs in *. cbn [append] in *.
  unfold StringToNumber, skip_ws. cbn [skip_ws_from]. rewrite Hw.
  cbn [is_empty]. unfold read_numeric. rewrite Hp, Hdec.
  unfold read_unsigned_decimal. rewrite Hinf, Hv.
  cbn [Nat.add]. destruct (Decimal.nb_digits d') as [|n]; [congruence|].
  reflexivity.
Qed.

(** The dates [getTodayLocalDate] formats are the calendar dates. *)
Example getTodayLocalDate_format :
  getTodayLocalDate {| getFullYear := 2024; getMonth := 0; getDate := 15 |}
  = "2024-01-15".
Proof. reflexivity. Qed.

(** Whatever the clock reads, the date [getTodayLocalDate] formats fails
    the [isNaN(date)] test of both handlers, which answer 400 and leave
    the store as it was. *)
Lemma helper_dates_rejected (now : Date) (c p : value) (db : database) :
  isNaN (Str (getTodayLocalDate now)) = true
  /\ run (post_api_meals {| calories := c; protein := p;
                            date := Str (getTodayLocalDate now) |}) db
     = ({| status := 400;
           json := Message "Invalid input. Please provide numeric values for calories and protein." |},
        db)
  /\ run (put_api_days_reset {| calories := c; protein := p;
                                date := Str (getTodayLocalDate now) |}) db
     = ({| status := 400;
           json := Message "Invalid input. Please provide a valid date." |}, db).
Proof.
  assert (H : isNaN (Str (getTodayLocalDate now)) = true).
  { unfold isNaN, ToNumber, getTodayLocalDate, digits.
    change ("-" ++ ?x)%string with (String "-" x).
    rewrite dashed_numeral_is_NaN. reflexivity. }
  split; [exact H|]. split.
  - unfold post_api_meals, meal_invalid. cbn [calories protein date].
    rewrite H, orb_true_r. reflexivity.
  - unfold put_api_days_reset, reset_invalid. cbn [date].
    rewrite H, orb_true_r. reflexivity.
Qed.

(** C1.  The request [{calories: 500, protein: 30, date: "2024-01-15"}] does
    not pass the validation of POST /api/meals: [isNaN("2024-01-15")] is
    true, so whatever the store holds the handler answers 400 with the
    invalid-input message and leaves the store as it was; no record for
    "2024-01-15" is created. *)
Theorem post_meal_rejects_calendar_date : forall db : database,
  isNaN (Str "2024-01-15") = true
  /\ run (post_api_meals {| calories := Num (of_Z 500);
                            protein := Num (of_Z 30);
                            date := Str "2024-01-15" |}) db
     = ({| status := 400;
           json := Message "Invalid input. Please provide numeric values for calories and protein." |},
        db).
Proof. intros db. split; reflexivity. Qed.

(** C2.  The request [{date: "2024-01-15"}] does not pass the validation of
    PUT /api/days/reset: the handler answers 400 with the invalid-date
    message and the store is left as it was; no zeroed record is created
    or returned. *)
Theorem put_reset_rejects_calendar_date : forall db : database,
  run (put_api_days_reset {| calories := Undefined;
                             protein := Undefined;
                             date := Str "2024-01-15" |}) db
  = ({| status := 400;
        json := Message "Invalid input. Please provide a valid date." |}, db).
Proof. intros db. reflexivity. Qed.

(** C6.  A POST /api/meals or PUT /api/days/reset request that fails input
    validation is answered at once, without any store operation being
    issued: the response has status 400 and carries the handler's
    invalid-input message, and the store is unchanged. *)
Theorem invalid_input_rejected : forall (q : request) (db : database),
  invalid q = true ->
  exists message : string,
    message = match q with
              | PutReset _ => "Invalid input. Please provide a valid date."
              | _ => "Invalid input. Please provide numeric values for calories and protein."
              end
    /\ route q = Respond {| status := 400; json := Message message |}
    /\ run (route q) db = ({| status := 400; json := Message message |}, db).
Proof.
  intros [|req|req] db H; simpl in H; try discriminate.
  - eexists. split; [reflexivity|]. simpl route. unfold post_api_meals.
    rewrite H. split; reflexivity.
  - eexists. split; [reflexivity|]. simpl route. unfold put_api_days_reset.
    rewrite H. split; reflexivity.
Qed.

Lemma invalid_input_rejected_witness :
  exists message : string,
    message = "Invalid input. Please provide numeric values for calories and protein."
    /\ route (PostMeal {| calories := Str "lots"; protein := Num (of_Z 30);
                          date := Str "20240115" |})
       = Respond {| status := 400; json := Message message |}
    /\ run (route (PostMeal {| calories := Str "lots"; protein := Num (of_Z 30);
                               date := Str "20240115" |})) empty
       = ({| status := 400; json := Message message |}, empty).
Proof.
  apply (invalid_input_rejected
           (PostMeal {| calories := Str "lots"; protein := Num (of_Z 30);
                        date := Str "20240115" |}) empty).
  reflexivity.
Defined.

End Validation.

(* ================================================================== *)
(** ** One document per date                                           *)
(* ================================================================== *)

Section Uniqueness.

Import Day App.

Lemma route_keeps_dates_unique (q : request) (db : database) :
  (forall key, count key (days db) <= 1) ->
  forall key, count key (days (snd (run (route q) db))) <= 1.
Proof.
  intros H key. rewrite snd_run_route. destruct q as [|req|req].
  - apply H.
  - destruct (meal_invalid req); [apply H|].
    apply findOneAndUpdate_count; assumption.
  - destruct (reset_invalid req); [apply H|].
    apply findOneAndUpdate_count; assumption.
Qed.

(** C4.  Starting from a store with at most one document per date, after
    any finite sequence of GET /api/days, POST /api/meals and
    PUT /api/days/reset requests the store holds at most one document with
    date [d], for every [d]. *)
Theorem dates_stay_unique : forall (qs : list request) (db : database) (d : string),
  (forall key, count key (days db) <= 1) ->
  count d (days (serve qs db)) <= 1.
Proof.
  induction qs as [|q qs IH]; intros db d H; simpl.
  - apply H.
  - apply IH. apply route_keeps_dates_unique. assumption.
Qed.

Lemma dates_stay_unique_witness :
  count "20240115"
    (days (serve [PostMeal {| calories := Num (of_Z 500); protein := Num (of_Z 30);
                              date := Str "20240115" |};
                  PutReset {| calories := Undefined; protein := Undefined;
                              date := Num (of_Z 20240115) |};
                  GetDays;
                  PostMeal {| calories := Str "200"; protein := Str "10";
                              date := Str "20240115" |}] empty)) <= 1.
Proof.
  apply dates_stay_unique. intros key. unfold count. simpl. lia.
Defined.

End Uniqueness.

(* ================================================================== *)
(** ** Adding a meal and resetting a day                               *)
(* ================================================================== *)

Section Updates.

Import App Day.

Lemma apply_update_date (u : update) (d : doc) : date (apply_update u d) = date d.
Proof. destruct u; reflexivity. Qed.

Lemma update_first_lookup (key : string) (u : update) (l l' : list doc) (d' : doc) :
  update_first key u l = Some (d', l') ->
  exists d, lookup key l = Some d /\ d' = apply_update u d
            /\ lookup key l' = Some d'.
Proof.
  unfold lookup. revert l' d'.
  induction l as [|x l IH]; simpl; intros l' d' H; [discriminate|].
  unfold has_date at 1. destruct (date x =? key)%string eqn:E.
  - injection H as <- <-. exists x. repeat split. simpl.
    unfold has_date. rewrite apply_update_date, E. reflexivity.
  - destruct (update_first key u l) as [[d0 l0]|]; [|discriminate].
    injection H as <- <-. destruct (IH _ _ eq_refl) as (d & H1 & H2 & H3).
    exists d. repeat split; try assumption. simpl.
    unfold has_date at 1. rewrite E. exact H3.
Qed.

Lemma update_first_other (key k : string) (u : update) (l l' : list doc) (d' : doc) :
  update_first key u l = Some (d', l') -> k <> key ->
  lookup k l' = lookup k l.
Proof.
  unfold lookup. revert l' d'.
  induction l as [|x l IH]; simpl; intros l' d' H Hk; [discriminate|].
  destruct (date x =? key)%string eqn:E.
  - injection H as <- <-. simpl. unfold has_date.
    rewrite apply_update_date. apply String.eqb_eq in E.
    replace (date x =? k)%string with false; [reflexivity|].
    symmetry. apply String.eqb_neq. congruence.
  - destruct (update_first key u l) as [[d0 l0]|]; [|discriminate].
    injection H as <- <-. simpl. rewrite (IH _ _ eq_refl Hk). reflexivity.
Qed.

Lemma lookup_app_new (k : string) (l : list doc) (x : doc) :
  lookup k l = None ->
  lookup k (l ++ [x]) = if has_date k x then Some x else None.
Proof.
  unfold lookup. induction l as [|y l IH]; simpl; [reflexivity|].
  destruct (has_date k y); [discriminate|exact IH].
Qed.

Lemma lookup_app_old (k : string) (l : list doc) (x : doc) :
  has_date k x = false -> lookup k (l ++ [x]) = lookup k l.
Proof.
  intros Hx. unfold lookup. induction l as [|y l IH]; simpl.
  - rewrite Hx. reflexivity.
  - destruct (has_date k y); [reflexivity|exact IH].
Qed.

Lemma upserted_date (key : string) (u : update) : date (upserted key u) = key.
Proof. destruct u; reflexivity. Qed.

(** [findOneAndUpdate] on a reachable store, seen through [lookup]: the
    document of the date is updated, or inserted when there is none, and
    the documents of the other dates are the same. *)
Lemma findOneAndUpdate_lookup (filter : value) (key : string) (u : update)
      (db : database) :
  connected db = true -> castString filter = Some key ->
  exists d' db',
    findOneAndUpdate filter u db = (Fulfilled d', db')
    /\ connected db' = true
    /\ d' = match lookup key (days db) with
            | Some d => apply_update u d
            | None => upserted key u
            end
    /\ lookup key (days db') = Some d'
    /\ forall k, k <> key -> lookup k (days db') = lookup k (days db).
Proof.
  intros Hc Hk. unfold findOneAndUpdate. rewrite Hc, Hk. simpl.
  destruct (update_first key u (days db)) as [[d' l']|] eqn:E.
  - destruct (update_first_lookup _ _ _ _ _ E) as (d & H1 & H2 & H3).
    exists d', {| connected := true; days := l' |}.
    rewrite H1. repeat split; try assumption.
    intros k Hne. simpl. eapply update_first_other; eauto.
  - apply update_first_none, lookup_none_count in E.
    eexists _, _. split; [reflexivity|]. rewrite E. simpl.
    repeat split.
    + rewrite (lookup_app_new _ _ _ E).
      replace (has_date key (upserted key u)) with true; [reflexivity|].
      symmetry. apply has_date_true, upserted_date.
    + intros k Hne. apply lookup_app_old.
      unfold has_date. rewrite upserted_date. apply String.eqb_neq.
      congruence.
Qed.

(** C3.  In a reachable store with one document per date that holds the
    document [{date: d, totalCalories: C, totalProtein: P}], a
    POST /api/meals request for the date [d] that passes validation turns
    that document into [{date: d, totalCalories: C + Number(calories),
    totalProtein: P + Number(protein)}], leaves every other document and
    the order of the collection as they were, and is answered with status
    200 and the updated document.  The sums are those of Number addition;
    when a total and the amount added to it are whole numbers whose sum is
    below [2^53] in absolute value, the new total is exactly that sum. *)
Theorem add_meal_increments :
  forall (req : body) (db : database) (d : string) (C P : number),
    meal_invalid req = false ->
    castString (App.date req) = Some d ->
    connected db = true ->
    (forall key, count key (days db) <= 1) ->
    In {| date := d; totalCalories := C; totalProtein := P |} (days db) ->
    let updated :=
      {| date := d;
         totalCalories := add C (Number (calories req));
         totalProtein := add P (Number (protein req)) |} in
    (exists l1 l2 : list doc,
        days db = l1 ++ {| date := d; totalCalories := C; totalProtein := P |} :: l2
        /\ run (post_api_meals req) db
           = ({| status := 200; json := Document updated |},
              {| connected := true; days := l1 ++ updated :: l2 |}))
    /\ (forall a b : Z,
          C = of_Z a -> calories req = Num (of_Z b) ->
          (Z.abs (a + b) < 2 ^ 53)%Z ->
          totalCalories updated = of_Z (a + b))
    /\ (forall a b : Z,
          P = of_Z a -> protein req = Num (of_Z b) ->
          (Z.abs (a + b) < 2 ^ 53)%Z ->
          totalProtein updated = of_Z (a + b)).
Proof.
  intros req db d C P Hv Hd Hc Hu Hin updated. split; [|split].
  - destruct (in_split_first _ _ Hin (Hu _)) as (l1 & l2 & Hl & H0).
    exists l1, l2. split; [exact Hl|].
    rewrite run_post_api_meals, Hv. unfold findOneAndUpdate.
    rewrite Hc, Hd, Hl. simpl negb. cbv iota.
    simpl in H0.
    rewrite (update_first_app d _ l1 l2
               {| date := d; totalCalories := C; totalProtein := P |} H0 eq_refl).
    reflexivity.
  - intros a b -> Hb Hlt. cbn [updated totalCalories]. rewrite Hb.
    apply add_of_Z. exact Hlt.
  - intros a b -> Hb Hlt. cbn [updated totalProtein]. rewrite Hb.
    apply add_of_Z. exact Hlt.
Qed.

Lemma add_meal_increments_witness :
  (exists l1 l2 : list doc,
      [ {| date := "20240114"; totalCalories := of_Z 1800; totalProtein := of_Z 90 |};
        {| date := "20240115"; totalCalories := of_Z 500; totalProtein := of_Z 30 |} ]
      = l1 ++ {| date := "20240115"; totalCalories := of_Z 500;
                 totalProtein := of_Z 30 |} :: l2
      /\ run (post_api_meals {| calories := Num (of_Z 200); protein := Num (of_Z 10);
                                App.date := Str "20240115" |})
             {| connected := true;
                days := [ {| date := "20240114"; totalCalories := of_Z 1800;
                             totalProtein := of_Z 90 |};
                          {| date := "20240115"; totalCalories := of_Z 500;
                             totalProtein := of_Z 30 |} ] |}
         = ({| status := 200;
               json := Document {| date := "20240115"; totalCalories := of_Z 700;
                                   totalProtein := of_Z 40 |} |},
            {| connected := true;
               days := l1 ++ {| date := "20240115"; totalCalories := of_Z 700;
                                totalProtein := of_Z 40 |} :: l2 |}))
  /\ add (of_Z 500) (Number (Num (of_Z 200))) = of_Z 700
  /\ add (of_Z 30) (Number (Num (of_Z 10))) = of_Z 40.
Proof.
  destruct (add_meal_increments
              {| calories := Num (of_Z 200); protein := Num (of_Z 10);
                 App.date := Str "20240115" |}
              {| connected := true;
                 days := [ {| date := "20240114"; totalCalories := of_Z 1800;
                              totalProtein := of_Z 90 |};
                           {| date := "20240115"; totalCalories := of_Z 500;
                              totalProtein := of_Z 30 |} ] |}
              "20240115" (of_Z 500) (of_Z 30)) as (Hrun & Hc & Hp).
  - reflexivity.
  - reflexivity.
  - reflexivity.
  - intros key. unfold count. simpl. unfold has_date. simpl date.
    destruct ("20240114" =? key)%string eqn:E1;
      destruct ("20240115" =? key)%string eqn:E2; simpl; try lia.
    apply String.eqb_eq in E1, E2. congruence.
  - simpl. right. left. reflexivity.
  - split; [|split].
    + exact Hrun.
    + apply (Hc 500%Z 200%Z); [reflexivity|reflexivity|reflexivity].
    + apply (Hp 30%Z 10%Z); [reflexivity|reflexivity|reflexivity].
Defined.

Lemma update_first_set_twice (key : string) (c p : number) (l l' : list doc)
      (d' : doc) :
  update_first key (SetTotals c p) l = Some (d', l') ->
  update_first key (SetTotals c p) l' = Some (d', l').
Proof.
  revert l' d'. induction l as [|x l IH]; simpl; intros l' d' H; [discriminate|].
  destruct (date x =? key)%string eqn:E.
  - injection H as <- <-. simpl. rewrite E. reflexivity.
  - destruct (update_first key (SetTotals c p) l) as [[d0 l0]|]; [|discriminate].
    injection H as <- <-. simpl. rewrite E, (IH _ _ eq_refl). reflexivity.
Qed.

(** A reset that passes validation, on a connected store, and the same
    reset again. *)
Lemma reset_twice_connected (req : body) (db : database) :
  reset_invalid req = false ->
  connected db = true ->
  exists (d : string) (db1 : database),
    castString (App.date req) = Some d
    /\ lookup d (days db1)
       = Some {| date := d; totalCalories := zero; totalProtein := zero |}
    /\ run (put_api_days_reset req) db
       = ({| status := 200;
             json := Document {| date := d; totalCalories := zero;
                                 totalProtein := zero |} |}, db1)
    /\ run (put_api_days_reset req) db1
       = ({| status := 200;
             json := Document {| date := d; totalCalories := zero;
                                 totalProtein := zero |} |}, db1).
Proof.
  intros Hv Hc.
  assert (Hn : not (App.date req) = false).
  { unfold reset_invalid in Hv. apply orb_false_iff in Hv. tauto. }
  destruct (truthy_casts _ Hn) as [d Hd]. exists d.
  rewrite !run_put_api_days_reset, Hv. unfold findOneAndUpdate at 1.
  rewrite Hc, Hd. simpl negb. cbv iota.
  destruct (update_first d (SetTotals zero zero) (days db)) as [[d' l']|] eqn:E.
  - pose proof (update_first_set_twice _ _ _ _ _ _ E) as E2.
    destruct (update_first_lookup _ _ _ _ _ E) as (d0 & H1 & H2 & H3).
    assert (Hd' : d' = {| date := d; totalCalories := zero; totalProtein := zero |}).
    { rewrite H2. simpl. f_equal.
      apply find_some in H1. apply has_date_true. tauto. }
    clear H2. subst d'. exists {| connected := true; days := l' |}.
    split; [reflexivity|]. split; [exact H3|]. split; [reflexivity|].
    rewrite run_put_api_days_reset, Hv.
    unfold findOneAndUpdate. cbn [connected negb days]. rewrite Hd, E2.
    reflexivity.
  - apply update_first_none in E.
    exists {| connected := true;
              days := days db ++ [upserted d (SetTotals zero zero)] |}.
    split; [reflexivity|]. split.
    { simpl days. rewrite lookup_app_new by (apply lookup_none_count; exact E).
      unfold has_date. simpl. rewrite String.eqb_refl. reflexivity. }
    split; [reflexivity|].
    rewrite run_put_api_days_reset, Hv.
    unfold findOneAndUpdate. cbn [connected negb days]. rewrite Hd.
    rewrite (update_first_app d (SetTotals zero zero) (days db) []
               (upserted d (SetTotals zero zero)) E eq_refl).
    reflexivity.
Qed.

(** C7.  For a PUT /api/days/reset request that passes validation and
    every store: a second call, made on the store the first call left,
    gives the same response and the same store as the first call; and
    when the store is reachable that response is 200 with the zeroed
    document of the date, which is then the document the store holds for
    the date. *)
Theorem reset_idempotent : forall (req : body) (db : database),
  reset_invalid req = false ->
  run (put_api_days_reset req) (snd (run (put_api_days_reset req) db))
  = run (put_api_days_reset req) db
  /\ (connected db = true ->
      exists d : string,
        castString (App.date req) = Some d
        /\ fst (run (put_api_days_reset req) db)
           = {| status := 200;
                json := Document {| date := d; totalCalories := zero;
                                    totalProtein := zero |} |}
        /\ lookup d (days (snd (run (put_api_days_reset req) db)))
           = Some {| date := d; totalCalories := zero; totalProtein := zero |}).
Proof.
  intros req db Hv. destruct (connected db) eqn:Hc.
  - destruct (reset_twice_connected req db Hv Hc)
      as (d & db1 & Hd & Hl & H1 & H2).
    rewrite H1. cbn [fst snd]. split; [exact H2|].
    intros _. exists d. auto.
  - split; [|discriminate].
    rewrite !run_put_api_days_reset, Hv. unfold findOneAndUpdate.
    rewrite Hc. cbn [negb snd]. rewrite Hc. reflexivity.
Qed.

Lemma reset_idempotent_witness :
  run (put_api_days_reset {| calories := Undefined; protein := Undefined;
                             App.date := Str "20240115" |})
      (snd (run (put_api_days_reset {| calories := Undefined; protein := Undefined;
                                       App.date := Str "20240115" |})
                {| connected := true;
                   days := [ {| date := "20240115"; totalCalories := of_Z 700;
                                totalProtein := of_Z 40 |} ] |}))
  = run (put_api_days_reset {| calories := Undefined; protein := Undefined;
                               App.date := Str "20240115" |})
        {| connected := true;
           days := [ {| date := "20240115"; totalCalories := of_Z 700;
                        totalProtein := of_Z 40 |} ] |}
  /\ exists d : string,
       castString (Str "20240115") = Some d
       /\ fst (run (put_api_days_reset {| calories := Undefined; protein := Undefined;
                                          App.date := Str "20240115" |})
                   {| connected := true;
                      days := [ {| date := "20240115"; totalCalories := of_Z 700;
                                   totalProtein := of_Z 40 |} ] |})
          = {| status := 200;
               json := Document {| date := d; totalCalories := zero;
                                   totalProtein := zero |} |}
       /\ lookup d
            (days (snd (run (put_api_days_reset
                               {| calories := Undefined; protein := Undefined;
                                  App.date := Str "20240115" |})
                            {| connected := true;
                               days := [ {| date := "20240115";
                                            totalCalories := of_Z 700;
                                            totalProtein := of_Z 40 |} ] |})))
          = Some {| date := d; totalCalories := zero; totalProtein := zero |}.
Proof.
  destruct (reset_idempotent
              {| calories := Undefined; protein := Undefined;
                 App.date := Str "20240115" |}
              {| connected := true;
                 days := [ {| date := "20240115"; totalCalories := of_Z 700;
                              totalProtein := of_Z 40 |} ] |}
              eq_refl) as [Htwice Hzero].
  split; [exact Htwice|]. apply Hzero. reflexivity.
Defined.

End Updates.

(* ================================================================== *)
(** ** Listing the days                                                *)
(* ================================================================== *)

Section Listing.

Import App Day.

Lemma string_leb_trans (a b c : string) :
  String.leb a b = true -> String.leb b c = true -> String.leb a c = true.
Proof.
  unfold String.leb. revert b c.
  induction a as [|x a IH]; intros [|y b] [|z c]; simpl; try congruence.
  unfold Ascii.compare.
  destruct (N.compare_spec (N_of_ascii x) (N_of_ascii y)) as [E1|E1|E1];
    destruct (N.compare_spec (N_of_ascii y) (N_of_ascii z)) as [E2|E2|E2];
    destruct (N.compare_spec (N_of_ascii x) (N_of_ascii z)) as [E3|E3|E3];
    try lia; try congruence; try apply IH.
Qed.

Lemma insert_desc_perm (d : doc) (l : list doc) :
  Permutation (insert_desc d l) (d :: l).
Proof.
  induction l as [|x l IH]; simpl.
  - apply Permutation_refl.
  - destruct (String.leb (date x) (date d)).
    + apply Permutation_refl.
    + apply perm_trans with (x :: d :: l).
      * apply perm_skip. exact IH.
      * apply perm_swap.
Qed.

Lemma sort_desc_perm (l : list doc) : Permutation (sort_desc l) l.
Proof.
  induction l as [|d l IH]; simpl.
  - apply perm_nil.
  - apply perm_trans with (d :: sort_desc l).
    + apply insert_desc_perm.
    + apply perm_skip. exact IH.
Qed.

Lemma insert_desc_sorted (d : doc) (l : list doc) :
  StronglySorted date_ge l -> StronglySorted date_ge (insert_desc d l).
Proof.
  induction l as [|x l IH]; simpl; intros Hs.
  - constructor; constructor.
  - inversion Hs as [|? ? Hl Hx]; subst.
    destruct (String.leb (date x) (date d)) eqn:E.
    + constructor; [exact Hs|]. constructor; [exact E|].
      eapply Forall_impl; [|exact Hx]. intros y Hy. unfold date_ge in *.
      eapply string_leb_trans; eassumption.
    + constructor; [apply IH; exact Hl|].
      eapply Permutation_Forall.
      * apply Permutation_sym, insert_desc_perm.
      * constructor; [|exact Hx]. unfold date_ge.
        destruct (String.leb_total (date x) (date d)) as [H|H];
          [congruence|exact H].
Qed.

Lemma sort_desc_sorted (l : list doc) : StronglySorted date_ge (sort_desc l).
Proof.
  induction l as [|d l IH]; simpl.
  - constructor.
  - apply insert_desc_sorted. exact IH.
Qed.

(** C8.  GET /api/days never modifies the store; and on a reachable store
    it answers 200 with a list that holds exactly the documents of the
    collection (a permutation of it: all of them, none twice, no page cut)
    in descending order of [date]: each document's date is at least the
    date of every document after it. *)
Theorem list_days_sorted : forall db : database,
  snd (run get_api_days db) = db
  /\ (connected db = true ->
      exists l : list doc,
        fst (run get_api_days db) = {| status := 200; json := Documents l |}
        /\ Permutation l (days db)
        /\ StronglySorted date_ge l).
Proof.
  intros db. rewrite run_get_api_days. destruct (connected db).
  - split; [reflexivity|]. intros _. exists (sort_desc (days db)).
    split; [reflexivity|]. split; [apply sort_desc_perm|apply sort_desc_sorted].
  - split; [reflexivity|discriminate].
Qed.

Lemma list_days_sorted_witness :
  exists l : list doc,
    fst (run get_api_days
           {| connected := true;
              days := [ {| date := "20240114"; totalCalories := of_Z 1800;
                           totalProtein := of_Z 90 |};
                        {| date := "20240116"; totalCalories := of_Z 300;
                           totalProtein := of_Z 12 |};
                        {| date := "20240115"; totalCalories := of_Z 700;
                           totalProtein := of_Z 40 |} ] |})
    = {| status := 200; json := Documents l |}
    /\ Permutation l
         [ {| date := "20240114"; totalCalories := of_Z 1800;
              totalProtein := of_Z 90 |};
           {| date := "20240116"; totalCalories := of_Z 300;
              totalProtein := of_Z 12 |};
           {| date := "20240115"; totalCalories := of_Z 700;
              totalProtein := of_Z 40 |} ]
    /\ StronglySorted date_ge l.
Proof.
  destruct (list_days_sorted
              {| connected := true;
                 days := [ {| date := "20240114"; totalCalories := of_Z 1800;
                              totalProtein := of_Z 90 |};
                           {| date := "20240116"; totalCalories := of_Z 300;
                              totalProtein := of_Z 12 |};
                           {| date := "20240115"; totalCalories := of_Z 700;
                              totalProtein := of_Z 40 |} ] |}) as [_ H].
  apply H. reflexivity.
Defined.

(** The order in which the example above is listed. *)
Example list_days_order :
  map date
      (sort_desc [ {| date := "20240114"; totalCalories := of_Z 1800;
                      totalProtein := of_Z 90 |};
                   {| date := "20240116"; totalCalories := of_Z 300;
                      totalProtein := of_Z 12 |};
                   {| date := "20240115"; totalCalories := of_Z 700;
                      totalProtein := of_Z 40 |} ])
  = ["20240116"; "20240115"; "20240114"].
Proof. reflexivity. Qed.

End Listing.

(* ================================================================== *)
(** ** What validation lets through                                    *)
(* ================================================================== *)

Section Accepted.

Import Day App.

(** C5, as stated, fails: validation accepts a negative amount.  On the
    empty store the request [{calories: -5, protein: 1, date: "20240115"}]
    is accepted and leaves a document whose [totalCalories] is [-5]. *)
Lemma negative_meal_accepted :
  serve [PostMeal {| calories := Num (of_Z (-5)); protein := Num (of_Z 1);
                     date := Str "20240115" |}] empty
  = {| connected := true;
       days := [ {| Day.date := "20240115"; totalCalories := of_Z (-5);
                    totalProtein := of_Z 1 |} ] |}
  /\ nonneg (of_Z (-5)) = false
  /\ ~ (forall qs : list request,
          Forall (fun d => nonneg_totals d = true) (days (serve qs empty))).
Proof.
  split; [reflexivity|]. split; [reflexivity|].
  intros H.
  specialize (H [PostMeal {| calories := Num (of_Z (-5)); protein := Num (of_Z 1);
                            date := Str "20240115" |}]).
  inversion H as [|? ? Hd _]. discriminate Hd.
Qed.

Lemma route_keeps_totals_nonneg (q : request) (db : database) :
  adds_nonneg q = true ->
  Forall (fun d => nonneg_totals d = true) (days db) ->
  Forall (fun d => nonneg_totals d = true) (days (snd (run (route q) db))).
Proof.
  intros Hq Hdb. rewrite snd_run_route. destruct q as [|req|req].
  - exact Hdb.
  - simpl in Hq. destruct (meal_invalid req); [exact Hdb|].
    apply findOneAndUpdate_nonneg; assumption.
  - destruct (reset_invalid req); [exact Hdb|].
    apply findOneAndUpdate_nonneg; [reflexivity|assumption].
Qed.

(** C5, amended.  In every store reached from the empty store by
    POST /api/meals and PUT /api/days/reset (and GET /api/days) requests in
    which every accepted meal carries non-negative calories and protein,
    every document has [totalCalories >= 0] and [totalProtein >= 0]. *)
Theorem totals_nonneg_for_nonneg_meals : forall qs : list request,
  Forall (fun q => adds_nonneg q = true) qs ->
  Forall (fun d => nonneg_totals d = true) (days (serve qs empty)).
Proof.
  intros qs. assert (H0 : Forall (fun d => nonneg_totals d = true) (days empty))
    by constructor.
  revert H0. generalize empty as db.
  induction qs as [|q qs IH]; intros db Hdb Hqs; simpl.
  - exact Hdb.
  - inversion Hqs as [|? ? Hq Hrest]; subst.
    apply IH; [|exact Hrest]. apply route_keeps_totals_nonneg; assumption.
Qed.

Lemma totals_nonneg_for_nonneg_meals_witness :
  Forall (fun d => nonneg_totals d = true)
    (days (serve [PostMeal {| calories := Num (of_Z 500); protein := Str "30";
                              date := Str "20240115" |};
                  PostMeal {| calories := Num (of_Z (-5)); protein := Num (of_Z 1);
                              date := Str "2024-01-15" |};
                  PutReset {| calories := Undefined; protein := Undefined;
                              date := Str "20240116" |}] empty)).
Proof.
  apply totals_nonneg_for_nonneg_meals.
  repeat constructor.
Defined.

(** C10, as stated, fails on a zero amount: the string ["0"] is not empty,
    so it passes validation and the meal is stored with an increment of 0,
    while the number [0] is falsy and the same request is answered 400. *)
Lemma zero_string_accepted_zero_number_rejected :
  isNaN (Str "0") = false
  /\ run (post_api_meals {| calories := Str "0"; protein := Str "5";
                            date := Str "20240115" |}) empty
     = ({| status := 200;
           json := Document {| Day.date := "20240115"; totalCalories := zero;
                               totalProtein := of_Z 5 |} |},
        {| connected := true;
           days := [ {| Day.date := "20240115"; totalCalories := zero;
                        totalProtein := of_Z 5 |} ] |})
  /\ run (post_api_meals {| calories := Num (Number (Str "0"));
                            protein := Num (Number (Str "5"));
                            date := Str "20240115" |}) empty
     = ({| status := 400;
           json := Message "Invalid input. Please provide numeric values for calories and protein." |},
        empty).
Proof. repeat split; reflexivity. Qed.

(** A string that reads as zero because it is below the smallest value
    behaves as ["0"] does. *)
Example underflowing_string_accepted :
  is_zero (Number (Str "1e-400")) = true
  /\ run (post_api_meals {| calories := Str "1e-400"; protein := Str "5";
                            date := Str "20240115" |}) empty
     = ({| status := 200;
           json := Document {| Day.date := "20240115"; totalCalories := zero;
                               totalProtein := of_Z 5 |} |},
        {| connected := true;
           days := [ {| Day.date := "20240115"; totalCalories := zero;
                        totalProtein := of_Z 5 |} ] |})
  /\ status (fst (run (post_api_meals
                         {| calories := Num (Number (Str "1e-400"));
                            protein := Num (Number (Str "5"));
                            date := Str "20240115" |}) empty))
     = 400.
Proof.
  repeat match goal with |- _ /\ _ => split end; vm_compute; reflexivity.
Qed.

Lemma is_empty_false (s : string) : s <> "" -> is_empty s = false.
Proof. destruct s; [congruence|reflexivity]. Qed.

(** C10, amended.  When [calories] and [protein] are non-empty strings
    that denote numbers, validation depends on the [date] check alone, an
    accepted request hands the store the increments [Number(calories)]
    and [Number(protein)], and, provided neither number is zero, the
    request has the same response and the same effect on the store as the
    request that carries those numbers as numbers. *)
Theorem numeric_strings_as_numbers :
  forall (s1 s2 : string) (dt : value) (db : database),
    s1 <> "" -> s2 <> "" ->
    isNaN (Str s1) = false -> isNaN (Str s2) = false ->
    meal_invalid {| calories := Str s1; protein := Str s2; date := dt |}
    = (not dt || isNaN dt)
    /\ (meal_invalid {| calories := Str s1; protein := Str s2; date := dt |} = false ->
        issued (post_api_meals {| calories := Str s1; protein := Str s2; date := dt |})
        = Some (Inc (Number (Str s1)) (Number (Str s2))))
    /\ (is_zero (Number (Str s1)) = false ->
        is_zero (Number (Str s2)) = false ->
        run (post_api_meals {| calories := Str s1; protein := Str s2; date := dt |}) db
        = run (post_api_meals {| calories := Num (Number (Str s1));
                                 protein := Num (Number (Str s2));
                                 date := dt |}) db).
Proof.
  intros s1 s2 dt db H1 H2 N1 N2.
  assert (Hinv : meal_invalid {| calories := Str s1; protein := Str s2; date := dt |}
                 = (not dt || isNaN dt)).
  { unfold meal_invalid. cbn [calories protein date].
    rewrite N1, N2. unfold not at 1 2. cbn [ToBoolean].
    rewrite (is_empty_false _ H1), (is_empty_false _ H2).
    destruct (not dt), (isNaN dt); reflexivity. }
  split; [exact Hinv|]. split.
  - intros Hv. unfold post_api_meals. rewrite Hv. reflexivity.
  - intros Z1 Z2.
    assert (Hnum : meal_invalid {| calories := Num (Number (Str s1));
                                   protein := Num (Number (Str s2));
                                   date := dt |}
                   = (not dt || isNaN dt)).
    { unfold meal_invalid. cbn [calories protein date].
      unfold not at 1 2, isNaN at 1 2. cbn [ToBoolean ToNumber].
      unfold isNaN in N1, N2. unfold Number in *.
      rewrite Z1, Z2, N1, N2.
      destruct (not dt), (is_nan (ToNumber dt)); reflexivity. }
    rewrite !run_post_api_meals, Hinv, Hnum. reflexivity.
Qed.

Lemma numeric_strings_as_numbers_witness :
  meal_invalid {| calories := Str "500"; protein := Str "30";
                  date := Str "20240115" |}
  = (not (Str "20240115") || isNaN (Str "20240115"))
  /\ (meal_invalid {| calories := Str "500"; protein := Str "30";
                      date := Str "20240115" |} = false ->
      issued (post_api_meals {| calories := Str "500"; protein := Str "30";
                                date := Str "20240115" |})
      = Some (Inc (Number (Str "500")) (Number (Str "30"))))
  /\ (is_zero (Number (Str "500")) = false ->
      is_zero (Number (Str "30")) = false ->
      run (post_api_meals {| calories := Str "500"; protein := Str "30";
                             date := Str "20240115" |}) empty
      = run (post_api_meals {| calories := Num (Number (Str "500"));
                               protein := Num (Number (Str "30"));
                               date := Str "20240115" |}) empty).
Proof.
  apply (numeric_strings_as_numbers "500" "30" (Str "20240115") empty);
    (discriminate || reflexivity).
Defined.

End Accepted.

(* ================================================================== *)
(** ** Meals added at the same time                                    *)
(* ================================================================== *)

Section Concurrency.

Import App Day Loop.

Variable d : string.

Lemma accepted_meal_suspended (req : body) :
  meal_invalid req = false ->
  exists resume,
    post_api_meals req
    = Await (FindOneAndUpdate (App.date req)
               (Inc (Number (calories req)) (Number (protein req)))) resume
    /\ forall r, responded (resume r) = true.
Proof.
  intros Hv. unfold post_api_meals. rewrite Hv. eexists. split; [reflexivity|].
  intros [x|e]; reflexivity.
Qed.

Lemma responded_meal_for (h : handler) : responded h = true -> meal_for d h.
Proof. intros H. left. exact H. Qed.

(** One store operation of a pool of meals for [d] leaves a reachable
    store and a pool of meals for [d]. *)
Lemma resume_nth_meal (pool : list handler) :
  forall (i : nat) (db db' : database) (pool' : list handler),
    Forall (meal_for d) pool ->
    connected db = true ->
    resume_nth i pool db = Some (db', pool') ->
    connected db' = true /\ Forall (meal_for d) pool'.
Proof.
  induction pool as [|h rest IH]; intros i db db' pool' Hwf Hc H.
  - destruct i; discriminate.
  - inversion Hwf as [|? ? Hh Hrest]; subst. destruct i as [|j].
    + destruct Hh as [Hr|(req & Hv & Hd & ->)].
      { destruct h; [discriminate H|discriminate Hr]. }
      destruct (accepted_meal_suspended req Hv) as (resume & Heq & Hres).
      rewrite Heq in H. cbn [resume_nth exec] in H.
      destruct (findOneAndUpdate_lookup (App.date req) d
                  (Inc (Number (calories req)) (Number (protein req)))
                  db Hc Hd) as (d' & db1 & Hf & Hc1 & _).
      rewrite Hf in H. injection H as <- <-.
      split; [exact Hc1|].
      constructor; [apply responded_meal_for, Hres|exact Hrest].
    + assert (Hstep : resume_nth (S j) (h :: rest) db
                      = match resume_nth j rest db with
                        | Some (db', rest') => Some (db', h :: rest')
                        | None => None
                        end) by (destruct h; reflexivity).
      rewrite Hstep in H.
      destruct (resume_nth j rest db) as [[db1 rest1]|] eqn:E; [|discriminate].
      injection H as <- <-.
      destruct (IH _ _ _ _ Hrest Hc E) as (Hc1 & Hwf1).
      split; [exact Hc1|constructor; assumption].
Qed.

Lemma accepted_meals_pool (reqs : list body) :
  Forall (fun req => meal_invalid req = false
                     /\ castString (App.date req) = Some d) reqs ->
  Forall (meal_for d) (map post_api_meals reqs).
Proof.
  induction 1 as [|req reqs [Hv Hd] _ IHwf]; cbn [map]; constructor.
  - right. exists req. auto.
  - exact IHwf.
Qed.

Lemma interleave_shift (h : handler) (schedule : list nat) :
  forall (pool pool' : list handler) (db db' : database),
    interleave schedule pool db = Some (db', pool') ->
    interleave (map S schedule) (h :: pool) db = Some (db', h :: pool').
Proof.
  induction schedule as [|i schedule IH]; intros pool pool' db db' H.
  - injection H as <- <-. reflexivity.
  - cbn [interleave map] in H |- *.
    replace (resume_nth (S i) (h :: pool) db)
      with (match resume_nth i pool db with
            | Some (db1, rest1) => Some (db1, h :: rest1)
            | None => None
            end) by (destruct h; reflexivity).
    destruct (resume_nth i pool db) as [[db1 pool1]|]; [|discriminate].
    apply IH. exact H.
Qed.

(** Every pool of meals can be served to the end. *)
Lemma meals_can_complete (pool : list handler) :
  forall db : database,
    Forall (meal_for d) pool ->
    exists schedule db' pool',
      interleave schedule pool db = Some (db', pool')
      /\ quiescent pool' = true.
Proof.
  induction pool as [|h rest IH]; intros db Hwf.
  - exists [], db, []. split; reflexivity.
  - inversion Hwf as [|? ? Hh Hrest]; subst.
    destruct Hh as [Hr|(req & Hv & Hd & ->)].
    + destruct (IH db Hrest) as (schedule & db' & pool' & Hi & Hq).
      exists (map S schedule), db', (h :: pool').
      split; [apply interleave_shift; exact Hi|].
      unfold quiescent in *. cbn [forallb]. rewrite Hr, Hq. reflexivity.
    + destruct (accepted_meal_suspended req Hv) as (resume & -> & Hres).
      destruct (exec (FindOneAndUpdate (App.date req)
                        (Inc (Number (calories req)) (Number (protein req)))) db)
        as [r db1] eqn:E.
      destruct (IH db1 Hrest) as (schedule & db' & pool' & Hi & Hq).
      exists (0 :: map S schedule), db', (resume r :: pool').
      split.
      * cbn [interleave resume_nth]. rewrite E.
        apply interleave_shift. exact Hi.
      * unfold quiescent in *. cbn [forallb]. rewrite Hres, Hq. reflexivity.
Qed.

Lemma findOneAndUpdate_count_key (filter : value) (u : update) (db : database) :
  connected db = true -> castString filter = Some d ->
  count d (days db) <= 1 ->
  count d (days (snd (findOneAndUpdate filter u db))) = 1.
Proof.
  intros Hc Hd Hle. unfold findOneAndUpdate. rewrite Hc, Hd. cbn [negb].
  destruct (update_first d u (days db)) as [[d' l']|] eqn:E; cbn [snd days].
  - assert (Hpos : count d (days db) <> 0).
    { intros H0. apply update_first_none with (u := u) in H0. congruence. }
    apply update_first_dates in E. destruct E as [Hm _].
    rewrite (count_dates d _ _ Hm). lia.
  - apply update_first_none in E. rewrite count_app, E, count_cons.
    replace (has_date d (upserted d u)) with true
      by (symmetry; apply has_date_true, upserted_date).
    reflexivity.
Qed.

Lemma resume_nth_count (pool : list handler) :
  forall (i : nat) (db db' : database) (pool' : list handler),
    Forall (meal_for d) pool ->
    connected db = true ->
    count d (days db) <= 1 ->
    resume_nth i pool db = Some (db', pool') ->
    count d (days db') = 1.
Proof.
  induction pool as [|h rest IH]; intros i db db' pool' Hwf Hc Hle H.
  - destruct i; discriminate.
  - inversion Hwf as [|? ? Hh Hrest]; subst. destruct i as [|j].
    + destruct Hh as [Hr|(req & Hv & Hd & ->)].
      { destruct h; [discriminate H|discriminate Hr]. }
      destruct (accepted_meal_suspended req Hv) as (resume & Heq & _).
      rewrite Heq in H. cbn [resume_nth exec] in H.
      pose proof (findOneAndUpdate_count_key (App.date req)
                    (Inc (Number (calories req)) (Number (protein req)))
                    db Hc Hd Hle) as Hcount.
      destruct (findOneAndUpdate _ _ db) as [r db1].
      injection H as <- <-. exact Hcount.
    + assert (Hstep : resume_nth (S j) (h :: rest) db
                      = match resume_nth j rest db with
                        | Some (db', rest') => Some (db', h :: rest')
                        | None => None
                        end) by (destruct h; reflexivity).
      rewrite Hstep in H.
      destruct (resume_nth j rest db) as [[db1 rest1]|] eqn:E; [|discriminate].
      injection H as <- <-. eapply IH; eauto.
Qed.

Lemma interleave_count (schedule : list nat) :
  forall (pool pool' : list handler) (db db' : database),
    Forall (meal_for d) pool ->
    connected db = true ->
    count d (days db) <= 1 ->
    interleave schedule pool db = Some (db', pool') ->
    schedule <> [] ->
    count d (days db') = 1.
Proof.
  induction schedule as [|i schedule IH]; intros pool pool' db db' Hwf Hc Hle H Hne.
  - congruence.
  - cbn [interleave] in H.
    destruct (resume_nth i pool db) as [[db1 pool1]|] eqn:E; [|discriminate].
    pose proof (resume_nth_count _ _ _ _ _ Hwf Hc Hle E) as H1.
    destruct (resume_nth_meal _ _ _ _ _ Hwf Hc E) as (Hc1 & Hwf1).
    destruct schedule as [|k schedule].
    + injection H as <- <-. exact H1.
    + eapply IH; eauto; [lia|discriminate].
Qed.

End Concurrency.

(* ================================================================== *)
(** ** The example scenario                                            *)
(* ================================================================== *)

Section Scenario.

Import App Day.

(** Two meals, a reset and a listing, with the date written ["20240115"]. *)
Example scenario_numeric_date :
  run (post_api_meals {| calories := Num (of_Z 500); protein := Num (of_Z 30);
                         App.date := Str "20240115" |}) empty
  = ({| status := 200;
        json := Document {| date := "20240115"; totalCalories := of_Z 500;
                            totalProtein := of_Z 30 |} |},
     {| connected := true;
        days := [ {| date := "20240115"; totalCalories := of_Z 500;
                     totalProtein := of_Z 30 |} ] |})
  /\ run (post_api_meals {| calories := Num (of_Z 200); protein := Num (of_Z 10);
                            App.date := Str "20240115" |})
         {| connected := true;
            days := [ {| date := "20240115"; totalCalories := of_Z 500;
                         totalProtein := of_Z 30 |} ] |}
     = ({| status := 200;
           json := Document {| date := "20240115"; totalCalories := of_Z 700;
                               totalProtein := of_Z 40 |} |},
        {| connected := true;
           days := [ {| date := "20240115"; totalCalories := of_Z 700;
                        totalProtein := of_Z 40 |} ] |})
  /\ run (put_api_days_reset {| calories := Undefined; protein := Undefined;
                                App.date := Str "20240115" |})
         {| connected := true;
            days := [ {| date := "20240115"; totalCalories := of_Z 700;
                         totalProtein := of_Z 40 |} ] |}
     = ({| status := 200;
           json := Document {| date := "20240115"; totalCalories := zero;
                               totalProtein := zero |} |},
        {| connected := true;
           days := [ {| date := "20240115"; totalCalories := zero;
                        totalProtein := zero |} ] |})
  /\ run get_api_days
         {| connected := true;
            days := [ {| date := "20240115"; totalCalories := zero;
                         totalProtein := zero |} ] |}
     = ({| status := 200;
           json := Documents [ {| date := "20240115"; totalCalories := zero;
                                  totalProtein := zero |} ] |},
        {| connected := true;
           days := [ {| date := "20240115"; totalCalories := zero;
                        totalProtein := zero |} ] |}).
Proof. repeat split; reflexivity. Qed.

(** The same requests with the date written ["2024-01-15"] are all
    rejected: the store stays empty. *)
Example scenario_calendar_date :
  serve [ PostMeal {| calories := Num (of_Z 500); protein := Num (of_Z 30);
                      App.date := Str "2024-01-15" |};
          PostMeal {| calories := Num (of_Z 200); protein := Num (of_Z 10);
                      App.date := Str "2024-01-15" |};
          PutReset {| calories := Undefined; protein := Undefined;
                      App.date := Str "2024-01-15" |};
          GetDays ] empty
  = empty.
Proof. reflexivity. Qed.

End Scenario.

(* ================================================================== *)
(** ** Outcomes of a request                                           *)
(* ================================================================== *)

Section Outcomes.

Import App Day Ledger.

Lemma valid_request_casts (q : request) :
  invalid q = false -> q <> GetDays -> exists key, key_of q = Some key.
Proof.
  destruct q as [|req|req]; cbn [invalid key_of]; intros Hv Hq.
  - congruence.
  - apply truthy_casts. apply meal_valid_parts in Hv. tauto.
  - apply truthy_casts. unfold reset_invalid in Hv.
    apply orb_false_iff in Hv. tauto.
Qed.

Lemma findOneAndUpdate_offline (filter : value) (u : update) (db : database) :
  connected db = false ->
  findOneAndUpdate filter u db = (Rejected NotConnected, db).
Proof. intros Hc. unfold findOneAndUpdate. rewrite Hc. reflexivity. Qed.

End Outcomes.

(* ================================================================== *)
(** ** Effects on the collection                                       *)
(* ================================================================== *)

Section Effects.

Import App Day Ledger.

(** A request that passes validation while the store cannot be reached is
    answered 500 with the message of its handler, and the store is as it
    was. *)
Theorem store_fault_reported : forall (q : request) (db : database),
  invalid q = false ->
  connected db = false ->
  run (route q) db
  = ({| status := 500;
        json := Message match q with
                        | GetDays => "Server Error: Could not fetch data."
                        | PostMeal _ => "Server Error: Could not save data."
                        | PutReset _ => "Server Error: Could not reset data."
                        end |}, db).
Proof.
  intros [|req|req] db Hv Hc; cbn [route invalid] in *.
  - rewrite run_get_api_days, Hc. reflexivity.
  - rewrite run_post_api_meals, Hv, findOneAndUpdate_offline by exact Hc.
    reflexivity.
  - rewrite run_put_api_days_reset, Hv, findOneAndUpdate_offline by exact Hc.
    reflexivity.
Qed.

Lemma store_fault_reported_witness :
  run (route (PostMeal {| calories := Num (of_Z 500); protein := Num (of_Z 30);
                          App.date := Str "20240115" |}))
      {| connected := false; days := [] |}
  = ({| status := 500; json := Message "Server Error: Could not save data." |},
     {| connected := false; days := [] |}).
Proof.
  apply (store_fault_reported
           (PostMeal {| calories := Num (of_Z 500); protein := Num (of_Z 30);
                        App.date := Str "20240115" |})
           {| connected := false; days := [] |}); reflexivity.
Defined.

(** The first accepted meal of a date: on a reachable store with no
    document for the date, one document is added at the end of the
    collection, holding [Number(calories)] and [Number(protein)]; the other
    documents are as they were and the response is 200 with the new
    document. *)
Theorem first_meal_creates_record :
  forall (req : body) (db : database) (d : string),
    meal_invalid req = false ->
    castString (App.date req) = Some d ->
    connected db = true ->
    count d (days db) = 0 ->
    run (post_api_meals req) db
    = ({| status := 200;
          json := Document {| date := d;
                              totalCalories := Number (calories req);
                              totalProtein := Number (protein req) |} |},
       {| connected := true;
          days := days db ++ [ {| date := d;
                                  totalCalories := Number (calories req);
                                  totalProtein := Number (protein req) |} ] |}).
Proof.
  intros req db d Hv Hd Hc H0.
  rewrite run_post_api_meals, Hv. unfold findOneAndUpdate.
  rewrite Hc, Hd. cbn [negb].
  apply update_first_none with (u := Inc (Number (calories req)) (Number (protein req)))
    in H0.
  rewrite H0. reflexivity.
Qed.

Lemma first_meal_creates_record_witness :
  run (post_api_meals {| calories := Str "200"; protein := Num (of_Z 10);
                         App.date := Str "20240116" |})
      {| connected := true;
         days := [ {| date := "20240115"; totalCalories := of_Z 500;
                      totalProtein := of_Z 30 |} ] |}
  = ({| status := 200;
        json := Document {| date := "20240116";
                            totalCalories := Number (Str "200");
                            totalProtein := Number (Num (of_Z 10)) |} |},
     {| connected := true;
        days := [ {| date := "20240115"; totalCalories := of_Z 500;
                     totalProtein := of_Z 30 |} ]
                ++ [ {| date := "20240116";
                        totalCalories := Number (Str "200");
                        totalProtein := Number (Num (of_Z 10)) |} ] |}).
Proof.
  apply (first_meal_creates_record
           {| calories := Str "200"; protein := Num (of_Z 10);
              App.date := Str "20240116" |}
           {| connected := true;
              days := [ {| date := "20240115"; totalCalories := of_Z 500;
                           totalProtein := of_Z 30 |} ] |}
           "20240116"); reflexivity.
Defined.

(** An accepted reset on a reachable store with one document per date:
    the document of the date, wherever it is in the collection, is
    replaced in place by the zeroed document; when the date has no
    document the zeroed document is added at the end.  Either way the
    other documents are as they were and the response is 200 with the
    zeroed document. *)
Theorem reset_zeroes_record :
  forall (req : body) (db : database) (d : string),
    reset_invalid req = false ->
    castString (App.date req) = Some d ->
    connected db = true ->
    (forall key, count key (days db) <= 1) ->
    (forall x : doc,
        In x (days db) -> date x = d ->
        exists l1 l2 : list doc,
          days db = l1 ++ x :: l2
          /\ run (put_api_days_reset req) db
             = ({| status := 200;
                   json := Document {| date := d; totalCalories := zero;
                                       totalProtein := zero |} |},
                {| connected := true;
                   days := l1 ++ {| date := d; totalCalories := zero;
                                    totalProtein := zero |} :: l2 |}))
    /\ (count d (days db) = 0 ->
        run (put_api_days_reset req) db
        = ({| status := 200;
              json := Document {| date := d; totalCalories := zero;
                                  totalProtein := zero |} |},
           {| connected := true;
              days := days db ++ [ {| date := d; totalCalories := zero;
                                      totalProtein := zero |} ] |})).
Proof.
  intros req db d Hv Hd Hc Hu. split.
  - intros x Hin Hx.
    destruct (in_split_first _ _ Hin (Hu _)) as (l1 & l2 & Hl & H0).
    exists l1, l2. split; [exact Hl|].
    rewrite run_put_api_days_reset, Hv. unfold findOneAndUpdate.
    rewrite Hc, Hd, Hl. cbn [negb]. rewrite Hx in H0.
    rewrite (update_first_app d (SetTotals zero zero) l1 l2 x H0 Hx).
    cbn [apply_update]. rewrite Hx. reflexivity.
  - intros H0. rewrite run_put_api_days_reset, Hv. unfold findOneAndUpdate.
    rewrite Hc, Hd. cbn [negb].
    apply update_first_none with (u := SetTotals zero zero) in H0.
    rewrite H0. reflexivity.
Qed.

Lemma reset_zeroes_record_witness :
  (forall x : doc,
      In x [ {| date := "20240115"; totalCalories := of_Z 700;
                totalProtein := of_Z 40 |};
             {| date := "20240114"; totalCalories := of_Z 1800;
                totalProtein := of_Z 90 |} ] ->
      date x = "20240115" ->
      exists l1 l2 : list doc,
        [ {| date := "20240115"; totalCalories := of_Z 700;
             totalProtein := of_Z 40 |};
          {| date := "20240114"; totalCalories := of_Z 1800;
             totalProtein := of_Z 90 |} ] = l1 ++ x :: l2
        /\ run (put_api_days_reset {| calories := Undefined; protein := Undefined;
                                      App.date := Num (of_Z 20240115) |})
               {| connected := true;
                  days := [ {| date := "20240115"; totalCalories := of_Z 700;
                               totalProtein := of_Z 40 |};
                            {| date := "20240114"; totalCalories := of_Z 1800;
                               totalProtein := of_Z 90 |} ] |}
           = ({| status := 200;
                 json := Document {| date := "20240115"; totalCalories := zero;
                                     totalProtein := zero |} |},
              {| connected := true;
                 days := l1 ++ {| date := "20240115"; totalCalories := zero;
                                  totalProtein := zero |} :: l2 |}))
  /\ (count "20240115"
            [ {| date := "20240115"; totalCalories := of_Z 700;
                 totalProtein := of_Z 40 |};
              {| date := "20240114"; totalCalories := of_Z 1800;
                 totalProtein := of_Z 90 |} ] = 0 ->
      run (put_api_days_reset {| calories := Undefined; protein := Undefined;
                                 App.date := Num (of_Z 20240115) |})
          {| connected := true;
             days := [ {| date := "20240115"; totalCalories := of_Z 700;
                          totalProtein := of_Z 40 |};
                       {| date := "20240114"; totalCalories := of_Z 1800;
                          totalProtein := of_Z 90 |} ] |}
      = ({| status := 200;
            json := Document {| date := "20240115"; totalCalories := zero;
                                totalProtein := zero |} |},
         {| connected := true;
            days := [ {| date := "20240115"; totalCalories := of_Z 700;
                         totalProtein := of_Z 40 |};
                      {| date := "20240114"; totalCalories := of_Z 1800;
                         totalProtein := of_Z 90 |} ]
                    ++ [ {| date := "20240115"; totalCalories := zero;
                            totalProtein := zero |} ] |})).
Proof.
  apply (reset_zeroes_record
           {| calories := Undefined; protein := Undefined;
              App.date := Num (of_Z 20240115) |}
           {| connected := true;
              days := [ {| date := "20240115"; totalCalories := of_Z 700;
                           totalProtein := of_Z 40 |};
                        {| date := "20240114"; totalCalories := of_Z 1800;
                           totalProtein := of_Z 90 |} ] |}
           "20240115").
  - reflexivity.
  - reflexivity.
  - reflexivity.
  - intros key. unfold count. simpl. unfold has_date. simpl date.
    destruct ("20240115" =? key)%string eqn:E1;
      destruct ("20240114" =? key)%string eqn:E2; simpl; try lia.
    apply String.eqb_eq in E1, E2. congruence.
Defined.

Lemma findOneAndUpdate_dates (filter : value) (u : update) (db : database) :
  exists added : list string,
    map date (days (snd (findOneAndUpdate filter u db)))
    = map date (days db) ++ added
    /\ List.length added <= 1.
Proof.
  unfold findOneAndUpdate. destruct (connected db); cbn [negb].
  - destruct (castString filter) as [key|].
    + destruct (update_first key u (days db)) as [[d' l']|] eqn:E; cbn [snd days].
      * apply update_first_dates in E. destruct E as [Hm _].
        exists []. rewrite Hm, app_nil_r. split; [reflexivity|simpl; lia].
      * exists [key]. rewrite map_app. cbn [map]. rewrite upserted_date.
        split; [reflexivity|simpl; lia].
    + exists []. rewrite app_nil_r. split; [reflexivity|simpl; lia].
  - exists []. rewrite app_nil_r. split; [reflexivity|simpl; lia].
Qed.

Lemma route_dates (q : request) (db : database) :
  exists added : list string,
    map date (days (snd (run (route q) db))) = map date (days db) ++ added
    /\ List.length added <= 1.
Proof.
  rewrite snd_run_route.
  assert (Hsame : exists added : list string,
             map date (days db) = map date (days db) ++ added /\ List.length added <= 1).
  { exists []. rewrite app_nil_r. split; [reflexivity|simpl; lia]. }
  destruct q as [|req|req].
  - exact Hsame.
  - destruct (meal_invalid req); [exact Hsame|apply findOneAndUpdate_dates].
  - destruct (reset_invalid req); [exact Hsame|apply findOneAndUpdate_dates].
Qed.

(** No request deletes a document, changes a document's date or reorders
    the collection: after any sequence of requests the dates of the
    collection are the dates it had, in the same order, followed by the
    dates that were added, at most one per request. *)
Theorem records_never_deleted : forall (qs : list request) (db : database),
  exists added : list string,
    map date (days (serve qs db)) = map date (days db) ++ added
    /\ List.length added <= List.length qs.
Proof.
  induction qs as [|q qs IH]; intros db; cbn [serve].
  - exists []. rewrite app_nil_r. split; [reflexivity|simpl; lia].
  - destruct (route_dates q db) as (a1 & H1 & L1).
    destruct (IH (snd (run (route q) db))) as (a2 & H2 & L2).
    exists (a1 ++ a2). rewrite H2, H1, <- app_assoc.
    split; [reflexivity|]. rewrite length_app. simpl. lia.
Qed.

Lemma update_first_filter (key k : string) (u : update) (l l' : list doc) (d' : doc) :
  update_first key u l = Some (d', l') -> k <> key ->
  filter (has_date k) l' = filter (has_date k) l.
Proof.
  revert l' d'. induction l as [|x l IH]; simpl; intros l' d' H Hk; [discriminate|].
  destruct (date x =? key)%string eqn:E.
  - injection H as <- <-. simpl. unfold has_date.
    rewrite apply_update_date. apply String.eqb_eq in E.
    replace (date x =? k)%string with false; [reflexivity|].
    symmetry. apply String.eqb_neq. congruence.
  - destruct (update_first key u l) as [[d0 l0]|]; [|discriminate].
    injection H as <- <-. simpl. rewrite (IH _ _ eq_refl Hk). reflexivity.
Qed.

(** A request leaves the documents of every date other than the one it
    addresses exactly as they were, whatever the store holds. *)
Theorem other_dates_untouched :
  forall (q : request) (db : database) (k : string),
    key_of q <> Some k ->
    filter (has_date k) (days (snd (run (route q) db)))
    = filter (has_date k) (days db).
Proof.
  intros q db k Hk. rewrite snd_run_route.
  assert (Hfou : forall f u,
             castString f <> Some k ->
             filter (has_date k) (days (snd (findOneAndUpdate f u db)))
             = filter (has_date k) (days db)).
  { intros f u Hf. unfold findOneAndUpdate.
    destruct (connected db); cbn [negb]; [|reflexivity].
    destruct (castString f) as [key|]; [|reflexivity].
    assert (Hne : k <> key) by congruence.
    destruct (update_first key u (days db)) as [[d' l']|] eqn:E; cbn [snd days].
    - eapply update_first_filter; eauto.
    - rewrite filter_app. cbn [filter]. unfold has_date at 2.
      rewrite upserted_date.
      replace (key =? k)%string with false; [apply app_nil_r|].
      symmetry. apply String.eqb_neq. congruence. }
  destruct q as [|req|req]; cbn [key_of] in Hk.
  - reflexivity.
  - destruct (meal_invalid req); [reflexivity|apply Hfou; exact Hk].
  - destruct (reset_invalid req); [reflexivity|apply Hfou; exact Hk].
Qed.

Lemma other_dates_untouched_witness :
  filter (has_date "20240114")
    (days (snd (run (route (PostMeal {| calories := Num (of_Z 200);
                                        protein := Num (of_Z 10);
                                        App.date := Str "20240115" |}))
                    {| connected := true;
                       days := [ {| date := "20240114"; totalCalories := of_Z 1800;
                                    totalProtein := of_Z 90 |};
                                 {| date := "20240115"; totalCalories := of_Z 500;
                                    totalProtein := of_Z 30 |} ] |})))
  = filter (has_date "20240114")
      [ {| date := "20240114"; totalCalories := of_Z 1800;
           totalProtein := of_Z 90 |};
        {| date := "20240115"; totalCalories := of_Z 500;
           totalProtein := of_Z 30 |} ].
Proof.
  apply (other_dates_untouched
           (PostMeal {| calories := Num (of_Z 200); protein := Num (of_Z 10);
                        App.date := Str "20240115" |})
           {| connected := true;
              days := [ {| date := "20240114"; totalCalories := of_Z 1800;
                           totalProtein := of_Z 90 |};
                        {| date := "20240115"; totalCalories := of_Z 500;
                           totalProtein := of_Z 30 |} ] |}
           "20240114").
  discriminate.
Defined.

End Effects.

(* ================================================================== *)
(** ** How requests compose                                            *)
(* ================================================================== *)

Section Composition.

Import App Day Ledger.

Lemma update_first_then_set (key : string) (u : update) (c p : number)
      (l l' : list doc) (d' : doc) :
  update_first key u l = Some (d', l') ->
  update_first key (SetTotals c p) l' = update_first key (SetTotals c p) l.
Proof.
  revert l' d'.
  induction l as [|x l IH]; cbn [update_first]; intros l' d' H; [discriminate|].
  destruct (date x =? key)%string eqn:E.
  - injection H as <- <-. cbn [update_first].
    rewrite apply_update_date, E. cbn [apply_update].
    rewrite apply_update_date. reflexivity.
  - destruct (update_first key u l) as [[d0 l0]|] eqn:E0; [|discriminate].
    injection H as <- <-. cbn [update_first].
    rewrite E, (IH _ _ eq_refl). reflexivity.
Qed.

Lemma findOneAndUpdate_then_set (f1 f2 : value) (u : update) (c p : number)
      (db : database) :
  castString f1 = castString f2 ->
  findOneAndUpdate f2 (SetTotals c p) (snd (findOneAndUpdate f1 u db))
  = findOneAndUpdate f2 (SetTotals c p) db.
Proof.
  intros Hk. unfold findOneAndUpdate at 2.
  destruct (connected db) eqn:Hc; cbn [negb snd]; [|reflexivity].
  rewrite Hk. destruct (castString f2) as [key|] eqn:Hf; [|reflexivity].
  unfold findOneAndUpdate. rewrite Hc, Hf. cbn [negb].
  destruct (update_first key u (days db)) as [[d' l']|] eqn:E;
    cbn [snd connected days negb].
  - rewrite (update_first_then_set _ _ _ _ _ _ _ E).
    destruct (update_first key (SetTotals c p) (days db)) as [[d0 l0]|] eqn:E0.
    + reflexivity.
    + apply update_first_none in E0.
      apply update_first_none with (u := u) in E0. congruence.
  - pose proof E as E0. apply update_first_none in E0.
    rewrite (update_first_app key (SetTotals c p) (days db) []
               (upserted key u) E0 (upserted_date key u)).
    apply update_first_none with (u := SetTotals c p) in E0. rewrite E0.
    destruct u; reflexivity.
Qed.

(** A reset wipes out a meal added just before it for the same date: the
    accepted reset answers the same and leaves the same store whether or
    not the accepted meal came first. *)
Theorem reset_absorbs_meal : forall (meal reset : body) (db : database),
  meal_invalid meal = false ->
  reset_invalid reset = false ->
  castString (App.date meal) = castString (App.date reset) ->
  run (put_api_days_reset reset) (snd (run (post_api_meals meal) db))
  = run (put_api_days_reset reset) db.
Proof.
  intros meal reset db Hm Hr Hk.
  pose proof (snd_run_route (PostMeal meal) db) as Hs. cbn [route] in Hs.
  rewrite Hm in Hs. rewrite Hs, !run_put_api_days_reset, Hr.
  rewrite (findOneAndUpdate_then_set _ _ _ _ _ _ Hk). reflexivity.
Qed.

Lemma reset_absorbs_meal_witness :
  run (put_api_days_reset {| calories := Undefined; protein := Undefined;
                             App.date := Str "20240115" |})
      (snd (run (post_api_meals {| calories := Num (of_Z 500);
                                   protein := Num (of_Z 30);
                                   App.date := Num (of_Z 20240115) |})
                {| connected := true;
                   days := [ {| date := "20240115"; totalCalories := of_Z 700;
                                totalProtein := of_Z 40 |} ] |}))
  = run (put_api_days_reset {| calories := Undefined; protein := Undefined;
                               App.date := Str "20240115" |})
        {| connected := true;
           days := [ {| date := "20240115"; totalCalories := of_Z 700;
                        totalProtein := of_Z 40 |} ] |}.
Proof.
  apply (reset_absorbs_meal
           {| calories := Num (of_Z 500); protein := Num (of_Z 30);
              App.date := Num (of_Z 20240115) |}
           {| calories := Undefined; protein := Undefined;
              App.date := Str "20240115" |}
           {| connected := true;
              days := [ {| date := "20240115"; totalCalories := of_Z 700;
                           totalProtein := of_Z 40 |} ] |});
    reflexivity.
Defined.

(** The document a meal or a reset is answered with is among the
    documents the next GET /api/days lists, and its date is the date the
    request addressed. *)
Theorem written_record_is_listed : forall (q : request) (db : database),
  q <> GetDays ->
  invalid q = false ->
  connected db = true ->
  exists (d' : doc) (l : list doc),
    fst (run (route q) db) = {| status := 200; json := Document d' |}
    /\ key_of q = Some (date d')
    /\ fst (run get_api_days (snd (run (route q) db)))
       = {| status := 200; json := Documents l |}
    /\ In d' l.
Proof.
  intros q db Hq Hv Hc.
  destruct (valid_request_casts q Hv Hq) as [key Hk].
  assert (Hrun : forall u,
             (let '(r, db') := findOneAndUpdate
                                 match q with
                                 | PostMeal req | PutReset req => App.date req
                                 | GetDays => Undefined
                                 end u db in
              exists d', r = Fulfilled d' /\ date d' = key
                         /\ connected db' = true /\ In d' (days db'))).
  { intros u.
    destruct (findOneAndUpdate_lookup
                match q with
                | PostMeal req | PutReset req => App.date req
                | GetDays => Undefined
                end key u db Hc)
      as (d' & db' & Hf & Hc' & _ & Hl & _).
    { destruct q; [congruence|exact Hk|exact Hk]. }
    rewrite Hf. exists d'. apply find_some in Hl. destruct Hl as [Hin Hd].
    apply has_date_true in Hd. auto. }
  destruct q as [|req|req]; [congruence| |]; cbn [route invalid key_of] in *.
  - rewrite run_post_api_meals, Hv.
    specialize (Hrun (Inc (Number (calories req)) (Number (protein req)))).
    destruct (findOneAndUpdate _ _ db) as [r db'].
    destruct Hrun as (d' & -> & Hd & Hc' & Hin).
    exists d', (sort_desc (days db')). cbn [fst snd].
    rewrite run_get_api_days, Hc'. cbn [fst].
    repeat split; [congruence|].
    eapply Permutation_in; [apply Permutation_sym, sort_desc_perm|exact Hin].
  - rewrite run_put_api_days_reset, Hv.
    specialize (Hrun (SetTotals zero zero)).
    destruct (findOneAndUpdate _ _ db) as [r db'].
    destruct Hrun as (d' & -> & Hd & Hc' & Hin).
    exists d', (sort_desc (days db')). cbn [fst snd].
    rewrite run_get_api_days, Hc'. cbn [fst].
    repeat split; [congruence|].
    eapply Permutation_in; [apply Permutation_sym, sort_desc_perm|exact Hin].
Qed.

Lemma written_record_is_listed_witness :
  exists (d' : doc) (l : list doc),
    fst (run (route (PostMeal {| calories := Num (of_Z 200); protein := Num (of_Z 10);
                                 App.date := Str "20240115" |}))
             {| connected := true;
                days := [ {| date := "20240114"; totalCalories := of_Z 1800;
                             totalProtein := of_Z 90 |} ] |})
    = {| status := 200; json := Document d' |}
    /\ key_of (PostMeal {| calories := Num (of_Z 200); protein := Num (of_Z 10);
                           App.date := Str "20240115" |}) = Some (date d')
    /\ fst (run get_api_days
               (snd (run (route (PostMeal {| calories := Num (of_Z 200);
                                             protein := Num (of_Z 10);
                                             App.date := Str "20240115" |}))
                         {| connected := true;
                            days := [ {| date := "20240114";
                                         totalCalories := of_Z 1800;
                                         totalProtein := of_Z 90 |} ] |})))
       = {| status := 200; json := Documents l |}
    /\ In d' l.
Proof.
  apply (written_record_is_listed
           (PostMeal {| calories := Num (of_Z 200); protein := Num (of_Z 10);
                        App.date := Str "20240115" |})
           {| connected := true;
              days := [ {| date := "20240114"; totalCalories := of_Z 1800;
                           totalProtein := of_Z 90 |} ] |}).
  - discriminate.
  - reflexivity.
  - reflexivity.
Defined.

Lemma route_totals (q : request) (db : database) (d : string) :
  connected db = true ->
  totals_of d (snd (run (route q) db)) = tally_step d (totals_of d db) q
  /\ connected (snd (run (route q) db)) = true.
Proof.
  intros Hc. rewrite snd_run_route.
  assert (Hfou : forall f u key,
             castString f = Some key ->
             totals_of d (snd (findOneAndUpdate f u db))
             = (if (key =? d)%string then
                  match totals_of d db with
                  | Some (C, P) =>
                      Some (totalCalories (apply_update u
                                             {| date := d; totalCalories := C;
                                                totalProtein := P |}),
                            totalProtein (apply_update u
                                            {| date := d; totalCalories := C;
                                               totalProtein := P |}))
                  | None => Some (totalCalories (upserted d u),
                                  totalProtein (upserted d u))
                  end
                else totals_of d db)
             /\ connected (snd (findOneAndUpdate f u db)) = true).
  { intros f u key Hk.
    destruct (findOneAndUpdate_lookup f key u db Hc Hk)
      as (d' & db' & Hf & Hc' & Hd' & Hl & Hother).
    rewrite Hf. cbn [snd]. split; [|exact Hc'].
    unfold totals_of. destruct (key =? d)%string eqn:E.
    - apply String.eqb_eq in E. subst key. rewrite Hl, Hd'.
      destruct (lookup d (days db)) as [x|]; [|reflexivity].
      destruct u; reflexivity.
    - rewrite Hother; [reflexivity|]. apply String.eqb_neq in E. congruence. }
  destruct q as [|req|req]; cbn [tally_step].
  - split; [reflexivity|exact Hc].
  - destruct (meal_invalid req) eqn:Hv; [split; [reflexivity|exact Hc]|].
    destruct (truthy_casts (App.date req)) as [key Hk].
    { apply meal_valid_parts in Hv. tauto. }
    destruct (Hfou (App.date req)
                (Inc (Number (calories req)) (Number (protein req))) key Hk)
      as [Ht Hc'].
    rewrite Ht, Hk. split; [|exact Hc'].
    destruct (key =? d)%string; [|reflexivity].
    destruct (totals_of d db) as [[C P]|]; reflexivity.
  - destruct (reset_invalid req) eqn:Hv; [split; [reflexivity|exact Hc]|].
    destruct (truthy_casts (App.date req)) as [key Hk].
    { unfold reset_invalid in Hv. apply orb_false_iff in Hv. tauto. }
    destruct (Hfou (App.date req) (SetTotals zero zero) key Hk) as [Ht Hc'].
    rewrite Ht, Hk. split; [|exact Hc'].
    destruct (key =? d)%string; [|reflexivity].
    destruct (totals_of d db) as [[C P]|]; reflexivity.
Qed.

(** The totals a reachable store holds for a date after any sequence of
    requests are those it held before, replayed through the accepted
    requests for that date alone, in order: a meal adds its amounts (or
    sets them when the date had no document), a reset sets both to zero.
    Requests for other dates, rejected requests, listings and the order of
    the collection play no part. *)
Theorem totals_replay_requests :
  forall (qs : list request) (db : database) (d : string),
    connected db = true ->
    totals_of d (serve qs db) = tally d qs (totals_of d db).
Proof.
  induction qs as [|q qs IH]; intros db d Hc; cbn [serve tally fold_left].
  - reflexivity.
  - destruct (route_totals q db d Hc) as [Ht Hc'].
    rewrite (IH _ d Hc'), Ht. reflexivity.
Qed.

Lemma totals_replay_requests_witness :
  totals_of "20240115"
    (serve [ PostMeal {| calories := Num (of_Z 500); protein := Num (of_Z 30);
                         App.date := Str "20240115" |};
             PostMeal {| calories := Num (of_Z 900); protein := Num (of_Z 50);
                         App.date := Str "20240116" |};
             PutReset {| calories := Undefined; protein := Undefined;
                         App.date := Str "20240115" |};
             PostMeal {| calories := Str "200"; protein := Str "10";
                         App.date := Num (of_Z 20240115) |};
             PostMeal {| calories := Num (of_Z 0); protein := Num (of_Z 10);
                         App.date := Str "20240115" |};
             GetDays ] empty)
  = tally "20240115"
      [ PostMeal {| calories := Num (of_Z 500); protein := Num (of_Z 30);
                    App.date := Str "20240115" |};
        PostMeal {| calories := Num (of_Z 900); protein := Num (of_Z 50);
                    App.date := Str "20240116" |};
        PutReset {| calories := Undefined; protein := Undefined;
                    App.date := Str "20240115" |};
        PostMeal {| calories := Str "200"; protein := Str "10";
                    App.date := Num (of_Z 20240115) |};
        PostMeal {| calories := Num (of_Z 0); protein := Num (of_Z 10);
                    App.date := Str "20240115" |};
        GetDays ] (totals_of "20240115" empty).
Proof.
  apply totals_replay_requests. reflexivity.
Defined.

(** What the replay of the example above comes to. *)
Example tally_example :
  tally "20240115"
    [ PostMeal {| calories := Num (of_Z 500); protein := Num (of_Z 30);
                  App.date := Str "20240115" |};
      PostMeal {| calories := Num (of_Z 900); protein := Num (of_Z 50);
                  App.date := Str "20240116" |};
      PutReset {| calories := Undefined; protein := Undefined;
                  App.date := Str "20240115" |};
      PostMeal {| calories := Str "200"; protein := Str "10";
                  App.date := Num (of_Z 20240115) |};
      PostMeal {| calories := Num (of_Z 0); protein := Num (of_Z 10);
                  App.date := Str "20240115" |};
      GetDays ] None
  = Some (of_Z 200, of_Z 10).
Proof. reflexivity. Qed.

End Composition.

(* ================================================================== *)
(** ** More on listings and totals                                     *)
(* ================================================================== *)

Section ListingOrder.

Import App Day Ledger.

Lemma count_in_pos (k : string) (x : doc) (l : list doc) :
  In x l -> date x = k -> 1 <= count k l.
Proof.
  intros Hin Hd. destruct (in_split _ _ Hin) as (l1 & l2 & ->).
  rewrite count_app, count_cons.
  replace (has_date k x) with true by (symmetry; apply has_date_true; exact Hd).
  lia.
Qed.

Lemma unique_date_same_doc (l : list doc) (x y : doc) :
  (forall key, count key l <= 1) ->
  In x l -> In y l -> date x = date y -> x = y.
Proof.
  intros Hu Hx Hy Hd.
  destruct (in_split_first _ _ Hx (Hu _)) as (l1 & l2 & Hl & H1).
  pose proof (Hu (date x)) as Hle. rewrite Hl in Hle, Hy.
  rewrite count_app, count_cons in Hle.
  replace (has_date (date x) x) with true in Hle
    by (symmetry; apply has_date_true; reflexivity).
  apply in_app_or in Hy. destruct Hy as [Hy|[Hy|Hy]].
  - pose proof (count_in_pos (date x) y l1 Hy (eq_sym Hd)). lia.
  - exact Hy.
  - pose proof (count_in_pos (date x) y l2 Hy (eq_sym Hd)). lia.
Qed.

Lemma sorted_permutation_unique (l1 : list doc) :
  forall l2 : list doc,
    (forall x y, In x l1 -> In y l1 -> date x = date y -> x = y) ->
    StronglySorted date_ge l1 -> StronglySorted date_ge l2 ->
    Permutation l1 l2 -> l1 = l2.
Proof.
  induction l1 as [|a l1 IH]; intros l2 Hinj S1 S2 Hp.
  - apply Permutation_nil in Hp. congruence.
  - destruct l2 as [|b l2].
    { apply Permutation_sym, Permutation_nil in Hp. discriminate. }
    inversion S1 as [|? ? S1' F1]; subst. inversion S2 as [|? ? S2' F2]; subst.
    assert (Hab : a = b).
    { assert (Ha : In a (b :: l2)) by (eapply Permutation_in; [exact Hp|left; reflexivity]).
      assert (Hb : In b (a :: l1))
        by (eapply Permutation_in; [apply Permutation_sym; exact Hp|left; reflexivity]).
      destruct Ha as [Ha|Ha]; [congruence|].
      destruct Hb as [Hb|Hb]; [congruence|].
      rewrite Forall_forall in F1, F2.
      apply Hinj; [left; reflexivity|right; exact Hb|].
      apply String.leb_antisym; [apply (F2 a Ha)|apply (F1 b Hb)]. }
    subst b. f_equal. apply IH; try assumption.
    + intros x y Hx Hy. apply Hinj; right; assumption.
    + eapply Permutation_cons_inv. exact Hp.
Qed.

(** What GET /api/days lists does not depend on the order in which the
    documents were inserted: two reachable stores that hold the same
    documents, one per date, get the same response. *)
Theorem listing_ignores_insertion_order : forall db1 db2 : database,
  connected db1 = true ->
  connected db2 = true ->
  (forall key, count key (days db1) <= 1) ->
  Permutation (days db1) (days db2) ->
  fst (run get_api_days db1) = fst (run get_api_days db2).
Proof.
  intros db1 db2 H1 H2 Hu Hp. rewrite !run_get_api_days, H1, H2. cbn [fst].
  do 2 f_equal. apply sorted_permutation_unique.
  - intros x y Hx Hy. apply (unique_date_same_doc (days db1)); try exact Hu.
    + eapply Permutation_in; [apply sort_desc_perm|exact Hx].
    + eapply Permutation_in; [apply sort_desc_perm|exact Hy].
  - apply sort_desc_sorted.
  - apply sort_desc_sorted.
  - eapply perm_trans; [apply sort_desc_perm|].
    eapply perm_trans; [exact Hp|apply Permutation_sym, sort_desc_perm].
Qed.

Lemma listing_ignores_insertion_order_witness :
  fst (run get_api_days
         {| connected := true;
            days := [ {| date := "20240114"; totalCalories := of_Z 1800;
                         totalProtein := of_Z 90 |};
                      {| date := "20240115"; totalCalories := of_Z 700;
                         totalProtein := of_Z 40 |} ] |})
  = fst (run get_api_days
           {| connected := true;
              days := [ {| date := "20240115"; totalCalories := of_Z 700;
                           totalProtein := of_Z 40 |};
                        {| date := "20240114"; totalCalories := of_Z 1800;
                           totalProtein := of_Z 90 |} ] |}).
Proof.
  apply listing_ignores_insertion_order.
  - reflexivity.
  - reflexivity.
  - intros key. unfold count. simpl. unfold has_date. simpl date.
    destruct ("20240114" =? key)%string eqn:E1;
      destruct ("20240115" =? key)%string eqn:E2; simpl; try lia.
    apply String.eqb_eq in E1, E2. congruence.
  - simpl. apply perm_swap.
Defined.

Lemma add_finite_not_nan (x y : number) :
  is_nan x = false -> is_finite y = true -> is_nan (add x y) = false.
Proof.
  destruct x, y; cbn [is_nan is_finite add]; try discriminate; try reflexivity.
  intros _ _. apply round64_not_nan.
Qed.

Lemma is_finite_not_nan (x : number) : is_finite x = true -> is_nan x = false.
Proof. destruct x; simpl; try discriminate; reflexivity. Qed.

Lemma update_first_nan_free (key : string) (u : update) (l l' : list doc) (d' : doc) :
  finite_update u = true ->
  Forall (fun d => nan_free d = true) l ->
  update_first key u l = Some (d', l') ->
  Forall (fun d => nan_free d = true) l'.
Proof.
  intros Hu. revert l' d'.
  induction l as [|d l IH]; cbn [update_first]; intros l' d' Hl H.
  - discriminate.
  - inversion Hl as [|? ? Hd Hrest]; subst.
    destruct (date d =? key)%string.
    + injection H as <- <-. constructor; [|assumption].
      unfold nan_free, finite_update in *.
      apply andb_true_iff in Hd. destruct Hd as [HC HP].
      apply negb_true_iff in HC, HP.
      destruct u; apply andb_true_iff in Hu; destruct Hu as [Hc Hp];
        cbn [apply_update totalCalories totalProtein].
      * rewrite !add_finite_not_nan by assumption. reflexivity.
      * rewrite !is_finite_not_nan by assumption. reflexivity.
    + destruct (update_first key u l) as [[d0 l0]|]; [|discriminate].
      injection H as <- <-. constructor; [assumption|].
      eapply IH; eauto.
Qed.

Lemma route_keeps_totals_nan_free (q : request) (db : database) :
  adds_finite q = true ->
  Forall (fun d => nan_free d = true) (days db) ->
  Forall (fun d => nan_free d = true) (days (snd (run (route q) db))).
Proof.
  intros Hq Hdb. rewrite snd_run_route.
  assert (Hfou : forall f u, finite_update u = true ->
             Forall (fun d => nan_free d = true)
                    (days (snd (findOneAndUpdate f u db)))).
  { intros f u Hu. unfold findOneAndUpdate.
    destruct (connected db); cbn [negb snd]; [|assumption].
    destruct (castString f) as [key|]; cbn [snd]; [|assumption].
    destruct (update_first key u (days db)) as [[d' l']|] eqn:E; cbn [snd days].
    - eapply update_first_nan_free; eauto.
    - apply Forall_app. split; [assumption|]. constructor; [|constructor].
      unfold nan_free, finite_update in *.
      destruct u; apply andb_true_iff in Hu; destruct Hu as [Hc Hp];
        cbn [upserted totalCalories totalProtein];
        rewrite !is_finite_not_nan by assumption; reflexivity. }
  destruct q as [|req|req].
  - exact Hdb.
  - cbn [adds_finite] in Hq. destruct (meal_invalid req); [exact Hdb|].
    apply Hfou. exact Hq.
  - destruct (reset_invalid req); [exact Hdb|]. apply Hfou. reflexivity.
Qed.

(** As long as no accepted meal carries an infinite amount, no total in
    any store reached from the empty store is NaN. *)
Theorem totals_never_nan : forall qs : list request,
  Forall (fun q => adds_finite q = true) qs ->
  Forall (fun d => nan_free d = true) (days (serve qs empty)).
Proof.
  intros qs. assert (H0 : Forall (fun d => nan_free d = true) (days empty))
    by constructor.
  revert H0. generalize empty as db.
  induction qs as [|q qs IH]; intros db Hdb Hqs; cbn [serve].
  - exact Hdb.
  - inversion Hqs as [|? ? Hq Hrest]; subst.
    apply IH; [|exact Hrest]. apply route_keeps_totals_nan_free; assumption.
Qed.

Lemma totals_never_nan_witness :
  Forall (fun d => nan_free d = true)
    (days (serve [ PostMeal {| calories := Num (of_Z 500); protein := Str "30.5";
                               App.date := Str "20240115" |};
                   PostMeal {| calories := Str "-1e3"; protein := Num (of_Z 1);
                               App.date := Str "20240115" |};
                   PutReset {| calories := Undefined; protein := Undefined;
                               App.date := Str "20240116" |} ] empty)).
Proof.
  apply totals_never_nan. repeat constructor.
Defined.

(** Without that proviso a total can become NaN although every amount
    passed the [isNaN] test. *)
Example total_becomes_nan :
  days (serve [ PostMeal {| calories := Str "Infinity"; protein := Num (of_Z 1);
                            App.date := Str "20240115" |};
                PostMeal {| calories := Str "-Infinity"; protein := Num (of_Z 1);
                            App.date := Str "20240115" |} ] empty)
  = [ {| date := "20240115"; totalCalories := NaN; totalProtein := of_Z 2 |} ].
Proof. reflexivity. Qed.

(** A decimal literal beyond the largest finite value reads as an infinity
    and is such an amount. *)
Example literal_beyond_range_is_infinite :
  adds_finite (PostMeal {| calories := Str "1e400"; protein := Num (of_Z 1);
                           App.date := Str "20240115" |}) = false
  /\ days (serve [ PostMeal {| calories := Str "1e400"; protein := Num (of_Z 1);
                               App.date := Str "20240115" |};
                   PostMeal {| calories := Str "-1e400"; protein := Num (of_Z 1);
                               App.date := Str "20240115" |} ] empty)
     = [ {| date := "20240115"; totalCalories := NaN; totalProtein := of_Z 2 |} ].
Proof. split; vm_compute; reflexivity. Qed.

End ListingOrder.

(* ================================================================== *)
(** ** Any interleaving is some sequential order                       *)
(* ================================================================== *)

Section Serializability.

Import App Day Loop Serial.

Lemma responded_run (h : handler) (db : database) :
  responded h = true -> snd (run h db) = db.
Proof. destruct h; [reflexivity|discriminate]. Qed.

Lemma route_resumes_to_response (q : request) :
  (exists r, route q = Respond r)
  \/ (exists (A : Type) (c : command A) (resume : settled A -> handler),
         route q = Await c resume /\ forall r, responded (resume r) = true).
Proof.
  destruct q as [|req|req]; cbn [route].
  - right. eexists _, _, _. split; [reflexivity|]. intros [l|e]; reflexivity.
  - unfold post_api_meals. destruct (meal_invalid req).
    + left. eexists. reflexivity.
    + right. eexists _, _, _. split; [reflexivity|]. intros [x|e]; reflexivity.
  - unfold put_api_days_reset. destruct (reset_invalid req).
    + left. eexists. reflexivity.
    + right. eexists _, _, _. split; [reflexivity|]. intros [x|e]; reflexivity.
Qed.

Lemma serve_app (qs1 qs2 : list request) (db : database) :
  serve (qs1 ++ qs2) db = serve qs2 (serve qs1 db).
Proof.
  revert db. induction qs1 as [|q qs1 IH]; intros db; cbn [serve app].
  - reflexivity.
  - apply IH.
Qed.

Lemma unserved_initial (qs : list request) : unserved (map Some qs) = qs.
Proof.
  unfold unserved. induction qs as [|q qs IH]; cbn; [reflexivity|].
  f_equal. exact IH.
Qed.

Lemma tracks_initial (qs : list request) :
  Forall2 tracks (map Some qs) (map route qs).
Proof. induction qs; cbn; constructor; [reflexivity|assumption]. Qed.

(** One store operation of a pool is the whole effect of one of the
    requests still to be served. *)
Lemma resume_nth_serves (pool : list handler) :
  forall (slots : list (option request)) (i : nat) (db db' : database)
         (pool' : list handler),
    Forall2 tracks slots pool ->
    resume_nth i pool db = Some (db', pool') ->
    exists (q : request) (slots' : list (option request)),
      Forall2 tracks slots' pool'
      /\ db' = snd (run (route q) db)
      /\ Permutation (q :: unserved slots') (unserved slots).
Proof.
  induction pool as [|h rest IH]; intros slots i db db' pool' Ht H.
  - destruct i; discriminate.
  - inversion Ht as [|slot ? slots0 ? Hh Hrest]; subst. destruct i as [|j].
    + destruct slot as [q|]; cbn [tracks] in Hh.
      * subst h. destruct (route_resumes_to_response q)
          as [[r Hq]|(A & c & resume & Hq & Hres)].
        { rewrite Hq in H. discriminate. }
        exists q, (None :: slots0). rewrite Hq in H |- *.
        cbn [resume_nth run] in H |- *.
        destruct (exec c db) as [r db1]. injection H as <- <-.
        split; [constructor; [apply Hres|exact Hrest]|].
        split; [symmetry; apply responded_run, Hres|].
        apply Permutation_refl.
      * destruct h; [discriminate H|discriminate Hh].
    + assert (Hstep : resume_nth (S j) (h :: rest) db
                      = match resume_nth j rest db with
                        | Some (db', rest') => Some (db', h :: rest')
                        | None => None
                        end) by (destruct h; reflexivity).
      rewrite Hstep in H.
      destruct (resume_nth j rest db) as [[db1 rest1]|] eqn:E; [|discriminate].
      injection H as <- <-.
      destruct (IH _ _ _ _ _ Hrest E) as (q & slots' & Ht' & Hdb & Hp).
      exists q, (slot :: slots'). split; [constructor; assumption|].
      split; [exact Hdb|].
      unfold unserved in *. cbn [flat_map].
      destruct slot as [q0|]; cbn [app].
      * eapply perm_trans; [apply perm_swap|]. apply perm_skip. exact Hp.
      * exact Hp.
Qed.

Lemma interleave_serves (schedule : list nat) :
  forall (slots : list (option request)) (pool pool' : list handler)
         (db db' : database),
    Forall2 tracks slots pool ->
    interleave schedule pool db = Some (db', pool') ->
    exists (served : list request) (slots' : list (option request)),
      Forall2 tracks slots' pool'
      /\ serve served db = db'
      /\ Permutation (served ++ unserved slots') (unserved slots).
Proof.
  induction schedule as [|i schedule IH]; intros slots pool pool' db db' Ht H.
  - injection H as <- <-. exists [], slots.
    split; [exact Ht|]. split; [reflexivity|apply Permutation_refl].
  - cbn [interleave] in H.
    destruct (resume_nth i pool db) as [[db1 pool1]|] eqn:E; [|discriminate].
    destruct (resume_nth_serves _ _ _ _ _ _ Ht E) as (q & slots1 & Ht1 & Hdb & Hp1).
    destruct (IH _ _ _ _ _ Ht1 H) as (served & slots' & Ht' & Hs & Hp).
    exists (q :: served), slots'. split; [exact Ht'|].
    split; [cbn [serve]; rewrite <- Hdb; exact Hs|].
    cbn [app]. eapply perm_trans; [|exact Hp1]. apply perm_skip. exact Hp.
Qed.

Lemma quiescent_unserved_idle (slots : list (option request)) (pool : list handler) :
  Forall2 tracks slots pool ->
  quiescent pool = true ->
  forall db, serve (unserved slots) db = db.
Proof.
  unfold quiescent, unserved.
  induction 1 as [|slot h slots pool Hh _ IH]; cbn [forallb flat_map]; intros Hq db.
  - reflexivity.
  - apply andb_true_iff in Hq. destruct Hq as [Hr Hq].
    destruct slot as [q|]; cbn [tracks app serve] in *.
    + subst h. rewrite (responded_run _ db Hr). apply IH. exact Hq.
    + apply IH. exact Hq.
Qed.

(** Every pool of requests can be served to the end. *)
Lemma requests_can_complete (qs : list request) :
  forall db : database,
  exists schedule db' pool',
    interleave schedule (map route qs) db = Some (db', pool')
    /\ quiescent pool' = true.
Proof.
  induction qs as [|q qs IH]; intros db; cbn [map].
  - exists [], db, []. split; reflexivity.
  - destruct (route_resumes_to_response q)
      as [[r Hq]|(A & c & resume & Hq & Hres)]; rewrite Hq.
    + destruct (IH db) as (schedule & db' & pool' & Hi & Hquiet).
      exists (map S schedule), db', (Respond r :: pool').
      split; [apply interleave_shift; exact Hi|].
      unfold quiescent in *. cbn [forallb responded]. exact Hquiet.
    + destruct (exec c db) as [r db1] eqn:E.
      destruct (IH db1) as (schedule & db' & pool' & Hi & Hquiet).
      exists (0 :: map S schedule), db', (resume r :: pool').
      split.
      * cbn [interleave resume_nth]. rewrite E.
        apply interleave_shift. exact Hi.
      * unfold quiescent in *. cbn [forallb]. rewrite Hres, Hquiet. reflexivity.
Qed.

(** Whatever requests are in flight together, the store can serve them to
    the end, and in whatever order it performs their operations, once all
    have responded the store is the one that serving the same requests one
    after the other, in some order, would have left. *)
Theorem interleaving_is_serial :
  forall (qs : list request) (db : database),
    (exists schedule db' pool',
        interleave schedule (map route qs) db = Some (db', pool')
        /\ quiescent pool' = true)
    /\ (forall (schedule : list nat) (db' : database) (pool' : list handler),
          interleave schedule (map route qs) db = Some (db', pool') ->
          quiescent pool' = true ->
          exists qs' : list request, Permutation qs' qs /\ serve qs' db = db').
Proof.
  intros qs db. split; [apply requests_can_complete|].
  intros schedule db' pool' Hi Hq.
  destruct (interleave_serves schedule _ _ _ _ _ (tracks_initial qs) Hi)
    as (served & slots' & Ht & Hs & Hp).
  exists (served ++ unserved slots'). split.
  - rewrite unserved_initial in Hp. exact Hp.
  - rewrite serve_app, Hs. apply (quiescent_unserved_idle _ _ Ht Hq).
Qed.

Lemma interleaving_is_serial_witness :
  exists qs' : list request,
    Permutation qs'
      [ PostMeal {| calories := Num (of_Z 500); protein := Num (of_Z 30);
                    App.date := Str "20240115" |};
        PutReset {| calories := Undefined; protein := Undefined;
                    App.date := Str "20240115" |};
        PostMeal {| calories := Str "many"; protein := Num (of_Z 1);
                    App.date := Str "20240115" |};
        GetDays ]
    /\ serve qs' empty
       = {| connected := true;
            days := [ {| date := "20240115"; totalCalories := of_Z 500;
                         totalProtein := of_Z 30 |} ] |}.
Proof.
  destruct (interleaving_is_serial
              [ PostMeal {| calories := Num (of_Z 500); protein := Num (of_Z 30);
                            App.date := Str "20240115" |};
                PutReset {| calories := Undefined; protein := Undefined;
                            App.date := Str "20240115" |};
                PostMeal {| calories := Str "many"; protein := Num (of_Z 1);
                            App.date := Str "20240115" |};
                GetDays ] empty) as [_ H].
  apply (H [3; 1; 0]
           {| connected := true;
              days := [ {| date := "20240115"; totalCalories := of_Z 500;
                           totalProtein := of_Z 30 |} ] |}
           (snd (match interleave [3; 1; 0]
                         (map route
                            [ PostMeal {| calories := Num (of_Z 500);
                                          protein := Num (of_Z 30);
                                          App.date := Str "20240115" |};
                              PutReset {| calories := Undefined;
                                          protein := Undefined;
                                          App.date := Str "20240115" |};
                              PostMeal {| calories := Str "many";
                                          protein := Num (of_Z 1);
                                          App.date := Str "20240115" |};
                              GetDays ]) empty with
                 | Some s => s
                 | None => (empty, [])
                 end))); reflexivity.
Defined.

End Serializability.

(* ================================================================== *)
(** ** Meals added at the same time: the totals                        *)
(* ================================================================== *)

Section NoLostUpdates.

Import App Day Loop Serial Ledger.

Lemma total_perm (l l' : list Z) : Permutation l l' -> total l = total l'.
Proof. unfold total. induction 1; cbn [fold_right] in *; lia. Qed.

Lemma magnitude_perm (l l' : list Z) :
  Permutation l l' -> magnitude l = magnitude l'.
Proof. unfold magnitude. induction 1; cbn [fold_right] in *; lia. Qed.

Lemma magnitude_nonneg (l : list Z) : (0 <= magnitude l)%Z.
Proof. unfold magnitude. induction l; cbn [fold_right] in *; lia. Qed.

(** Whole numbers whose absolute values sum to less than [2^53] add up
    exactly, whatever total below that bound they are added to. *)
Lemma fold_add_integers (l : list Z) :
  forall a : Z,
    (Z.abs a + magnitude l < 2 ^ 53)%Z ->
    fold_left add (map of_Z l) (of_Z a) = of_Z (a + total l).
Proof.
  induction l as [|z l IH]; intros a H; cbn [map fold_left].
  - unfold total. cbn [fold_right]. rewrite Z.add_0_r. reflexivity.
  - pose proof (magnitude_nonneg l) as M.
    assert (Hm : magnitude (z :: l) = (Z.abs z + magnitude l)%Z) by reflexivity.
    assert (Ht : total (z :: l) = (z + total l)%Z) by reflexivity.
    rewrite Hm in H. rewrite Ht.
    rewrite add_of_Z by lia.
    rewrite IH by lia. f_equal. lia.
Qed.

Lemma add_in_order_integers (l : list Z) :
  (magnitude l < 2 ^ 53)%Z -> add_in_order (map of_Z l) = of_Z (total l).
Proof.
  destruct l as [|z l]; intros H; [reflexivity|].
  cbn [map add_in_order]. apply fold_add_integers. exact H.
Qed.

Lemma map_PostMeal_inj (l l' : list body) :
  map PostMeal l = map PostMeal l' -> l = l'.
Proof.
  revert l'. induction l as [|x l IH]; intros [|y l'] H; try discriminate.
  - reflexivity.
  - injection H as -> H. f_equal. apply IH. exact H.
Qed.

(** One store operation of a pool resumes the request of its position,
    which is then served and leaves the positions still to be resumed. *)
Lemma resume_nth_picks (pool : list handler) :
  forall (slots : list (option request)) (i : nat) (db db' : database)
         (pool' : list handler),
    Forall2 tracks slots pool ->
    resume_nth i pool db = Some (db', pool') ->
    exists (q : request) (slots' : list (option request)),
      nth_error slots i = Some (Some q)
      /\ Forall2 tracks slots' pool'
      /\ db' = snd (run (route q) db)
      /\ Permutation (q :: unserved slots') (unserved slots)
      /\ (forall j q', nth_error slots' j = Some (Some q') ->
                       nth_error slots j = Some (Some q')).
Proof.
  induction pool as [|h rest IH]; intros slots i db db' pool' Ht H.
  - destruct i; discriminate.
  - inversion Ht as [|slot ? slots0 ? Hh Hrest]; subst. destruct i as [|j].
    + destruct slot as [q|]; cbn [tracks] in Hh.
      * subst h. destruct (route_resumes_to_response q)
          as [[r Hq]|(A & c & resume & Hq & Hres)].
        { rewrite Hq in H. discriminate. }
        exists q, (None :: slots0). rewrite Hq in H |- *.
        cbn [resume_nth run] in H |- *.
        destruct (exec c db) as [r db1]. injection H as <- <-.
        split; [reflexivity|].
        split; [constructor; [apply Hres|exact Hrest]|].
        split; [symmetry; apply responded_run, Hres|].
        split; [apply Permutation_refl|].
        intros [|k] q' Hk; [discriminate Hk|exact Hk].
      * destruct h; [discriminate H|discriminate Hh].
    + assert (Hstep : resume_nth (S j) (h :: rest) db
                      = match resume_nth j rest db with
                        | Some (db', rest') => Some (db', h :: rest')
                        | None => None
                        end) by (destruct h; reflexivity).
      rewrite Hstep in H.
      destruct (resume_nth j rest db) as [[db1 rest1]|] eqn:E; [|discriminate].
      injection H as <- <-.
      destruct (IH _ _ _ _ _ Hrest E) as (q & slots' & Hq & Ht' & Hdb & Hp & Hold).
      exists q, (slot :: slots'). split; [exact Hq|].
      split; [constructor; assumption|].
      split; [exact Hdb|]. split.
      * unfold unserved in *. cbn [flat_map].
        destruct slot as [q0|]; cbn [app].
        -- eapply perm_trans; [apply perm_swap|]. apply perm_skip. exact Hp.
        -- exact Hp.
      * intros [|k] q' Hk; [exact Hk|]. cbn [nth_error] in *. apply Hold. exact Hk.
Qed.

(** A schedule serves, one after the other, the requests of the positions
    it names. *)
Lemma interleave_picks (schedule : list nat) :
  forall (slots : list (option request)) (pool pool' : list handler)
         (db db' : database),
    Forall2 tracks slots pool ->
    interleave schedule pool db = Some (db', pool') ->
    exists (served : list request) (slots' : list (option request)),
      Forall2 (fun i q => nth_error slots i = Some (Some q)) schedule served
      /\ Forall2 tracks slots' pool'
      /\ serve served db = db'
      /\ Permutation (served ++ unserved slots') (unserved slots)
      /\ (forall j q', nth_error slots' j = Some (Some q') ->
                       nth_error slots j = Some (Some q')).
Proof.
  induction schedule as [|i schedule IH]; intros slots pool pool' db db' Ht H.
  - injection H as <- <-. exists [], slots.
    split; [constructor|]. split; [exact Ht|].
    split; [reflexivity|]. split; [apply Permutation_refl|]. auto.
  - cbn [interleave] in H.
    destruct (resume_nth i pool db) as [[db1 pool1]|] eqn:E; [|discriminate].
    destruct (resume_nth_picks _ _ _ _ _ _ Ht E)
      as (q & slots1 & Hq & Ht1 & Hdb & Hp1 & Hold1).
    destruct (IH _ _ _ _ _ Ht1 H) as (served & slots' & Hf & Ht' & Hs & Hp & Hold).
    exists (q :: served), slots'. split.
    { constructor; [exact Hq|].
      eapply Forall2_impl; [|exact Hf]. intros k q' Hk. apply Hold1. exact Hk. }
    split; [exact Ht'|].
    split; [cbn [serve]; rewrite <- Hdb; exact Hs|].
    split.
    + cbn [app]. eapply perm_trans; [|exact Hp1]. apply perm_skip. exact Hp.
    + intros j q' Hj. apply Hold1, Hold. exact Hj.
Qed.

Lemma picked_meals (reqs : list body) (schedule : list nat) (served : list request) :
  Forall2 (fun i q => nth_error (map Some (map PostMeal reqs)) i = Some (Some q))
          schedule served ->
  served = map PostMeal (served_order reqs schedule).
Proof.
  induction 1 as [|i q schedule served Hq _ IH]; [reflexivity|].
  unfold served_order. cbn [flat_map]. rewrite map_app.
  fold (served_order reqs schedule). rewrite <- IH.
  rewrite !nth_error_map in Hq.
  destruct (nth_error reqs i) as [req|]; [|discriminate].
  injection Hq as <-. reflexivity.
Qed.

Lemma quiescent_unserved_responded (slots : list (option request))
      (pool : list handler) :
  Forall2 tracks slots pool ->
  quiescent pool = true ->
  Forall (fun q => responded (route q) = true) (unserved slots).
Proof.
  unfold quiescent, unserved.
  induction 1 as [|slot h slots pool Hh _ IH]; cbn [forallb flat_map]; intros Hq.
  - constructor.
  - apply andb_true_iff in Hq. destruct Hq as [Hr Hq].
    destruct slot as [q|]; cbn [tracks app] in *.
    + subst h. constructor; [exact Hr|apply IH; exact Hq].
    + apply IH. exact Hq.
Qed.

(** Accepted meals for [d], served one after the other, add their amounts
    to the totals of [d] in that order. *)
Lemma serve_meals_totals (d : string) (served : list body) :
  forall (db : database) (C P : number),
    connected db = true ->
    totals_of d db = Some (C, P) ->
    Forall (fun req => meal_invalid req = false
                       /\ castString (App.date req) = Some d) served ->
    totals_of d (serve (map PostMeal served) db)
    = Some (fold_left add (map (fun req => Number (calories req)) served) C,
            fold_left add (map (fun req => Number (protein req)) served) P).
Proof.
  induction served as [|req served IH]; intros db C P Hc Ht Hall;
    cbn [map serve fold_left].
  - exact Ht.
  - inversion Hall as [|? ? [Hv Hd] Hrest]; subst.
    destruct (route_totals (PostMeal req) db d Hc) as [Hstep Hc'].
    apply (IH _ _ _ Hc'); [|exact Hrest].
    rewrite Hstep, Ht. cbn [tally_step]. rewrite Hv, Hd, String.eqb_refl.
    reflexivity.
Qed.

Lemma serve_first_meals_totals (d : string) (served : list body) (db : database) :
  served <> [] ->
  connected db = true ->
  lookup d (days db) = None ->
  Forall (fun req => meal_invalid req = false
                     /\ castString (App.date req) = Some d) served ->
  lookup d (days (serve (map PostMeal served) db))
  = Some {| date := d;
            totalCalories :=
              add_in_order (map (fun req => Number (calories req)) served);
            totalProtein :=
              add_in_order (map (fun req => Number (protein req)) served) |}.
Proof.
  intros Hne Hc Hnone Hall.
  destruct served as [|req served]; [congruence|].
  inversion Hall as [|? ? [Hv Hd] Hrest]; subst.
  destruct (route_totals (PostMeal req) db d Hc) as [Hstep Hc'].
  assert (Ht : totals_of d (snd (run (route (PostMeal req)) db))
               = Some (Number (calories req), Number (protein req))).
  { rewrite Hstep. unfold totals_of at 1. rewrite Hnone.
    cbn [tally_step]. rewrite Hv, Hd, String.eqb_refl. reflexivity. }
  pose proof (serve_meals_totals d served _ _ _ Hc' Ht Hrest) as Hall'.
  cbn [map serve add_in_order].
  unfold totals_of in Hall'.
  destruct (lookup d (days (serve (map PostMeal served)
                              (snd (run (route (PostMeal req)) db)))))
    as [x|] eqn:El; [|discriminate].
  apply find_some in El. destruct El as [_ Hx]. apply has_date_true in Hx.
  destruct x as [xd xc xp]. cbn [date totalCalories totalProtein] in Hx, Hall'.
  injection Hall' as -> ->. subst xd. reflexivity.
Qed.

(** C9, as the specification states it, fails: three accepted meals of
    [0.1], [0.2] and [0.3] calories for one date, in flight together on an
    empty store, leave the total [0.6000000000000001] when the store
    performs their operations in the order of arrival and [0.6] when it
    performs them in the opposite order. *)
Lemma meals_order_changes_total :
  let reqs :=
    [ {| calories := Num (round64 (1 # 10)); protein := Num (of_Z 1);
         App.date := Str "20240115" |};
      {| calories := Num (round64 (2 # 10)); protein := Num (of_Z 1);
         App.date := Str "20240115" |};
      {| calories := Num (round64 (3 # 10)); protein := Num (of_Z 1);
         App.date := Str "20240115" |} ] in
  Forall (fun req => meal_invalid req = false
                     /\ castString (App.date req) = Some "20240115") reqs
  /\ exists (db1 db2 : database) (pool1 pool2 : list handler) (x1 x2 : doc),
       interleave [0; 1; 2] (map post_api_meals reqs) empty = Some (db1, pool1)
       /\ quiescent pool1 = true
       /\ interleave [2; 1; 0] (map post_api_meals reqs) empty = Some (db2, pool2)
       /\ quiescent pool2 = true
       /\ lookup "20240115" (days db1) = Some x1
       /\ lookup "20240115" (days db2) = Some x2
       /\ number_toString (totalCalories x1) = "0.6000000000000001"
       /\ number_toString (totalCalories x2) = "0.6"
       /\ totalCalories x1 <> totalCalories x2.
Proof.
  intros reqs. split.
  - repeat constructor.
  - destruct (interleave [0; 1; 2] (map post_api_meals reqs) empty)
      as [[db1 pool1]|] eqn:E1; [|vm_compute in E1; discriminate E1].
    destruct (interleave [2; 1; 0] (map post_api_meals reqs) empty)
      as [[db2 pool2]|] eqn:E2; [|vm_compute in E2; discriminate E2].
    vm_compute in E1. vm_compute in E2.
    injection E1 as <- <-. injection E2 as <- <-.
    eexists _, _, _, _, _, _.
    split; [reflexivity|]. split; [reflexivity|].
    split; [reflexivity|]. split; [reflexivity|].
    split; [reflexivity|]. split; [reflexivity|].
    split; [vm_compute; reflexivity|].
    split; [vm_compute; reflexivity|].
    cbn [totalCalories]. intros H. injection H as H. discriminate H.
Qed.

(** C9, amended.  [N >= 1] POST /api/meals requests for the same date
    [d], all passing validation, are in flight together on a reachable
    store with no document for [d].  Each handler hands the store one
    [findOneAndUpdate], which the store performs as a whole.  The store
    can serve the requests to the end, and in whatever order it performs
    their operations, once all have responded every request has been
    served exactly once and the store holds exactly one document for [d],
    whose totals are the [Number(calories)] and the [Number(protein)] of
    the requests added one after the other in the order in which their
    operations were performed.  When all the amounts are whole numbers
    whose absolute values sum to less than [2^53], these totals are the
    exact sums, in whatever order the operations were performed. *)
Theorem no_lost_updates :
  forall (reqs : list body) (d : string) (db : database),
    reqs <> [] ->
    connected db = true ->
    lookup d (days db) = None ->
    Forall (fun req => meal_invalid req = false
                       /\ castString (App.date req) = Some d) reqs ->
    (exists schedule db' pool',
        interleave schedule (map post_api_meals reqs) db = Some (db', pool')
        /\ quiescent pool' = true)
    /\ (forall schedule db' pool',
          interleave schedule (map post_api_meals reqs) db = Some (db', pool') ->
          quiescent pool' = true ->
          count d (days db') = 1
          /\ Permutation (served_order reqs schedule) reqs
          /\ lookup d (days db')
             = Some {| date := d;
                       totalCalories :=
                         add_in_order (map (fun req => Number (calories req))
                                         (served_order reqs schedule));
                       totalProtein :=
                         add_in_order (map (fun req => Number (protein req))
                                         (served_order reqs schedule)) |}
          /\ (forall cs ps : list Z,
                map calories reqs = map (fun z => Num (of_Z z)) cs ->
                map protein reqs = map (fun z => Num (of_Z z)) ps ->
                (magnitude cs < 2 ^ 53)%Z ->
                (magnitude ps < 2 ^ 53)%Z ->
                lookup d (days db')
                = Some {| date := d;
                          totalCalories := of_Z (total cs);
                          totalProtein := of_Z (total ps) |})).
Proof.
  intros reqs d db Hne Hc Hnone Hreqs.
  pose proof (accepted_meals_pool d reqs Hreqs) as Hwf.
  split; [apply (meals_can_complete d); exact Hwf|].
  intros schedule db' pool' Hi Hq.
  assert (Hsched : schedule <> []).
  { intros ->. injection Hi as <- <-.
    destruct reqs as [|req reqs]; [congruence|].
    inversion Hreqs as [|? ? [Hv _] _]; subst.
    destruct (accepted_meal_suspended req Hv) as (resume & Heq & _).
    cbn [map] in Hq. rewrite Heq in Hq. discriminate Hq. }
  assert (Hzero : count d (days db) = 0) by (apply lookup_none_count; exact Hnone).
  split.
  { eapply (interleave_count d schedule); [exact Hwf|exact Hc|lia|exact Hi|exact Hsched]. }
  assert (Hpool : map post_api_meals reqs = map route (map PostMeal reqs))
    by (rewrite map_map; reflexivity).
  rewrite Hpool in Hi.
  destruct (interleave_picks schedule _ _ _ _ _ (tracks_initial _) Hi)
    as (served & slots' & Hf & Ht & Hs & Hp & _).
  apply picked_meals in Hf. subst served.
  rewrite unserved_initial in Hp.
  assert (Hnil : unserved slots' = []).
  { pose proof (quiescent_unserved_responded _ _ Ht Hq) as Hr.
    destruct (unserved slots') as [|q rest]; [reflexivity|exfalso].
    inversion Hr as [|? ? Hq0 _]; subst.
    assert (Hin : In q (map PostMeal reqs)).
    { eapply Permutation_in; [exact Hp|]. apply in_or_app. right. left. reflexivity. }
    apply in_map_iff in Hin. destruct Hin as (req & <- & Hin).
    rewrite Forall_forall in Hreqs. destruct (Hreqs req Hin) as [Hv _].
    destruct (accepted_meal_suspended req Hv) as (resume & Heq & _).
    cbn [route] in Hq0. rewrite Heq in Hq0. discriminate Hq0. }
  rewrite Hnil, app_nil_r in Hp.
  assert (Hperm : Permutation (served_order reqs schedule) reqs).
  { destruct (Permutation_map_inv _ _ Hp) as (l3 & Hl3 & Hp3).
    apply map_PostMeal_inj in Hl3. subst l3. apply Permutation_sym. exact Hp3. }
  assert (Hserved : Forall (fun req => meal_invalid req = false
                                       /\ castString (App.date req) = Some d)
                           (served_order reqs schedule)).
  { eapply Permutation_Forall; [apply Permutation_sym; exact Hperm|exact Hreqs]. }
  assert (Hsome : served_order reqs schedule <> []).
  { intros E. rewrite E in Hperm. apply Permutation_nil in Hperm. congruence. }
  pose proof (serve_first_meals_totals d _ db Hsome Hc Hnone Hserved) as Hl.
  rewrite Hs in Hl.
  split; [exact Hperm|]. split; [exact Hl|].
  intros cs ps Hcs Hps Mc Mp. rewrite Hl.
  assert (Hnum : forall (f : body -> value) (zs : list Z),
             map f reqs = map (fun z => Num (of_Z z)) zs ->
             (magnitude zs < 2 ^ 53)%Z ->
             add_in_order (map (fun req => Number (f req))
                             (served_order reqs schedule))
             = of_Z (total zs)).
  { intros f zs Hzs Mz.
    assert (Hmap : Permutation (map (fun req => Number (f req))
                                  (served_order reqs schedule))
                               (map of_Z zs)).
    { replace (map of_Z zs) with (map (fun req => Number (f req)) reqs).
      - apply Permutation_map. exact Hperm.
      - rewrite <- (map_map f Number), Hzs, map_map. reflexivity. }
    destruct (Permutation_map_inv _ _ Hmap) as (zs' & -> & Hzs').
    rewrite add_in_order_integers.
    - f_equal. symmetry. apply total_perm. exact Hzs'.
    - rewrite <- (magnitude_perm _ _ Hzs'). exact Mz. }
  rewrite (Hnum calories cs Hcs Mc), (Hnum protein ps Hps Mp). reflexivity.
Qed.

Lemma no_lost_updates_witness :
  (exists schedule db' pool',
      interleave schedule
        (map post_api_meals
           [ {| calories := Num (of_Z 500); protein := Num (of_Z 30);
                App.date := Str "20240115" |};
             {| calories := Num (of_Z 200); protein := Num (of_Z 10);
                App.date := Str "20240115" |};
             {| calories := Num (of_Z 5); protein := Num (of_Z 1);
                App.date := Num (of_Z 20240115) |} ]) empty
      = Some (db', pool')
      /\ quiescent pool' = true)
  /\ (forall schedule db' pool',
        interleave schedule
          (map post_api_meals
             [ {| calories := Num (of_Z 500); protein := Num (of_Z 30);
                  App.date := Str "20240115" |};
               {| calories := Num (of_Z 200); protein := Num (of_Z 10);
                  App.date := Str "20240115" |};
               {| calories := Num (of_Z 5); protein := Num (of_Z 1);
                  App.date := Num (of_Z 20240115) |} ]) empty
        = Some (db', pool') ->
        quiescent pool' = true ->
        count "20240115" (days db') = 1
        /\ lookup "20240115" (days db')
           = Some {| date := "20240115"; totalCalories := of_Z 705;
                     totalProtein := of_Z 41 |}).
Proof.
  destruct (no_lost_updates
              [ {| calories := Num (of_Z 500); protein := Num (of_Z 30);
                   App.date := Str "20240115" |};
                {| calories := Num (of_Z 200); protein := Num (of_Z 10);
                   App.date := Str "20240115" |};
                {| calories := Num (of_Z 5); protein := Num (of_Z 1);
                   App.date := Num (of_Z 20240115) |} ]
              "20240115" empty) as [Hcan Hall].
  - discriminate.
  - reflexivity.
  - reflexivity.
  - repeat constructor.
  - split; [exact Hcan|].
    intros schedule db' pool' Hi Hq.
    destruct (Hall schedule db' pool' Hi Hq) as (Hcount & _ & _ & Hexact).
    split; [exact Hcount|].
    apply (Hexact [500; 200; 5]%Z [30; 10; 1]%Z); reflexivity.
Defined.

(** Two of the orders in which the store can serve three meals of whole
    amounts: the responses differ, the store they leave is the same. *)
Example three_meals_two_orders :
  option_map (fun s => days (fst s))
    (interleave [0; 1; 2]
       (map post_api_meals
          [ {| calories := Num (of_Z 500); protein := Num (of_Z 30);
               App.date := Str "20240115" |};
            {| calories := Str "200"; protein := Str "10";
               App.date := Str "20240115" |};
            {| calories := Num (of_Z 5); protein := Num (of_Z 1);
               App.date := Num (of_Z 20240115) |} ]) empty)
  = Some [ {| date := "20240115"; totalCalories := of_Z 705;
              totalProtein := of_Z 41 |} ]
  /\ option_map (fun s => days (fst s))
       (interleave [2; 0; 1]
          (map post_api_meals
             [ {| calories := Num (of_Z 500); protein := Num (of_Z 30);
                  App.date := Str "20240115" |};
               {| calories := Str "200"; protein := Str "10";
                  App.date := Str "20240115" |};
               {| calories := Num (of_Z 5); protein := Num (of_Z 1);
                  App.date := Num (of_Z 20240115) |} ]) empty)
     = Some [ {| date := "20240115"; totalCalories := of_Z 705;
                 totalProtein := of_Z 41 |} ].
Proof. split; reflexivity. Qed.

End NoLostUpdates.

(* ================================================================== *)
(** ** Decimal strings                                                 *)
(* ================================================================== *)

Section DecimalStrings.

Import App Day Ledger.

Lemma read_digits_acc (d : Decimal.uint) (rest : string) :
  forall (acc : positive) (cnt : nat),
    read_digits 10 (Npos acc) cnt (NilEmpty.string_of_uint d ++ rest)%string
    = read_digits 10 (Npos (Pos.of_uint_acc d acc)) (cnt + Decimal.nb_digits d) rest.
Proof.
  induction d as [|d IH|d IH|d IH|d IH|d IH|d IH|d IH|d IH|d IH|d IH];
    intros acc cnt;
    cbn [NilEmpty.string_of_uint append Decimal.nb_digits Pos.of_uint_acc];
    try (rewrite Nat.add_succ_r;
         change (S (cnt + Decimal.nb_digits d)) with (S cnt + Decimal.nb_digits d);
         cbn [read_digits];
         match goal with
         | |- context [radix_digit 10 ?c] =>
             let v := eval vm_compute in (radix_digit 10 c) in
             change (radix_digit 10 c) with v
         end;
         cbv iota; rewrite <- IH; f_equal; lia).
  rewrite Nat.add_0_r. reflexivity.
Qed.

Lemma read_digits_value (d : Decimal.uint) (rest : string) :
  forall cnt : nat,
    read_digits 10 0 cnt (NilEmpty.string_of_uint d ++ rest)%string
    = read_digits 10 (N.of_uint d) (cnt + Decimal.nb_digits d) rest.
Proof.
  unfold N.of_uint.
  induction d as [|d IH|d IH|d IH|d IH|d IH|d IH|d IH|d IH|d IH|d IH];
    intros cnt;
    cbn [NilEmpty.string_of_uint append Decimal.nb_digits Pos.of_uint];
    try (rewrite Nat.add_succ_r;
         change (S (cnt + Decimal.nb_digits d)) with (S cnt + Decimal.nb_digits d);
         cbn [read_digits];
         match goal with
         | |- context [radix_digit 10 ?c] =>
             let v := eval vm_compute in (radix_digit 10 c) in
             change (radix_digit 10 c) with v
         end;
         cbv iota; first [apply IH | apply read_digits_acc]).
  rewrite Nat.add_0_r. reflexivity.
Qed.

Lemma append_empty_r (s : string) : (s ++ "")%string = s.
Proof. induction s as [|c s IH]; cbn; [reflexivity|rewrite IH; reflexivity]. Qed.

(** A decimal numeral denotes the binary64 value nearest to the number it
    writes. *)
Lemma numeral_is_number (d : Decimal.uint) :
  StringToNumber (NilZero.string_of_uint d)
  = round64 (inject_Z (Z.of_N (N.of_uint d))).
Proof.
  assert (Hshape :
            exists d', Decimal.nb_digits d' <> O
              /\ NilZero.string_of_uint d = NilEmpty.string_of_uint d'
              /\ N.of_uint d' = N.of_uint d
              /\ exists c r, NilEmpty.string_of_uint d' = String c r
                   /\ ws_width (String c r) = O
                   /\ read_decimal (String c r) = read_unsigned_decimal (String c r)
                   /\ strip_prefix "Infinity" (String c r) = None).
  { exists (match d with Decimal.Nil => Decimal.D0 Decimal.Nil | _ => d end).
    destruct d as [|d|d|d|d|d|d|d|d|d|d];
      (split; [cbn; discriminate|]); (split; [reflexivity|]);
      (split; [reflexivity|]);
      eexists _, _; (split; [reflexivity|]); repeat split. }
  destruct Hshape as (d' & Hn & Hd & Hv & c & r & Hs & Hw & Hdec & Hinf).
  assert (Hp : radix_prefix (NilZero.string_of_uint d) = None).
  { destruct d as [|d|d|d|d|d|d|d|d|d|d]; try reflexivity; destruct d; reflexivity. }
  pose proof (read_digits_value d' "" O) as Hr.
  rewrite append_empty_r in Hr. cbn [Nat.add read_digits] in Hr.
  rewrite Hd in *. rewrite Hs in *.
  unfold StringToNumber, skip_ws. cbn [skip_ws_from]. rewrite Hw.
  cbn [is_empty]. unfold read_numeric. rewrite Hp, Hdec.
  unfold read_unsigned_decimal. rewrite Hinf, Hr.
  cbn [Nat.add]. rewrite Nat.add_0_r.
  destruct (Decimal.nb_digits d') as [|k]; [congruence|].
  cbn [read_exponent skip_ws_from is_empty]. unfold scale10.
  cbn [Z.of_nat Z.sub Z.opp Z.add Z.leb Z.compare].
  rewrite Z.pow_0_r, Z.mul_1_r, Hv, this_of_Z. reflexivity.
Qed.

Lemma numeral_not_empty (d : Decimal.uint) :
  is_empty (NilZero.string_of_uint d) = false.
Proof. destruct d; reflexivity. Qed.

(** The decimal string of a natural number [n] within the safe integers
    passes both validation tests (it is truthy and not NaN) and
    [Number] turns it back into [n].  That holds for ["0"] too, although
    the number [0] itself is falsy. *)
Theorem decimal_string_round_trip : forall n : N,
  (n <= 9007199254740991)%N ->
  not (Str (digits n)) = false
  /\ isNaN (Str (digits n)) = false
  /\ Number (Str (digits n)) = of_Z (Z.of_N n).
Proof.
  intros n Hn.
  assert (H : Number (Str (digits n)) = of_Z (Z.of_N n)).
  { unfold Number, ToNumber, digits.
    rewrite numeral_is_number, DecimalN.Unsigned.of_to.
    apply round64_integer.
    change (2 ^ 53)%Z with (Z.of_N 9007199254740992). lia. }
  split; [|split; [|exact H]].
  - unfold not, ToBoolean, digits. rewrite numeral_not_empty. reflexivity.
  - unfold isNaN. unfold Number in H. rewrite H. reflexivity.
Qed.

Lemma decimal_string_round_trip_witness :
  not (Str (digits 500)) = false
  /\ isNaN (Str (digits 500)) = false
  /\ Number (Str (digits 500)) = of_Z (Z.of_N 500).
Proof.
  apply (decimal_string_round_trip 500). vm_compute. discriminate.
Defined.

End DecimalStrings.

(* ================================================================== *)
(** ** The dates the helper formats                                    *)
(* ================================================================== *)

Section HelperDates.

Import App Day Ledger.

Lemma string_compare_refl (s : string) : String.compare s s = Eq.
Proof.
  induction s as [|c s IH]; cbn; [reflexivity|].
  unfold Ascii.compare. rewrite N.compare_refl. exact IH.
Qed.

Lemma compare_app_same_length (a b x y : string) :
  String.length a = String.length b ->
  String.compare (a ++ x)%string (b ++ y)%string
  = match String.compare a b with
    | Eq => String.compare x y
    | c => c
    end.
Proof.
  revert b. induction a as [|c a IH]; intros [|c' b] H; try discriminate.
  - reflexivity.
  - cbn [append String.compare]. destruct (Ascii.compare c c'); try reflexivity.
    apply IH. cbn in H. congruence.
Qed.

Lemma string_lt_trans (a b c : string) :
  String.compare a b = Lt -> String.compare b c = Lt -> String.compare a c = Lt.
Proof.
  intros H1 H2.
  assert (L1 : String.leb a b = true) by (unfold String.leb; rewrite H1; reflexivity).
  assert (L2 : String.leb b c = true) by (unfold String.leb; rewrite H2; reflexivity).
  pose proof (string_leb_trans _ _ _ L1 L2) as L3. unfold String.leb in L3.
  destruct (String.compare a c) eqn:E; try reflexivity; try discriminate.
  apply String.compare_eq_iff in E. subst c.
  rewrite String.compare_antisym, H1 in H2. discriminate.
Qed.

(** Two-digit fields: every pair of values below 100, computed. *)
Lemma two_digits_table :
  forallb (fun a =>
    forallb (fun b =>
      (String.length (padStart 2 (digits (N.of_nat a))) =? 2)%nat
      && match String.compare (padStart 2 (digits (N.of_nat a)))
                              (padStart 2 (digits (N.of_nat b))),
               (N.of_nat a ?= N.of_nat b)%N with
         | Eq, Eq | Lt, Lt | Gt, Gt => true
         | _, _ => false
         end) (seq 0 100)) (seq 0 100) = true.
Proof. vm_compute. reflexivity. Qed.

Lemma two_digits (a b : N) :
  (a < 100)%N -> (b < 100)%N ->
  String.length (padStart 2 (digits a)) = 2
  /\ String.compare (padStart 2 (digits a)) (padStart 2 (digits b))
     = (a ?= b)%N.
Proof.
  intros Ha Hb. pose proof two_digits_table as T.
  assert (Ia : In (N.to_nat a) (seq 0 100)) by (apply in_seq; lia).
  assert (Ib : In (N.to_nat b) (seq 0 100)) by (apply in_seq; lia).
  rewrite forallb_forall in T. specialize (T _ Ia).
  rewrite forallb_forall in T. specialize (T _ Ib).
  rewrite !N2Nat.id in T.
  apply andb_true_iff in T. destruct T as [T1 T2].
  apply Nat.eqb_eq in T1. split; [exact T1|].
  destruct (String.compare _ _), (a ?= b)%N; congruence.
Qed.

(** Years of four digits: every year next to its successor, computed. *)
Lemma year_table :
  forallb (fun h =>
    forallb (fun t =>
      (String.length (digits (100 * N.of_nat h + N.of_nat t)) =? 4)%nat
      && ((100 * N.of_nat h + N.of_nat t =? 9999)%N
          || match String.compare (digits (100 * N.of_nat h + N.of_nat t))
                                  (digits (N.succ (100 * N.of_nat h + N.of_nat t))) with
             | Lt => true
             | _ => false
             end)) (seq 0 100)) (seq 10 90) = true.
Proof. vm_compute. reflexivity. Qed.

Lemma year_step (y : N) :
  (1000 <= y <= 9999)%N ->
  String.length (digits y) = 4
  /\ ((y < 9999)%N -> String.compare (digits y) (digits (N.succ y)) = Lt).
Proof.
  intros Hy. pose proof year_table as T.
  assert (Hdiv : (10 <= y / 100 < 100)%N).
  { split.
    - apply N.div_le_lower_bound; lia.
    - apply N.Div0.div_lt_upper_bound; lia. }
  assert (Hmod : (y mod 100 < 100)%N) by (apply N.mod_lt; lia).
  assert (Hy' : y = (100 * (y / 100) + y mod 100)%N) by (apply N.div_mod; lia).
  revert Hdiv Hmod Hy'.
  generalize (y / 100)%N as h. generalize (y mod 100)%N as t.
  intros t h Hdiv Hmod Hy'.
  assert (Ih : In (N.to_nat h) (seq 10 90)) by (apply in_seq; lia).
  assert (It : In (N.to_nat t) (seq 0 100)) by (apply in_seq; lia).
  rewrite forallb_forall in T. specialize (T _ Ih).
  rewrite forallb_forall in T. specialize (T _ It).
  rewrite !N2Nat.id, <- Hy' in T.
  apply andb_true_iff in T. destruct T as [T1 T2].
  apply Nat.eqb_eq in T1. split; [exact T1|].
  intros Hlt. apply orb_true_iff in T2. destruct T2 as [T2|T2].
  - apply N.eqb_eq in T2. lia.
  - destruct (String.compare _ _); congruence.
Qed.

Lemma year_lt (k : nat) :
  forall a : N,
    (1000 <= a)%N -> (a + 1 + N.of_nat k <= 9999)%N ->
    String.compare (digits a) (digits (a + 1 + N.of_nat k)) = Lt.
Proof.
  induction k as [|k IH]; intros a Ha Hb.
  - replace (a + 1 + N.of_nat 0)%N with (N.succ a) by lia.
    apply year_step; lia.
  - apply string_lt_trans with (digits (a + 1 + N.of_nat k)).
    + apply IH; lia.
    + replace (a + 1 + N.of_nat (S k))%N with (N.succ (a + 1 + N.of_nat k)) by lia.
      apply year_step; lia.
Qed.

Lemma year_compare (a b : N) :
  (1000 <= a <= 9999)%N -> (1000 <= b <= 9999)%N ->
  String.compare (digits a) (digits b) = (a ?= b)%N.
Proof.
  intros Ha Hb. destruct (N.compare_spec a b) as [E|L|L].
  - subst b. apply string_compare_refl.
  - replace b with (a + 1 + N.of_nat (N.to_nat (b - a - 1)))%N by lia.
    apply year_lt; lia.
  - rewrite String.compare_antisym.
    replace a with (b + 1 + N.of_nat (N.to_nat (a - b - 1)))%N at 1 by lia.
    rewrite year_lt by lia. reflexivity.
Qed.

Lemma compare_next (a b : N) : (a + 1 ?= b + 1)%N = (a ?= b)%N.
Proof.
  destruct (N.compare_spec a b) as [E|L|L].
  - subst b. apply N.compare_refl.
  - apply N.compare_lt_iff. lia.
  - apply N.compare_gt_iff. lia.
Qed.

(** For clock readings in years of four digits, the byte order of the
    dates [getTodayLocalDate] formats is the order of the days they
    name: the descending sort of GET /api/days puts the most recent such
    date first. *)
Theorem helper_dates_sort_chronologically : forall a b : Date,
  calendar a = true ->
  calendar b = true ->
  String.compare (getTodayLocalDate a) (getTodayLocalDate b) = chronological a b.
Proof.
  intros a b Ha Hb. unfold calendar in Ha, Hb.
  repeat (apply andb_true_iff in Ha; destruct Ha as [Ha ?]).
  repeat (apply andb_true_iff in Hb; destruct Hb as [Hb ?]).
  repeat match goal with
         | H : (_ <=? _)%N = true |- _ => apply N.leb_le in H
         end.
  unfold getTodayLocalDate, chronological.
  destruct (year_step (getFullYear a)) as [La _]; [lia|].
  destruct (year_step (getFullYear b)) as [Lb _]; [lia|].
  rewrite compare_app_same_length by congruence.
  rewrite year_compare by lia.
  destruct (getFullYear a ?= getFullYear b)%N; try reflexivity.
  change ("-" ++ ?x)%string with (String "-" x).
  cbn [String.compare]. change (Ascii.compare "-" "-") with Eq. cbv iota.
  destruct (two_digits (getMonth a + 1) (getMonth b + 1)) as [Lm Cm]; [lia|lia|].
  destruct (two_digits (getMonth b + 1) (getMonth a + 1)) as [Lm' _]; [lia|lia|].
  rewrite compare_app_same_length by congruence.
  rewrite Cm, compare_next.
  destruct (getMonth a ?= getMonth b)%N; try reflexivity.
  cbn [String.compare]. change (Ascii.compare "-" "-") with Eq. cbv iota.
  apply two_digits; lia.
Qed.

Lemma helper_dates_sort_chronologically_witness :
  String.compare
    (getTodayLocalDate {| getFullYear := 2024; getMonth := 0; getDate := 15 |})
    (getTodayLocalDate {| getFullYear := 2023; getMonth := 11; getDate := 31 |})
  = chronological {| getFullYear := 2024; getMonth := 0; getDate := 15 |}
                  {| getFullYear := 2023; getMonth := 11; getDate := 31 |}.
Proof.
  apply helper_dates_sort_chronologically; reflexivity.
Defined.

End HelperDates.

(* ================================================================== *)
(** ** Dates the store never holds                                     *)
(* ================================================================== *)

Section UnreachableDates.

Import App Day Ledger.

Lemma all_digits_after (a b : string) :
  all_digits a = true -> after_digits (a ++ b)%string = after_digits b.
Proof.
  induction a as [|c a IH]; cbn [all_digits append after_digits]; intros H.
  - reflexivity.
  - apply andb_true_iff in H. destruct H as [Hc Ha]. rewrite Hc. apply IH, Ha.
Qed.

Lemma all_digits_app (a b : string) :
  all_digits a = true -> all_digits b = true -> all_digits (a ++ b)%string = true.
Proof.
  induction a as [|c a IH]; cbn [all_digits append]; intros Ha Hb.
  - exact Hb.
  - apply andb_true_iff in Ha. destruct Ha as [Hc Ha].
    rewrite Hc. apply IH; assumption.
Qed.

Lemma all_digits_substring (s : string) :
  all_digits s = true -> forall i n, all_digits (substring i n s) = true.
Proof.
  induction s as [|c s IH]; intros H i n.
  - destruct i, n; reflexivity.
  - cbn [all_digits] in H. apply andb_true_iff in H. destruct H as [Hc Hs].
    destruct i as [|i]; cbn [substring].
    + destruct n as [|n]; [reflexivity|].
      cbn [all_digits]. rewrite Hc. apply IH, Hs.
    + apply IH, Hs.
Qed.

Lemma all_digits_zeros (k : nat) : all_digits (zeros k) = true.
Proof. induction k as [|k IH]; [reflexivity|exact IH]. Qed.

Lemma all_digits_uint (d : Decimal.uint) :
  all_digits (NilEmpty.string_of_uint d) = true.
Proof. induction d; cbn [NilEmpty.string_of_uint all_digits]; auto. Qed.

Lemma all_digits_digits (n : N) : all_digits (digits n) = true.
Proof.
  unfold digits, NilZero.string_of_uint.
  destruct (N.to_uint n); try reflexivity; apply all_digits_uint.
Qed.

Lemma digits_head (n : N) :
  exists c r, digits n = String c r /\ is_digit c = true.
Proof.
  pose proof (all_digits_digits n) as H. unfold digits in *.
  pose proof (numeral_not_empty (N.to_uint n)) as He.
  destruct (NilZero.string_of_uint (N.to_uint n)) as [|c r]; [discriminate|].
  cbn [all_digits] in H. apply andb_true_iff in H. exists c, r. tauto.
Qed.

Lemma all_digits_not_dashed (s : string) : all_digits s = true -> dashed s = false.
Proof.
  intros H. unfold dashed.
  rewrite <- (append_empty_r s), (all_digits_after s "" H).
  apply andb_false_r.
Qed.

Lemma digits_then_not_dashed (a b : string) (c : ascii) :
  all_digits a = true -> is_digit c = false -> (c =? "-")%char = false ->
  dashed (a ++ String c b)%string = false.
Proof.
  intros Ha Hc Hne. unfold dashed. rewrite (all_digits_after a _ Ha).
  cbn [after_digits]. rewrite Hc, Hne. apply andb_false_r.
Qed.

Lemma format_decimal_not_dashed (s : string) (n : Z) :
  all_digits s = true -> dashed (format_decimal s n) = false.
Proof.
  intros H. unfold format_decimal.
  repeat match goal with
         | |- context [if ?b then _ else _] => destruct b
         end.
  - apply all_digits_not_dashed, all_digits_app; [exact H|apply all_digits_zeros].
  - apply digits_then_not_dashed;
      [apply all_digits_substring; exact H|reflexivity|reflexivity].
  - reflexivity.
  - apply digits_then_not_dashed; [exact H|reflexivity|reflexivity].
  - apply digits_then_not_dashed; [exact H|reflexivity|reflexivity].
  - apply digits_then_not_dashed;
      [apply all_digits_substring; exact H|reflexivity|reflexivity].
  - apply digits_then_not_dashed;
      [apply all_digits_substring; exact H|reflexivity|reflexivity].
Qed.

Lemma number_toString_not_dashed (x : number) : dashed (number_toString x) = false.
Proof.
  destruct x as [|s|q]; cbn [number_toString].
  - reflexivity.
  - destruct s; reflexivity.
  - destruct (Qeq_bool q 0); [reflexivity|].
    destruct (Qle_bool 0 q); [|reflexivity].
    unfold positive_toString.
    destruct (to_decimal _ _ _) as [m t].
    destruct (strip_zeros _ _) as [s z].
    apply format_decimal_not_dashed, all_digits_digits.
Qed.

Lemma helper_date_dashed (now : Date) : dashed (getTodayLocalDate now) = true.
Proof.
  unfold getTodayLocalDate, dashed.
  change ("-" ++ ?x)%string with (String "-" x).
  rewrite (all_digits_after _ _ (all_digits_digits (getFullYear now))).
  destruct (digits_head (getFullYear now)) as (c & r & -> & Hc).
  cbn [append after_digits]. rewrite Hc. reflexivity.
Qed.

Lemma helper_date_not_numeric (now : Date) :
  isNaN (Str (getTodayLocalDate now)) = true.
Proof.
  unfold isNaN, ToNumber, getTodayLocalDate, digits.
  change ("-" ++ ?x)%string with (String "-" x).
  rewrite dashed_numeral_is_NaN. reflexivity.
Qed.

(** No value that passes the [date] tests is cast to a date the helper
    formats. *)
Lemma accepted_key_not_helper_date (v : value) (key : string) (now : Date) :
  isNaN v = false -> castString v = Some key -> key <> getTodayLocalDate now.
Proof.
  intros Hn Hk Heq. subst key. destruct v as [| |b|n|s]; cbn [castString] in Hk.
  - discriminate.
  - discriminate.
  - injection Hk as Hk. pose proof (helper_date_dashed now) as Hd.
    rewrite <- Hk in Hd. destruct b; discriminate.
  - injection Hk as Hk. pose proof (helper_date_dashed now) as Hd.
    rewrite <- Hk, number_toString_not_dashed in Hd. discriminate.
  - injection Hk as Hk. subst s.
    rewrite helper_date_not_numeric in Hn. discriminate.
Qed.

Lemma findOneAndUpdate_new_date (f : value) (u : update) (db : database)
      (k : string) :
  In k (map date (days (snd (findOneAndUpdate f u db)))) ->
  In k (map date (days db)) \/ castString f = Some k.
Proof.
  unfold findOneAndUpdate. destruct (connected db); cbn [negb snd]; [|auto].
  destruct (castString f) as [key|]; cbn [snd]; [|auto].
  destruct (update_first key u (days db)) as [[d' l']|] eqn:E; cbn [snd days].
  - apply update_first_dates in E. destruct E as [Hm _]. rewrite Hm. auto.
  - rewrite map_app, in_app_iff. cbn [map In]. rewrite upserted_date.
    intros [H|[H|[]]]; [left; exact H|right; congruence].
Qed.

Lemma route_new_date (q : request) (db : database) (k : string) :
  In k (map date (days (snd (run (route q) db)))) ->
  In k (map date (days db)) \/ (invalid q = false /\ key_of q = Some k).
Proof.
  rewrite snd_run_route. destruct q as [|req|req]; cbn [invalid key_of].
  - auto.
  - destruct (meal_invalid req); [auto|]. intros H.
    apply findOneAndUpdate_new_date in H. tauto.
  - destruct (reset_invalid req); [auto|]. intros H.
    apply findOneAndUpdate_new_date in H. tauto.
Qed.

(** Whatever requests are served from the empty store, and whatever the
    clock reads, the store never holds a document under a date that
    [getTodayLocalDate] formats. *)
Theorem helper_dates_never_stored :
  forall (qs : list request) (now : Date),
    ~ In (getTodayLocalDate now) (map date (days (serve qs empty))).
Proof.
  intros qs now.
  assert (H0 : ~ In (getTodayLocalDate now) (map date (days empty)))
    by (intros []).
  revert H0. generalize empty as db.
  induction qs as [|q qs IH]; intros db Hdb; cbn [serve].
  - exact Hdb.
  - apply IH. intros Hin. apply route_new_date in Hin.
    destruct Hin as [Hin|[Hv Hk]]; [exact (Hdb Hin)|].
    destruct q as [|req|req]; cbn [invalid key_of] in Hv, Hk.
    + discriminate.
    + apply meal_valid_parts in Hv.
      eapply accepted_key_not_helper_date; [|exact Hk|reflexivity]. tauto.
    + unfold reset_invalid in Hv. apply orb_false_iff in Hv.
      eapply accepted_key_not_helper_date; [|exact Hk|reflexivity]. tauto.
Qed.

End UnreachableDates.

(* ================================================================== *)
(** ** Listings of reachable stores and the helper's format            *)
(* ================================================================== *)

Section ReachableListings.

Import App Day Ledger.

Lemma count_le_nodup (l : list doc) :
  (forall key, count key l <= 1) -> NoDup (map date l).
Proof.
  induction l as [|x l IH]; intros Hu; cbn [map].
  - constructor.
  - constructor.
    + intros Hin. apply in_map_iff in Hin. destruct Hin as (y & Hy & Hin).
      pose proof (count_in_pos (date x) y l Hin Hy) as Hpos.
      specialize (Hu (date x)). rewrite count_cons in Hu.
      replace (has_date (date x) x) with true in Hu
        by (symmetry; apply has_date_true; reflexivity).
      lia.
    + apply IH. intros key. specialize (Hu key). rewrite count_cons in Hu. lia.
Qed.

Lemma serve_keeps_dates_unique (qs : list request) :
  forall db : database,
    (forall key, count key (days db) <= 1) ->
    forall key, count key (days (serve qs db)) <= 1.
Proof.
  induction qs as [|q qs IH]; intros db H; cbn [serve].
  - exact H.
  - apply IH. apply route_keeps_dates_unique. exact H.
Qed.

Lemma serve_connected (qs : list request) :
  forall db : database, connected (serve qs db) = connected db.
Proof.
  induction qs as [|q qs IH]; intros db; cbn [serve].
  - reflexivity.
  - rewrite IH, snd_run_route. destruct q as [|req|req].
    + reflexivity.
    + destruct (meal_invalid req); [reflexivity|apply findOneAndUpdate_connected].
    + destruct (reset_invalid req); [reflexivity|apply findOneAndUpdate_connected].
Qed.

(** Whatever requests were served from the empty store, GET /api/days
    answers 200 with a list in which no date appears twice. *)
Theorem listing_shows_each_date_once : forall qs : list request,
  exists l : list doc,
    fst (run get_api_days (serve qs empty))
    = {| status := 200; json := Documents l |}
    /\ NoDup (map date l).
Proof.
  intros qs. exists (sort_desc (days (serve qs empty))).
  rewrite run_get_api_days, serve_connected. cbn [connected empty fst].
  split; [reflexivity|].
  eapply Permutation_NoDup.
  - apply Permutation_map, Permutation_sym, sort_desc_perm.
  - apply count_le_nodup, serve_keeps_dates_unique.
    intros key. unfold count. cbn. lia.
Qed.

Lemma length_append (a b : string) :
  String.length (a ++ b)%string = String.length a + String.length b.
Proof. induction a as [|c a IH]; cbn; [reflexivity|rewrite IH; reflexivity]. Qed.

Lemma all_digits_padStart (n : nat) (s : string) :
  all_digits s = true -> all_digits (padStart n s) = true.
Proof.
  intros H. unfold padStart. apply all_digits_app; [apply all_digits_zeros|exact H].
Qed.

(** For a clock reading in a year of four digits the helper's date is in
    YYYY-MM-DD format: ten characters, made of four digits, a hyphen, two
    digits, a hyphen and two digits. *)
Theorem helper_date_format : forall now : Date,
  calendar now = true ->
  exists y m d : string,
    getTodayLocalDate now = (y ++ "-" ++ m ++ "-" ++ d)%string
    /\ String.length y = 4 /\ String.length m = 2 /\ String.length d = 2
    /\ all_digits y = true /\ all_digits m = true /\ all_digits d = true
    /\ String.length (getTodayLocalDate now) = 10.
Proof.
  intros now H. unfold calendar in H.
  repeat (apply andb_true_iff in H; destruct H as [H ?]).
  repeat match goal with
         | Hle : (_ <=? _)%N = true |- _ => apply N.leb_le in Hle
         end.
  destruct (year_step (getFullYear now)) as [Ly _]; [lia|].
  destruct (two_digits (getMonth now + 1) (getMonth now + 1)) as [Lm _]; [lia|lia|].
  destruct (two_digits (getDate now) (getDate now)) as [Ld _]; [lia|lia|].
  exists (digits (getFullYear now)), (padStart 2 (digits (getMonth now + 1))),
    (padStart 2 (digits (getDate now))).
  split; [reflexivity|].
  repeat split; try assumption;
    try (apply all_digits_digits); try (apply all_digits_padStart, all_digits_digits).
  unfold getTodayLocalDate. rewrite !length_append, Ly, Lm, Ld. reflexivity.
Qed.

Lemma helper_date_format_witness :
  exists y m d : string,
    getTodayLocalDate {| getFullYear := 2024; getMonth := 0; getDate := 5 |}
    = (y ++ "-" ++ m ++ "-" ++ d)%string
    /\ String.length y = 4 /\ String.length m = 2 /\ String.length d = 2
    /\ all_digits y = true /\ all_digits m = true /\ all_digits d = true
    /\ String.length
         (getTodayLocalDate {| getFullYear := 2024; getMonth := 0; getDate := 5 |})
       = 10.
Proof.
  apply helper_date_format. reflexivity.
Defined.

End ReachableListings.
